(** * Homesafe backend: a shallow embedding of [backend/server.py]

    The FastAPI handlers of the intruder-alarm backend are embedded as
    computations in a state-and-exception monad over a [World] that holds
    the five MongoDB collections, the requests handed to the Twilio
    client, and the records written through [logger].

    Conventions of the embedding:
    - a collection is the list of its documents in insertion order;
      [find_one], [update_one] and [delete_one] act on the first document
      matching the filter, [delete_many] on all of them;
    - a pydantic model is a record, a [Literal] type is an enumeration;
    - a [datetime] is kept as such in a stored document (the source stores
      [isoformat()] text and parses it back with [fromisoformat] on read);
    - [uuid.uuid4()], [datetime.now(timezone.utc)], the process
      environment, the SMS provider and the order of a sorted cursor are
      supplied by an [Environ]. *)

From Stdlib Require Import String Ascii List Bool Arith ZArith Lia DecimalString.
Import ListNotations.

Local Open Scope string_scope.
Local Open Scope list_scope.

Declare Scope py_scope.
Delimit Scope py_scope with py.
Notation "s1 +++ s2" := (String.append s1 s2)
  (at level 60, right associativity) : py_scope.
Local Open Scope py_scope.

(* ================================================================== *)
(** ** Models *)

Definition datetime := Z.

Inductive SensorType := motion | door | window.
Inductive SensorStatus := active | inactive | triggered | offline.
Inductive Severity := info | warning | danger.
Inductive Mode := armed | disarmed | monitoring.

Inductive EventType :=
| intrusion | ev_armed | ev_disarmed | monitor_start | monitor_stop
| sensor_triggered | sensor_added | sensor_removed
| zone_added | zone_removed | sms_sent | system.

Definition SensorType_str (t : SensorType) : string :=
  match t with motion => "motion" | door => "door" | window => "window" end.

Definition Severity_str (s : Severity) : string :=
  match s with info => "info" | warning => "warning" | danger => "danger" end.

Definition EventType_str (t : EventType) : string :=
  match t with
  | intrusion => "intrusion" | ev_armed => "armed" | ev_disarmed => "disarmed"
  | monitor_start => "monitor_start" | monitor_stop => "monitor_stop"
  | sensor_triggered => "sensor_triggered" | sensor_added => "sensor_added"
  | sensor_removed => "sensor_removed" | zone_added => "zone_added"
  | zone_removed => "zone_removed" | sms_sent => "sms_sent"
  | system => "system"
  end.

Definition SensorType_eqb (a b : SensorType) : bool :=
  match a, b with
  | motion, motion | door, door | window, window => true
  | _, _ => false
  end.

Definition SensorStatus_eqb (a b : SensorStatus) : bool :=
  match a, b with
  | active, active | inactive, inactive
  | triggered, triggered | offline, offline => true
  | _, _ => false
  end.

Definition Mode_eqb (a b : Mode) : bool :=
  match a, b with
  | armed, armed | disarmed, disarmed | monitoring, monitoring => true
  | _, _ => false
  end.

Definition EventType_eqb (a b : EventType) : bool :=
  String.eqb (EventType_str a) (EventType_str b).

Record Zone := mkZone {
  zone_id_ : string;
  zone_name : string;
  zone_description : option string;
  zone_image_url : option string;
  zone_created_at : datetime
}.

Record ZoneCreate := mkZoneCreate {
  zc_name : string;
  zc_description : option string;
  zc_image_url : option string
}.

Record ZoneUpdate := mkZoneUpdate {
  zu_name : option string;
  zu_description : option string;
  zu_image_url : option string
}.

Record Sensor := mkSensor {
  sensor_id_ : string;
  sensor_name : string;
  sensor_type : SensorType;
  sensor_zone_id : string;
  sensor_status : SensorStatus;
  sensor_battery_level : Z;
  sensor_last_triggered : option datetime;
  sensor_created_at : datetime
}.

Record SensorCreate := mkSensorCreate {
  sc_name : string;
  sc_type : SensorType;
  sc_zone_id : string;
  sc_battery_level : option Z
}.

Record SensorUpdate := mkSensorUpdate {
  su_name : option string;
  su_zone_id : option string;
  su_status : option SensorStatus;
  su_battery_level : option Z
}.

Record Event := mkEvent {
  event_id : string;
  event_type : EventType;
  event_message : string;
  event_severity : Severity;
  event_sensor_id : option string;
  event_zone_id : option string;
  event_timestamp : datetime
}.

Record SystemState := mkSystemState {
  state_id : string;
  state_mode : Mode;
  state_updated_at : datetime
}.

Record SystemStateUpdate := mkSystemStateUpdate { ssu_mode : Mode }.

Record Settings := mkSettings {
  settings_id : string;
  sms_enabled : bool;
  alert_phone_number : option string;
  settings_updated_at : datetime
}.

Record SettingsUpdate := mkSettingsUpdate {
  stu_sms_enabled : option bool;
  stu_alert_phone_number : option string
}.

Record SensorTrigger := mkSensorTrigger { trigger_sensor_id : string }.

(** A document of [db.settings].  The collection is also written by an
    upsert whose [$set] carries only the supplied keys, so every key but
    [id] may be missing; [None] stands for a missing key or a stored null,
    which [dict.get] does not tell apart. *)
Record SettingsDoc := mkSettingsDoc {
  sd_id : string;
  sd_sms_enabled : option bool;
  sd_alert_phone_number : option string;
  sd_updated_at : option datetime
}.

(* ================================================================== *)
(** ** The world *)

Record Db := mkDb {
  zones : list Zone;
  sensors : list Sensor;
  events : list Event;
  system_state : list SystemState;
  settings : list SettingsDoc
}.

(** One call of [twilio_client.messages.create]. *)
Record SmsRequest := mkSmsRequest {
  sms_body : string;
  sms_from : option string;
  sms_to : string
}.

Inductive LogLevel := INFO | ERROR.

Record World := mkWorld {
  db : Db;
  uuid_draws : nat;
  clock_reads : nat;
  twilio_requests : list SmsRequest;
  log_records : list (LogLevel * string)
}.

(** What the process is given from outside. *)
Record Environ := mkEnviron {
  uuid4 : nat -> string;
  utcnow : nat -> datetime;
  TWILIO_ACCOUNT_SID : option string;
  TWILIO_AUTH_TOKEN : option string;
  TWILIO_PHONE_NUMBER : option string;
  (** whether [TwilioClient(sid, token)] returns rather than raises *)
  TwilioClient_ok : bool;
  (** outcome of the n-th [messages.create]: [None] when the provider
      accepts the message, [Some e] when the call raises with text [e] *)
  messages_create : nat -> SmsRequest -> option string;
  (** the order in which the store returns the events for
      [sort("timestamp", -1)] *)
  sort_timestamp_desc : list Event -> list Event
}.

Definition empty_db : Db := mkDb [] [] [] [] [].

Definition initial_world : World := mkWorld empty_db 0 0 [] [].

Definition with_zones (f : list Zone -> list Zone) (w : World) : World :=
  let d := db w in
  mkWorld (mkDb (f (zones d)) (sensors d) (events d) (system_state d) (settings d))
          (uuid_draws w) (clock_reads w) (twilio_requests w) (log_records w).

Definition with_sensors (f : list Sensor -> list Sensor) (w : World) : World :=
  let d := db w in
  mkWorld (mkDb (zones d) (f (sensors d)) (events d) (system_state d) (settings d))
          (uuid_draws w) (clock_reads w) (twilio_requests w) (log_records w).

Definition with_events (f : list Event -> list Event) (w : World) : World :=
  let d := db w in
  mkWorld (mkDb (zones d) (sensors d) (f (events d)) (system_state d) (settings d))
          (uuid_draws w) (clock_reads w) (twilio_requests w) (log_records w).

Definition with_system_state (f : list SystemState -> list SystemState)
  (w : World) : World :=
  let d := db w in
  mkWorld (mkDb (zones d) (sensors d) (events d) (f (system_state d)) (settings d))
          (uuid_draws w) (clock_reads w) (twilio_requests w) (log_records w).

Definition with_settings (f : list SettingsDoc -> list SettingsDoc)
  (w : World) : World :=
  let d := db w in
  mkWorld (mkDb (zones d) (sensors d) (events d) (system_state d) (f (settings d)))
          (uuid_draws w) (clock_reads w) (twilio_requests w) (log_records w).

(* ================================================================== *)
(** ** Handlers as computations *)

Inductive Exn :=
| HTTPException (status_code : nat) (detail : string)
| ValidationError (what : string)
| KeyError (key : string)
| AttributeError (text : string)
| TypeError (text : string)
| ValueError (text : string)
| OverflowError (text : string)
| TwilioException (text : string).

(** [str(e)], the text an [except Exception as e] clause formats. *)
Definition Exn_str (e : Exn) : string :=
  match e with
  | HTTPException c d => NilZero.string_of_uint (Nat.to_uint c) +++ ": " +++ d
  | ValidationError s => s
  | KeyError k => "'" +++ k +++ "'"
  | AttributeError t => t
  | TypeError t => t
  | ValueError t => t
  | OverflowError t => t
  | TwilioException t => t
  end.

Inductive Outcome (A : Type) :=
| Return (a : A)
| Raise (e : Exn).
Arguments Return {A} a.
Arguments Raise {A} e.

Definition M (A : Type) : Type := World -> Outcome A * World.

Definition ret {A} (a : A) : M A := fun w => (Return a, w).

Definition raise {A} (e : Exn) : M A := fun w => (Raise e, w).

Definition bind {A B} (c : M A) (k : A -> M B) : M B :=
  fun w =>
    match c w with
    | (Return a, w') => k a w'
    | (Raise e, w') => (Raise e, w')
    end.

(** [try: body  except Exception as e: handler e] *)
Definition try_except {A} (body : M A) (handler : Exn -> M A) : M A :=
  fun w =>
    match body w with
    | (Return a, w') => (Return a, w')
    | (Raise e, w') => handler e w'
    end.

Definition get_world : M World := fun w => (Return w, w).

Definition modify (f : World -> World) : M unit := fun w => (Return tt, f w).

Notation "x <- c ;; k" := (bind c (fun x => k))
  (at level 100, c at next level, right associativity) : py_scope.
Notation "c ;;; k" := (bind c (fun _ => k))
  (at level 100, right associativity) : py_scope.

(* ------------------------------------------------------------------ *)
(** *** Collection primitives *)

Section Collection.
Context {A : Type}.

Definition find_one (p : A -> bool) (l : list A) : option A := find p l.

(** [$set] on the first matching document. *)
Fixpoint update_first (p : A -> bool) (f : A -> A) (l : list A) : list A :=
  match l with
  | [] => []
  | x :: r => if p x then f x :: r else x :: update_first p f r
  end.

Definition matched_count (p : A -> bool) (l : list A) : nat :=
  if existsb p l then 1 else 0.

Fixpoint delete_first (p : A -> bool) (l : list A) : list A :=
  match l with
  | [] => []
  | x :: r => if p x then r else x :: delete_first p r
  end.

Definition delete_all (p : A -> bool) (l : list A) : list A :=
  filter (fun x => negb (p x)) l.

Definition count_documents (p : A -> bool) (l : list A) : nat :=
  length (filter p l).
End Collection.

(** Python truth value of an [Optional[str]]. *)
Definition truthy_str (o : option string) : bool :=
  match o with
  | Some s => negb (String.eqb s "")
  | None => false
  end.

Definition truthy_bool (o : option bool) : bool :=
  match o with Some b => b | None => false end.

(** [str.capitalize] on ASCII text. *)
Definition upper_ascii (c : ascii) : ascii :=
  let n := nat_of_ascii c in
  if ((97 <=? n) && (n <=? 122))%nat then ascii_of_nat (n - 32) else c.

Definition lower_ascii (c : ascii) : ascii :=
  let n := nat_of_ascii c in
  if ((65 <=? n) && (n <=? 90))%nat then ascii_of_nat (n + 32) else c.

Fixpoint lower (s : string) : string :=
  match s with
  | EmptyString => EmptyString
  | String c r => String (lower_ascii c) (lower r)
  end.

Definition capitalize (s : string) : string :=
  match s with
  | EmptyString => EmptyString
  | String c r => String (upper_ascii c) (lower r)
  end.

(** The keys of a [$set] document, one constructor per key written by
    some handler. *)
Inductive ZoneField :=
| z_name (v : string)
| z_description (v : string)
| z_image_url (v : string).

Inductive SensorField :=
| s_name (v : string)
| s_zone_id (v : string)
| s_status (v : SensorStatus)
| s_battery_level (v : Z)
| s_last_triggered (v : datetime).

Inductive SettingsField :=
| st_sms_enabled (v : bool)
| st_alert_phone_number (v : string)
| st_updated_at (v : datetime).

Definition set_zone_field (z : Zone) (f : ZoneField) : Zone :=
  match f with
  | z_name v =>
      mkZone (zone_id_ z) v (zone_description z) (zone_image_url z) (zone_created_at z)
  | z_description v =>
      mkZone (zone_id_ z) (zone_name z) (Some v) (zone_image_url z) (zone_created_at z)
  | z_image_url v =>
      mkZone (zone_id_ z) (zone_name z) (zone_description z) (Some v) (zone_created_at z)
  end.

Definition set_sensor_field (s : Sensor) (f : SensorField) : Sensor :=
  match f with
  | s_name v =>
      mkSensor (sensor_id_ s) v (sensor_type s) (sensor_zone_id s) (sensor_status s)
               (sensor_battery_level s) (sensor_last_triggered s) (sensor_created_at s)
  | s_zone_id v =>
      mkSensor (sensor_id_ s) (sensor_name s) (sensor_type s) v (sensor_status s)
               (sensor_battery_level s) (sensor_last_triggered s) (sensor_created_at s)
  | s_status v =>
      mkSensor (sensor_id_ s) (sensor_name s) (sensor_type s) (sensor_zone_id s) v
               (sensor_battery_level s) (sensor_last_triggered s) (sensor_created_at s)
  | s_battery_level v =>
      mkSensor (sensor_id_ s) (sensor_name s) (sensor_type s) (sensor_zone_id s)
               (sensor_status s) v (sensor_last_triggered s) (sensor_created_at s)
  | s_last_triggered v =>
      mkSensor (sensor_id_ s) (sensor_name s) (sensor_type s) (sensor_zone_id s)
               (sensor_status s) (sensor_battery_level s) (Some v) (sensor_created_at s)
  end.

Definition set_settings_field (d : SettingsDoc) (f : SettingsField) : SettingsDoc :=
  match f with
  | st_sms_enabled v =>
      mkSettingsDoc (sd_id d) (Some v) (sd_alert_phone_number d) (sd_updated_at d)
  | st_alert_phone_number v =>
      mkSettingsDoc (sd_id d) (sd_sms_enabled d) (Some v) (sd_updated_at d)
  | st_updated_at v =>
      mkSettingsDoc (sd_id d) (sd_sms_enabled d) (sd_alert_phone_number d) (Some v)
  end.

(** [{"$set": update_data}] applied to one document. *)
Definition set_zone (update_data : list ZoneField) (z : Zone) : Zone :=
  fold_left set_zone_field update_data z.

Definition set_sensor (update_data : list SensorField) (s : Sensor) : Sensor :=
  fold_left set_sensor_field update_data s.

Definition set_settings (update_data : list SettingsField) (d : SettingsDoc)
  : SettingsDoc :=
  fold_left set_settings_field update_data d.

(** [[k v] if v is not None], for the dict comprehensions over
    [update.model_dump().items()]. *)
Definition supplied {A F : Type} (key : A -> F) (v : option A) : list F :=
  match v with Some a => [key a] | None => [] end.

Definition zone_update_data (update : ZoneUpdate) : list ZoneField :=
  supplied z_name (zu_name update)
  ++ supplied z_description (zu_description update)
  ++ supplied z_image_url (zu_image_url update).

Definition sensor_update_data (update : SensorUpdate) : list SensorField :=
  supplied s_name (su_name update)
  ++ supplied s_zone_id (su_zone_id update)
  ++ supplied s_status (su_status update)
  ++ supplied s_battery_level (su_battery_level update).

Definition settings_update_data (update : SettingsUpdate) : list SettingsField :=
  supplied st_sms_enabled (stu_sms_enabled update)
  ++ supplied st_alert_phone_number (stu_alert_phone_number update).

(** The value of a key after a partial update: the supplied one, or the
    old one when none was supplied. *)
Definition patched {A} (supplied_value : option A) (old : A) : A :=
  match supplied_value with Some a => a | None => old end.

Definition patched_opt {A} (supplied_value old : option A) : option A :=
  match supplied_value with Some a => Some a | None => old end.

(** The integers a stored document can hold.  The driver encodes a
    document before it sends it, and refuses an integer that does not
    fit eight bytes with an [OverflowError]; [battery_level] is the only
    integer the handlers store. *)
Definition int64 (n : Z) : bool :=
  ((-9223372036854775808 <=? n) && (n <=? 9223372036854775807))%Z.

Definition sensor_field_encodable (f : SensorField) : bool :=
  match f with
  | s_battery_level v => int64 v
  | _ => true
  end.

Definition encodable (update_data : list SensorField) : bool :=
  forallb sensor_field_encodable update_data.

Definition bson_overflow : Exn :=
  OverflowError "MongoDB can only handle up to 8-byte ints".

(** [not update_data] *)
Definition is_empty {A} (l : list A) : bool :=
  match l with [] => true | _ :: _ => false end.

(** Filters. *)
Definition zone_has_id (i : string) (z : Zone) : bool := String.eqb (zone_id_ z) i.
Definition sensor_has_id (i : string) (s : Sensor) : bool := String.eqb (sensor_id_ s) i.
Definition sensor_in_zone (i : string) (s : Sensor) : bool :=
  String.eqb (sensor_zone_id s) i.
Definition is_system_state (s : SystemState) : bool :=
  String.eqb (state_id s) "system_state".
Definition is_settings (d : SettingsDoc) : bool := String.eqb (sd_id d) "settings".

Record TriggerResponse := mkTriggerResponse {
  alert : bool;
  message : string;
  severity : string
}.

Record DashboardStats := mkDashboardStats {
  system_mode : Mode;
  zones_count : nat;
  sensors_count : nat;
  triggered_count : nat;
  recent_events : list Event
}.

Section Server.
Variable E : Environ.

(** [uuid.uuid4()] and [datetime.now(timezone.utc)] *)
Definition uuid4_str : M string :=
  fun w => (Return (uuid4 E (uuid_draws w)),
            mkWorld (db w) (S (uuid_draws w)) (clock_reads w)
                    (twilio_requests w) (log_records w)).

Definition datetime_now : M datetime :=
  fun w => (Return (utcnow E (clock_reads w)),
            mkWorld (db w) (uuid_draws w) (S (clock_reads w))
                    (twilio_requests w) (log_records w)).

Definition logger (level : LogLevel) (msg : string) : M unit :=
  fun w => (Return tt,
            mkWorld (db w) (uuid_draws w) (clock_reads w)
                    (twilio_requests w) (log_records w ++ [(level, msg)])).

(** The module-level [twilio_client]: [None] unless both credentials are
    set and the constructor returns. *)
Definition twilio_client : option unit :=
  if truthy_str (TWILIO_ACCOUNT_SID E) && truthy_str (TWILIO_AUTH_TOKEN E)
  then (if TwilioClient_ok E then Some tt else None)
  else None.

Definition twilio_phone_number : option string := TWILIO_PHONE_NUMBER E.

(** [twilio_client.messages.create(body=.., from_=.., to=..)] *)
Definition twilio_messages_create (body : string) (from_ : option string)
  (to : string) : M unit :=
  fun w =>
    let req := mkSmsRequest body from_ to in
    let w' := mkWorld (db w) (uuid_draws w) (clock_reads w)
                      (twilio_requests w ++ [req]) (log_records w) in
    match messages_create E (length (twilio_requests w)) req with
    | None => (Return tt, w')
    | Some e => (Raise (TwilioException e), w')
    end.

(** [d[key]] on a key that may be missing *)
Definition getitem {A} (key : string) (v : option A) : M A :=
  match v with Some a => ret a | None => raise (KeyError key) end.

(** The result of a [find_one] used as a dict without a test for
    [None]: [doc.get(..)] or [doc[..]] raises [e] on [None]. *)
Definition deref {A} (e : Exn) (v : option A) : M A :=
  match v with Some a => ret a | None => raise e end.

Definition NoneType_get : Exn :=
  AttributeError "'NoneType' object has no attribute 'get'".

Definition NoneType_subscript : Exn :=
  TypeError "'NoneType' object is not subscriptable".

(* ---------------------------------------------------------------- *)
(** *** Helper functions *)

Definition log_event (event_type : EventType) (msg : string)
  (sev : Severity) (sensor_id zone_id : option string) : M Event :=
  i <- uuid4_str ;;
  ts <- datetime_now ;;
  let event := mkEvent i event_type msg sev sensor_id zone_id ts in
  modify (with_events (fun l => l ++ [event])) ;;;
  ret event.

Definition send_sms_alert (msg : string) : M bool :=
  w <- get_world ;;
  let settings := find_one is_settings (settings (db w)) in
  if match settings with
     | None => true
     | Some st => negb (truthy_bool (sd_sms_enabled st))
                  || negb (truthy_str (sd_alert_phone_number st))
     end
  then
    logger INFO "SMS alerts disabled or no phone number configured" ;;;
    ret false
  else if match twilio_client with None => true | Some _ => false end
          || negb (truthy_str twilio_phone_number)
  then
    logger ERROR "Twilio not configured" ;;;
    ret false
  else
    try_except
      (to <- getitem "alert_phone_number"
               (match settings with
                | Some st => sd_alert_phone_number st
                | None => None
                end) ;;
       twilio_messages_create msg twilio_phone_number to ;;;
       log_event sms_sent ("SMS alert sent: " +++ msg) info None None ;;;
       logger INFO ("SMS sent to " +++ to) ;;;
       ret true)
      (fun e =>
         logger ERROR ("Failed to send SMS: " +++ Exn_str e) ;;;
         ret false).

Definition get_system_state : M SystemState :=
  w <- get_world ;;
  match find_one is_system_state (system_state (db w)) with
  | None =>
      t <- datetime_now ;;
      let default_state := mkSystemState "system_state" disarmed t in
      modify (with_system_state (fun l => l ++ [default_state])) ;;;
      ret default_state
  | Some state => ret state
  end.

(* ---------------------------------------------------------------- *)
(** *** Routes: system state *)

Definition root : M string := ret "Home Intruder Alarm System API".

Definition get_state : M SystemState := get_system_state.

Definition update_state (update : SystemStateUpdate) : M SystemState :=
  current_state <- get_system_state ;;
  let old_mode := state_mode current_state in
  let new_mode := ssu_mode update in
  t <- datetime_now ;;
  let updated_state := mkSystemState "system_state" new_mode t in
  (* update_one({"id": "system_state"}, {"$set": doc}, upsert=True) *)
  modify (with_system_state (fun l =>
    if existsb is_system_state l
    then update_first is_system_state (fun _ => updated_state) l
    else l ++ [updated_state])) ;;;
  (if negb (Mode_eqb old_mode new_mode) then
     match new_mode with
     | armed =>
         log_event ev_armed "System armed" warning None None ;;; ret tt
     | disarmed =>
         log_event ev_disarmed "System disarmed" info None None ;;; ret tt
     | monitoring =>
         log_event monitor_start "Monitoring mode enabled" info None None ;;;
         ret tt
     end
   else ret tt) ;;;
  ret updated_state.

(* ---------------------------------------------------------------- *)
(** *** Routes: zones *)

Definition get_zones : M (list Zone) :=
  w <- get_world ;; ret (firstn 100 (zones (db w))).

Definition create_zone (zone_data : ZoneCreate) : M Zone :=
  i <- uuid4_str ;;
  t <- datetime_now ;;
  let zone := mkZone i (zc_name zone_data) (zc_description zone_data)
                     (zc_image_url zone_data) t in
  modify (with_zones (fun l => l ++ [zone])) ;;;
  log_event zone_added ("Zone '" +++ zone_name zone +++ "' added") info
            None (Some (zone_id_ zone)) ;;;
  ret zone.

Definition update_zone (zone_id : string) (update : ZoneUpdate) : M Zone :=
  let update_data := zone_update_data update in
  if is_empty update_data then
    raise (HTTPException 400 "No update data provided")
  else
    w <- get_world ;;
    let matched := matched_count (zone_has_id zone_id) (zones (db w)) in
    modify (with_zones (update_first (zone_has_id zone_id)
                                     (set_zone update_data))) ;;;
    if Nat.eqb matched 0 then
      raise (HTTPException 404 "Zone not found")
    else
      w' <- get_world ;;
      deref NoneType_get (find_one (zone_has_id zone_id) (zones (db w'))).

Definition delete_zone (zone_id : string) : M string :=
  w <- get_world ;;
  match find_one (zone_has_id zone_id) (zones (db w)) with
  | None => raise (HTTPException 404 "Zone not found")
  | Some zone =>
      (* Delete all sensors in this zone *)
      modify (with_sensors (delete_all (sensor_in_zone zone_id))) ;;;
      modify (with_zones (delete_first (zone_has_id zone_id))) ;;;
      log_event zone_removed ("Zone '" +++ zone_name zone +++ "' removed")
                info None (Some zone_id) ;;;
      ret "Zone deleted"
  end.

(* ---------------------------------------------------------------- *)
(** *** Routes: sensors *)

Definition get_sensors : M (list Sensor) :=
  w <- get_world ;; ret (firstn 100 (sensors (db w))).

Definition get_sensors_by_zone (zone_id : string) : M (list Sensor) :=
  w <- get_world ;;
  ret (firstn 100 (filter (sensor_in_zone zone_id) (sensors (db w)))).

Definition create_sensor (sensor_data : SensorCreate) : M Sensor :=
  w <- get_world ;;
  (* Verify zone exists *)
  match find_one (zone_has_id (sc_zone_id sensor_data)) (zones (db w)) with
  | None => raise (HTTPException 404 "Zone not found")
  | Some _ =>
      i <- uuid4_str ;;
      t <- datetime_now ;;
      match sc_battery_level sensor_data with
      | None => raise (ValidationError "battery_level")
      | Some battery =>
          let sensor := mkSensor i (sc_name sensor_data) (sc_type sensor_data)
                                 (sc_zone_id sensor_data) inactive battery
                                 None t in
          (* insert_one encodes the document first *)
          (if int64 battery then ret tt else raise bson_overflow) ;;;
          modify (with_sensors (fun l => l ++ [sensor])) ;;;
          log_event sensor_added
            ("Sensor '" +++ sensor_name sensor +++ "' ("
             +++ SensorType_str (sensor_type sensor) +++ ") added to zone")
            info (Some (sensor_id_ sensor)) (Some (sensor_zone_id sensor)) ;;;
          ret sensor
      end
  end.

Definition update_sensor (sensor_id : string) (update : SensorUpdate)
  : M Sensor :=
  let update_data := sensor_update_data update in
  if is_empty update_data then
    raise (HTTPException 400 "No update data provided")
  else
    (* update_one encodes the update first *)
    (if encodable update_data then ret tt else raise bson_overflow) ;;;
    w <- get_world ;;
    let matched := matched_count (sensor_has_id sensor_id) (sensors (db w)) in
    modify (with_sensors (update_first (sensor_has_id sensor_id)
                                       (set_sensor update_data))) ;;;
    if Nat.eqb matched 0 then
      raise (HTTPException 404 "Sensor not found")
    else
      w' <- get_world ;;
      deref NoneType_get
            (find_one (sensor_has_id sensor_id) (sensors (db w'))).

Definition delete_sensor (sensor_id : string) : M string :=
  w <- get_world ;;
  match find_one (sensor_has_id sensor_id) (sensors (db w)) with
  | None => raise (HTTPException 404 "Sensor not found")
  | Some sensor =>
      modify (with_sensors (delete_first (sensor_has_id sensor_id))) ;;;
      log_event sensor_removed
                ("Sensor '" +++ sensor_name sensor +++ "' removed") info
                (Some sensor_id) (Some (sensor_zone_id sensor)) ;;;
      ret "Sensor deleted"
  end.

(** Sensor Trigger (Simulation) *)
Definition trigger_sensor (trigger : SensorTrigger) : M TriggerResponse :=
  w <- get_world ;;
  match find_one (sensor_has_id (trigger_sensor_id trigger)) (sensors (db w)) with
  | None => raise (HTTPException 404 "Sensor not found")
  | Some sensor =>
      let zone := find_one (zone_has_id (sensor_zone_id sensor)) (zones (db w)) in
      let zone_name :=
        match zone with Some z => zone_name z | None => "Unknown Zone" end in
      (* Update sensor status *)
      now <- datetime_now ;;
      modify (with_sensors
                (update_first (sensor_has_id (trigger_sensor_id trigger))
                              (set_sensor [s_status triggered;
                                           s_last_triggered now]))) ;;;
      (* Get system state *)
      state <- get_system_state ;;
      let sensor_type_label :=
        if SensorType_eqb (sensor_type sensor) motion then "Motion detected"
        else capitalize (SensorType_str (sensor_type sensor)) +++ " opened" in
      let msg :=
        sensor_type_label +++ " - " +++ sensor_name sensor +++ " in "
        +++ zone_name in
      match state_mode state with
      | armed =>
          (* INTRUSION ALERT! *)
          log_event intrusion ("🚨 INTRUSION DETECTED: " +++ msg) danger
                    (Some (trigger_sensor_id trigger))
                    (Some (sensor_zone_id sensor)) ;;;
          send_sms_alert ("🚨 SECURITY ALERT: " +++ msg) ;;;
          ret (mkTriggerResponse true ("INTRUSION: " +++ msg) "danger")
      | monitoring =>
          (* Just log the movement *)
          log_event sensor_triggered ("Movement detected: " +++ msg) warning
                    (Some (trigger_sensor_id trigger))
                    (Some (sensor_zone_id sensor)) ;;;
          ret (mkTriggerResponse false ("Movement logged: " +++ msg) "warning")
      | disarmed =>
          (* System disarmed, no alert *)
          log_event sensor_triggered
                    ("Sensor triggered (system disarmed): " +++ msg) info
                    (Some (trigger_sensor_id trigger))
                    (Some (sensor_zone_id sensor)) ;;;
          ret (mkTriggerResponse false ("Logged: " +++ msg) "info")
      end
  end.

(** Reset sensor status *)
Definition reset_sensor (sensor_id : string) : M string :=
  w <- get_world ;;
  let matched := matched_count (sensor_has_id sensor_id) (sensors (db w)) in
  modify (with_sensors (update_first (sensor_has_id sensor_id)
                                     (set_sensor [s_status active]))) ;;;
  if Nat.eqb matched 0 then
    raise (HTTPException 404 "Sensor not found")
  else ret "Sensor reset".

(* ---------------------------------------------------------------- *)
(** *** Routes: activity log and settings *)

(** [cursor.to_list(length)]: Motor refuses a negative length. *)
Definition to_list {A} (length : Z) (cursor : list A) : M (list A) :=
  if (length <? 0)%Z then raise (ValueError "length must be non-negative")
  else ret (firstn (Z.to_nat length) cursor).

Definition get_events (limit : Z) : M (list Event) :=
  w <- get_world ;;
  to_list limit (sort_timestamp_desc E (events (db w))).

Definition clear_events : M string :=
  modify (with_events (delete_all (fun _ => true))) ;;;
  log_event system "Activity log cleared" info None None ;;;
  ret "Events cleared".

(** The [Settings] model built from a stored document: a missing
    [sms_enabled] takes the model's default. *)
Definition Settings_of_doc (d : SettingsDoc) (updated_at : datetime) : Settings :=
  mkSettings (sd_id d)
             (match sd_sms_enabled d with Some b => b | None => false end)
             (sd_alert_phone_number d) updated_at.

Definition get_settings : M Settings :=
  w <- get_world ;;
  match find_one is_settings (settings (db w)) with
  | None =>
      t <- datetime_now ;;
      let default_settings := mkSettings "settings" false None t in
      modify (with_settings (fun l =>
        l ++ [mkSettingsDoc "settings" (Some false) None (Some t)])) ;;;
      ret default_settings
  | Some st =>
      t <- getitem "updated_at" (sd_updated_at st) ;;
      ret (Settings_of_doc st t)
  end.

Definition update_settings (update : SettingsUpdate) : M Settings :=
  now <- datetime_now ;;
  let update_data := settings_update_data update ++ [st_updated_at now] in
  (* update_one({"id": "settings"}, {"$set": update_data}, upsert=True) *)
  modify (with_settings (fun l =>
    if existsb is_settings l
    then update_first is_settings (set_settings update_data) l
    else l ++ [set_settings update_data
                 (mkSettingsDoc "settings" None None None)])) ;;;
  w <- get_world ;;
  st <- deref NoneType_subscript (find_one is_settings (settings (db w))) ;;
  t <- getitem "updated_at" (sd_updated_at st) ;;
  ret (Settings_of_doc st t).

(** Dashboard Stats *)
Definition get_dashboard_stats : M DashboardStats :=
  state <- get_system_state ;;
  w <- get_world ;;
  let zones_count := length (zones (db w)) in
  let sensors_count := length (sensors (db w)) in
  let triggered_count :=
    count_documents (fun s => SensorStatus_eqb (sensor_status s) triggered)
                    (sensors (db w)) in
  recent_events <- to_list 5 (sort_timestamp_desc E (events (db w))) ;;
  ret (mkDashboardStats (state_mode state) zones_count sensors_count
                        triggered_count recent_events).

(* ---------------------------------------------------------------- *)
(** *** The router

    One request per route of [api_router]. *)

Inductive Request :=
| GET_root
| GET_system_state
| PUT_system_state (update : SystemStateUpdate)
| GET_zones
| POST_zones (zone_data : ZoneCreate)
| PUT_zones (zone_id : string) (update : ZoneUpdate)
| DELETE_zones (zone_id : string)
| GET_sensors
| GET_sensors_zone (zone_id : string)
| POST_sensors (sensor_data : SensorCreate)
| PUT_sensors (sensor_id : string) (update : SensorUpdate)
| DELETE_sensors (sensor_id : string)
| POST_sensors_trigger (trigger : SensorTrigger)
| POST_sensors_reset (sensor_id : string)
| GET_events (limit : Z)
| DELETE_events
| GET_settings
| PUT_settings (update : SettingsUpdate)
| GET_dashboard_stats.

Inductive Response :=
| R_state (s : SystemState)
| R_zones (l : list Zone)
| R_zone (z : Zone)
| R_sensors (l : list Sensor)
| R_sensor (s : Sensor)
| R_trigger (r : TriggerResponse)
| R_events (l : list Event)
| R_settings (s : Settings)
| R_stats (d : DashboardStats)
| R_message (m : string).

Definition respond {A} (wrap : A -> Response) (c : M A) : M Response :=
  a <- c ;; ret (wrap a).

Definition handle (r : Request) : M Response :=
  match r with
  | GET_root => respond R_message root
  | GET_system_state => respond R_state get_state
  | PUT_system_state u => respond R_state (update_state u)
  | GET_zones => respond R_zones get_zones
  | POST_zones z => respond R_zone (create_zone z)
  | PUT_zones i u => respond R_zone (update_zone i u)
  | DELETE_zones i => respond R_message (delete_zone i)
  | GET_sensors => respond R_sensors get_sensors
  | GET_sensors_zone i => respond R_sensors (get_sensors_by_zone i)
  | POST_sensors s => respond R_sensor (create_sensor s)
  | PUT_sensors i u => respond R_sensor (update_sensor i u)
  | DELETE_sensors i => respond R_message (delete_sensor i)
  | POST_sensors_trigger t => respond R_trigger (trigger_sensor t)
  | POST_sensors_reset i => respond R_message (reset_sensor i)
  | GET_events limit => respond R_events (get_events limit)
  | DELETE_events => respond R_message clear_events
  | GET_settings => respond R_settings get_settings
  | PUT_settings u => respond R_settings (update_settings u)
  | GET_dashboard_stats => respond R_stats get_dashboard_stats
  end.

(** The world after serving the requests in order; a request that
    raises is answered with an error and the next one is served. *)
Definition serve (rs : list Request) (w : World) : World :=
  fold_left (fun w r => snd (handle r w)) rs w.

Definition is_PUT_settings (r : Request) : bool :=
  match r with PUT_settings _ => true | _ => false end.

(* ---------------------------------------------------------------- *)
(** *** Observations used in the statements *)

(** The mode [get_system_state] reports in [w]: that of the stored
    singleton, or the default of a fresh [SystemState]. *)
Definition current_mode (w : World) : Mode :=
  match find_one is_system_state (system_state (db w)) with
  | Some s => state_mode s
  | None => disarmed
  end.

(** The three refusals of [send_sms_alert], as conditions on the
    stored settings and on the process environment. *)
Definition sms_disabled (w : World) : bool :=
  match find_one is_settings (settings (db w)) with
  | None => true
  | Some st => negb (truthy_bool (sd_sms_enabled st))
  end.

Definition no_alert_phone_number (w : World) : bool :=
  match find_one is_settings (settings (db w)) with
  | None => true
  | Some st => negb (truthy_str (sd_alert_phone_number st))
  end.

Definition twilio_unconfigured : bool :=
  match twilio_client with None => true | Some _ => false end
  || negb (truthy_str twilio_phone_number).

Definition is_intrusion (e : Event) : bool := EventType_eqb (event_type e) intrusion.

(** The document [get_settings] inserts when the collection has none:
    the dump of a default [Settings()] created at time [t]. *)
Definition default_settings_doc (t : datetime) : SettingsDoc :=
  mkSettingsDoc "settings" (Some false) None (Some t).

(** A settings collection that no update has written: still empty, or
    holding only the lazily created default. *)
Definition never_updated (w : World) : Prop :=
  settings (db w) = [] \/ exists t, settings (db w) = [default_settings_doc t].

(** The text composed by [trigger_sensor] for a sensor and the name of
    its zone. *)
Definition trigger_message (sensor : Sensor) (w : World) : string :=
  (if SensorType_eqb (sensor_type sensor) motion then "Motion detected"
   else capitalize (SensorType_str (sensor_type sensor)) +++ " opened")
  +++ " - " +++ sensor_name sensor +++ " in "
  +++ match find_one (zone_has_id (sensor_zone_id sensor)) (zones (db w)) with
      | Some z => zone_name z
      | None => "Unknown Zone"
      end.
End Server.

(* ================================================================== *)
(** ** A concrete environment and store, for running the handlers *)

Module Demo.
Definition env (accepts : bool) : Environ :=
  mkEnviron (fun n => "id-" +++ String (ascii_of_nat (48 + n)) "")
            (fun n => Z.of_nat (1000 + n))
            (Some "AC0") (Some "tok") (Some "+15550000")
            true
            (fun _ _ => if accepts then None else Some "provider down")
            (@rev Event).

Definition env_no_twilio : Environ :=
  mkEnviron (fun n => "id-" +++ String (ascii_of_nat (48 + n)) "")
            (fun n => Z.of_nat (1000 + n))
            None None None true (fun _ _ => None) (@rev Event).

Definition hall : Zone := mkZone "z1" "Hall" (Some "") (Some "") 1%Z.
Definition pir : Sensor := mkSensor "s1" "PIR" motion "z1" inactive 100%Z None 2%Z.
Definition front : Sensor := mkSensor "s2" "Front" door "z1" active 90%Z None 3%Z.
Definition shed : Sensor := mkSensor "s3" "Shed" window "z9" triggered 80%Z (Some 4%Z) 4%Z.

Definition store (m : Mode) (sms : bool) : World :=
  mkWorld (mkDb [hall] [pir; front; shed] []
                [mkSystemState "system_state" m 5%Z]
                [mkSettingsDoc "settings" (Some sms) (Some "+15551111") (Some 6%Z)])
          7 7 [] [].

(** A session on a fresh system: a zone, a sensor in it, arming, and a
    trigger of that sensor. *)
Definition session : list Request :=
  [POST_zones (mkZoneCreate "Hall" (Some "") (Some ""));
   POST_sensors (mkSensorCreate "PIR" motion "id-0" (Some 100%Z));
   PUT_system_state (mkSystemStateUpdate armed);
   GET_settings;
   POST_sensors_trigger (mkSensorTrigger "id-2");
   GET_events 50;
   GET_dashboard_stats].
End Demo.

(* ================================================================== *)
(** ** Observations on worlds, requests and outcomes *)

Section Observations.
Variable E : Environ.

(** Identifiers that are pairwise distinct and were all produced by one
    of the first [n] draws of [uuid4]. *)
Definition drawn (n : nat) (ids : list string) : Prop :=
  NoDup ids /\ Forall (fun i => exists k, k < n /\ i = uuid4 E k) ids.

Definition ids_unique (w : World) : Prop :=
  drawn (uuid_draws w) (map zone_id_ (zones (db w))) /\
  drawn (uuid_draws w) (map sensor_id_ (sensors (db w))) /\
  drawn (uuid_draws w) (map event_id (events (db w))).

(** The two singleton collections hold at most one document, under the
    well-known id, and the settings document has its [updated_at]. *)
Definition singletons (w : World) : Prop :=
  (system_state (db w) = [] \/
   exists s, system_state (db w) = [s] /\ state_id s = "system_state") /\
  (settings (db w) = [] \/
   exists d t, settings (db w) = [d] /\ sd_id d = "settings" /\
               sd_updated_at d = Some t).

(** The exceptions of a document or key that is missing where the
    handler counts on it, and of the SMS provider. *)
Definition internal_error {A} (o : Outcome A) : bool :=
  match o with
  | Raise (KeyError _) | Raise (AttributeError _) | Raise (TypeError _)
  | Raise (TwilioException _) => true
  | _ => false
  end.

Definition is_DELETE_events (r : Request) : bool :=
  match r with DELETE_events => true | _ => false end.

Definition is_triggered (s : Sensor) : bool :=
  SensorStatus_eqb (sensor_status s) triggered.

Definition is_sms_sent (e : Event) : bool := EventType_eqb (event_type e) sms_sent.

(** The only requests that can reach the provider: a trigger while the
    system is armed. *)
Definition may_send (r : Request) (w : World) : bool :=
  match r with
  | POST_sensors_trigger _ => Mode_eqb (current_mode w) armed
  | _ => false
  end.

(** Every sensor refers to a stored zone. *)
Definition refs_ok (w : World) : Prop :=
  Forall (fun s => existsb (zone_has_id (sensor_zone_id s)) (zones (db w)) = true)
         (sensors (db w)).

(** Requests that do not move a sensor to another zone. *)
Definition keeps_zone (r : Request) : bool :=
  match r with
  | PUT_sensors _ update =>
      match su_zone_id update with Some _ => false | None => true end
  | _ => true
  end.

(** The label of a sensor type in the messages of [trigger_sensor],
    written out. *)
Definition sensor_label (t : SensorType) : string :=
  match t with
  | motion => "Motion detected"
  | door => "Door opened"
  | window => "Window opened"
  end.
End Observations.

Module Fixture.
(** An identifier source without collisions: the n-th identifier is a
    run of n letters. *)
Fixpoint run_of_a (n : nat) : string :=
  match n with
  | O => ""
  | S k => String "a" (run_of_a k)
  end.

Definition env : Environ :=
  mkEnviron run_of_a (fun n => Z.of_nat n)
            (Some "AC0") (Some "tok") (Some "+15550000") true
            (fun _ _ => None) (@rev Event).

(** Requests on a fresh system: two zones, a sensor in the first (the
    empty identifier), arming, enabling SMS, a trigger, and two reads. *)
Definition session : list Request :=
  [POST_zones (mkZoneCreate "Hall" (Some "") (Some ""));
   POST_zones (mkZoneCreate "Attic" None None);
   POST_sensors (mkSensorCreate "PIR" motion "" (Some 100%Z));
   PUT_system_state (mkSystemStateUpdate armed);
   PUT_settings (mkSettingsUpdate (Some true) (Some "+15551111"));
   POST_sensors_trigger (mkSensorTrigger "aaaa");
   GET_settings;
   GET_dashboard_stats].
End Fixture.

(* ================================================================== *)
(** ** Properties *)

(** Unfolding of the monad, for goals that run a handler. *)
Ltac run_monad :=
  unfold respond, getitem, deref in *;
  unfold bind, ret, raise, modify, get_world, try_except,
    logger, uuid4_str, datetime_now in *;
  cbn [fst snd db zones sensors events system_state settings uuid_draws
       clock_reads twilio_requests log_records] in *.

Section CollectionFacts.
Context {A : Type}.
Variable p : A -> bool.

Lemma find_one_split (l : list A) (x : A) :
  find_one p l = Some x ->
  exists l1 l2, l = l1 ++ x :: l2 /\ p x = true /\ existsb p l1 = false.
Proof.
  unfold find_one. induction l as [|a l IH]; cbn [find]; intros H.
  - discriminate.
  - destruct (p a) eqn:Ha.
    + injection H as ->. exists [], l. cbn. auto.
    + destruct (IH H) as (l1 & l2 & -> & Hx & Hl1).
      exists (a :: l1), l2. cbn. rewrite Ha. auto.
Qed.

Lemma find_one_existsb (l : list A) (x : A) :
  find_one p l = Some x -> existsb p l = true.
Proof.
  intros H. destruct (find_one_split l x H) as (l1 & l2 & -> & Hx & _).
  rewrite existsb_app. cbn. rewrite Hx. apply orb_true_r.
Qed.

Lemma find_one_none_existsb (l : list A) :
  find_one p l = None -> existsb p l = false.
Proof.
  unfold find_one. induction l as [|a l IH]; cbn; intros H; [reflexivity|].
  destruct (p a); [discriminate | auto].
Qed.

Lemma update_first_split (f : A -> A) (l1 l2 : list A) (x : A) :
  existsb p l1 = false -> p x = true ->
  update_first p f (l1 ++ x :: l2) = l1 ++ f x :: l2.
Proof.
  induction l1 as [|a l1 IH]; cbn; intros H Hx.
  - now rewrite Hx.
  - apply orb_false_iff in H as [Ha H]. rewrite Ha. f_equal. auto.
Qed.

Lemma delete_first_split (l1 l2 : list A) (x : A) :
  existsb p l1 = false -> p x = true ->
  delete_first p (l1 ++ x :: l2) = l1 ++ l2.
Proof.
  induction l1 as [|a l1 IH]; cbn; intros H Hx.
  - now rewrite Hx.
  - apply orb_false_iff in H as [Ha H]. rewrite Ha. f_equal. auto.
Qed.

Lemma find_one_app_skip (l1 l2 : list A) :
  existsb p l1 = false -> find_one p (l1 ++ l2) = find_one p l2.
Proof.
  unfold find_one. induction l1 as [|a l1 IH]; cbn; intros H; [reflexivity|].
  apply orb_false_iff in H as [Ha H]. rewrite Ha. auto.
Qed.

(** After an update that keeps the filter true, [find_one] returns the
    updated document. *)
Lemma find_one_update_first (f : A -> A) (l : list A) (x : A) :
  find_one p l = Some x -> p (f x) = true ->
  find_one p (update_first p f l) = Some (f x).
Proof.
  intros H Hf. destruct (find_one_split l x H) as (l1 & l2 & -> & Hx & Hl1).
  rewrite update_first_split by assumption.
  rewrite find_one_app_skip by assumption.
  unfold find_one. cbn. now rewrite Hf.
Qed.

Lemma update_first_fixed (f : A -> A) (l : list A) (x : A) :
  find_one p l = Some x -> f x = x -> update_first p f l = l.
Proof.
  intros H Hf. destruct (find_one_split l x H) as (l1 & l2 & -> & Hx & Hl1).
  rewrite update_first_split by assumption. now rewrite Hf.
Qed.

Lemma count_documents_delete_all (l : list A) :
  count_documents p (delete_all p l) = 0.
Proof.
  unfold count_documents, delete_all.
  induction l as [|a l IH]; cbn; [reflexivity|].
  destruct (p a) eqn:Ha; cbn; [assumption|]. now rewrite Ha.
Qed.

Lemma length_delete_all (l : list A) :
  length (delete_all p l) + count_documents p l = length l.
Proof.
  unfold count_documents, delete_all.
  induction l as [|a l IH]; cbn; [reflexivity|].
  destruct (p a); cbn; lia.
Qed.

Lemma count_documents_snoc (l : list A) (x : A) :
  count_documents p (l ++ [x]) = count_documents p l + (if p x then 1 else 0).
Proof.
  unfold count_documents. rewrite filter_app, length_app. cbn.
  destruct (p x); reflexivity.
Qed.
End CollectionFacts.

Section HelperFacts.
Variable E : Environ.

Lemma log_event_run ty msg sev sid zid (w : World) :
  log_event E ty msg sev sid zid w =
  (Return (mkEvent (uuid4 E (uuid_draws w)) ty msg sev sid zid
                   (utcnow E (clock_reads w))),
   mkWorld (mkDb (zones (db w)) (sensors (db w))
                 (events (db w)
                  ++ [mkEvent (uuid4 E (uuid_draws w)) ty msg sev sid zid
                              (utcnow E (clock_reads w))])
                 (system_state (db w)) (settings (db w)))
           (S (uuid_draws w)) (S (clock_reads w))
           (twilio_requests w) (log_records w)).
Proof. reflexivity. Qed.

Lemma get_system_state_run (w : World) :
  get_system_state E w =
  match find_one is_system_state (system_state (db w)) with
  | Some s => (Return s, w)
  | None =>
      (Return (mkSystemState "system_state" disarmed (utcnow E (clock_reads w))),
       mkWorld (mkDb (zones (db w)) (sensors (db w)) (events (db w))
                     (system_state (db w)
                      ++ [mkSystemState "system_state" disarmed
                                        (utcnow E (clock_reads w))])
                     (settings (db w)))
               (uuid_draws w) (S (clock_reads w))
               (twilio_requests w) (log_records w))
  end.
Proof.
  unfold get_system_state. run_monad.
  destruct (find_one is_system_state (system_state (db w))); reflexivity.
Qed.

(** [get_system_state] returns a state whose mode is [current_mode],
    and touches nothing but the [system_state] collection and the
    clock. *)
Lemma get_system_state_mode (w : World) :
  exists s w',
    get_system_state E w = (Return s, w') /\
    state_mode s = current_mode w /\
    zones (db w') = zones (db w) /\
    sensors (db w') = sensors (db w) /\
    events (db w') = events (db w) /\
    settings (db w') = settings (db w) /\
    uuid_draws w' = uuid_draws w /\
    twilio_requests w' = twilio_requests w /\
    log_records w' = log_records w /\
    find_one is_system_state (system_state (db w')) = Some s.
Proof.
  rewrite get_system_state_run. unfold current_mode.
  destruct (find_one is_system_state (system_state (db w))) as [s|] eqn:Hs.
  - exists s, w. repeat split; auto.
  - eexists _, _. split; [reflexivity|]. cbn. repeat split; auto.
    rewrite find_one_app_skip by now apply find_one_none_existsb.
    reflexivity.
Qed.

(** When one of its guards holds, [send_sms_alert] only writes one
    logger record. *)
Lemma send_sms_alert_refused (msg : string) (w : World) :
  sms_disabled w || no_alert_phone_number w || twilio_unconfigured E = true ->
  exists line,
    send_sms_alert E msg w =
    (Return false,
     mkWorld (db w) (uuid_draws w) (clock_reads w) (twilio_requests w)
             (log_records w ++ [line])).
Proof.
  unfold sms_disabled, no_alert_phone_number, twilio_unconfigured, send_sms_alert.
  run_monad. intros H.
  destruct (find_one is_settings (settings (db w))) as [st|].
  - destruct (negb (truthy_bool (sd_sms_enabled st))
              || negb (truthy_str (sd_alert_phone_number st))) eqn:Hg.
    + eexists. reflexivity.
    + cbn [orb] in H. rewrite H.
      eexists. reflexivity.
  - eexists. reflexivity.
Qed.

(** When no guard holds, the provider is called once, and its answer
    decides the rest. *)
Lemma send_sms_alert_dispatched (msg : string) (w : World) :
  sms_disabled w || no_alert_phone_number w || twilio_unconfigured E = false ->
  exists st to,
    find_one is_settings (settings (db w)) = Some st /\
    sd_alert_phone_number st = Some to /\
    send_sms_alert E msg w =
    match messages_create E (length (twilio_requests w))
                          (mkSmsRequest msg (twilio_phone_number E) to) with
    | None =>
        (Return true,
         mkWorld (mkDb (zones (db w)) (sensors (db w))
                       (events (db w)
                        ++ [mkEvent (uuid4 E (uuid_draws w)) sms_sent
                                    ("SMS alert sent: " +++ msg) info None None
                                    (utcnow E (clock_reads w))])
                       (system_state (db w)) (settings (db w)))
                 (S (uuid_draws w)) (S (clock_reads w))
                 (twilio_requests w
                  ++ [mkSmsRequest msg (twilio_phone_number E) to])
                 (log_records w ++ [(INFO, "SMS sent to " +++ to)]))
    | Some e =>
        (Return false,
         mkWorld (db w) (uuid_draws w) (clock_reads w)
                 (twilio_requests w
                  ++ [mkSmsRequest msg (twilio_phone_number E) to])
                 (log_records w ++ [(ERROR, "Failed to send SMS: " +++ e)]))
    end.
Proof.
  unfold sms_disabled, no_alert_phone_number, twilio_unconfigured, send_sms_alert.
  intros H.
  apply orb_false_iff in H as [H Ht]. apply orb_false_iff in H as [Hd Hp].
  unfold bind at 1. unfold get_world at 1.
  destruct (find_one is_settings (settings (db w))) as [st|]; [|discriminate].
  rewrite Hd, Hp, Ht. cbn [orb].
  destruct (sd_alert_phone_number st) as [to|] eqn:Hto; [|discriminate].
  exists st, to. split; [reflexivity|]. split; [exact Hto|].
  unfold try_except, twilio_messages_create. run_monad.
  destruct (messages_create E (length (twilio_requests w))
              (mkSmsRequest msg (twilio_phone_number E) to)); reflexivity.
Qed.

(** What any call of [send_sms_alert] can change: it returns, writes
    exactly one logger record, calls the provider at most once, and
    appends at most one event, of type [sms_sent]. *)
Lemma send_sms_alert_footprint (msg : string) (w : World) :
  exists b w' line,
    send_sms_alert E msg w = (Return b, w') /\
    log_records w' = log_records w ++ [line] /\
    zones (db w') = zones (db w) /\
    sensors (db w') = sensors (db w) /\
    system_state (db w') = system_state (db w) /\
    settings (db w') = settings (db w) /\
    (twilio_requests w' = twilio_requests w \/
     exists req, twilio_requests w' = twilio_requests w ++ [req]) /\
    (events (db w') = events (db w) \/
     exists ev, events (db w') = events (db w) ++ [ev] /\
                event_type ev = sms_sent).
Proof.
  destruct (sms_disabled w || no_alert_phone_number w || twilio_unconfigured E)
    eqn:Hg.
  - destruct (send_sms_alert_refused msg w Hg) as [line ->].
    eexists _, _, line. split; [reflexivity|]. cbn. repeat split; auto.
  - destruct (send_sms_alert_dispatched msg w Hg) as (st & to & _ & _ & ->).
    destruct (messages_create E _ _).
    + eexists _, _, _. split; [reflexivity|]. cbn. repeat split; eauto.
    + eexists _, _, _. split; [reflexivity|]. cbn. repeat split; eauto.
Qed.

(** [trigger_sensor] on an existing sensor, up to the branch on the
    mode: the sensor document is updated, the state is read (and
    created if absent), and the handler continues in world [w2]. *)
Lemma trigger_sensor_prelude (trigger : SensorTrigger) (w : World)
  (sensor : Sensor) :
  find_one (sensor_has_id (trigger_sensor_id trigger)) (sensors (db w))
  = Some sensor ->
  exists state w2,
    state_mode state = current_mode w /\
    sensors (db w2) =
      update_first (sensor_has_id (trigger_sensor_id trigger))
        (set_sensor [s_status triggered;
                     s_last_triggered (utcnow E (clock_reads w))])
        (sensors (db w)) /\
    zones (db w2) = zones (db w) /\
    events (db w2) = events (db w) /\
    settings (db w2) = settings (db w) /\
    twilio_requests w2 = twilio_requests w /\
    log_records w2 = log_records w /\
    trigger_sensor E trigger w =
    let i := trigger_sensor_id trigger in
    let msg := trigger_message sensor w in
    match state_mode state with
    | armed =>
        (log_event E intrusion ("🚨 INTRUSION DETECTED: " +++ msg) danger
                   (Some i) (Some (sensor_zone_id sensor)) ;;;
         send_sms_alert E ("🚨 SECURITY ALERT: " +++ msg) ;;;
         ret (mkTriggerResponse true ("INTRUSION: " +++ msg) "danger")) w2
    | monitoring =>
        (log_event E sensor_triggered ("Movement detected: " +++ msg) warning
                   (Some i) (Some (sensor_zone_id sensor)) ;;;
         ret (mkTriggerResponse false ("Movement logged: " +++ msg) "warning"))
          w2
    | disarmed =>
        (log_event E sensor_triggered
                   ("Sensor triggered (system disarmed): " +++ msg) info
                   (Some i) (Some (sensor_zone_id sensor)) ;;;
         ret (mkTriggerResponse false ("Logged: " +++ msg) "info")) w2
    end.
Proof.
  intros Hs.
  set (w1 := mkWorld
               (mkDb (zones (db w))
                  (update_first (sensor_has_id (trigger_sensor_id trigger))
                     (set_sensor [s_status triggered;
                                  s_last_triggered (utcnow E (clock_reads w))])
                     (sensors (db w)))
                  (events (db w)) (system_state (db w)) (settings (db w)))
               (uuid_draws w) (S (clock_reads w)) (twilio_requests w)
               (log_records w)).
  destruct (get_system_state_mode w1)
    as (state & w2 & Hrun & Hmode & Hz & Hse & Hev & Hst & _ & Htw & Hlog & _).
  exists state, w2. repeat split; try assumption.
  unfold trigger_sensor, trigger_message.
  unfold bind at 1. unfold get_world at 1. rewrite Hs.
  unfold bind at 1. unfold datetime_now at 1.
  unfold bind at 1. unfold modify at 1, with_sensors at 1.
  cbn [db zones sensors events system_state settings uuid_draws clock_reads
       twilio_requests log_records].
  fold w1. unfold bind at 1. rewrite Hrun.
  destruct (state_mode state); reflexivity.
Qed.
End HelperFacts.

Section TriggerProperties.
Variable E : Environ.

(** C1. For an existing sensor the result of [trigger_sensor] is fixed
    by the current mode: armed gives alert true and severity "danger",
    monitoring gives alert false and severity "warning", disarmed gives
    alert false and severity "info"; and the event the handler logs is
    an "intrusion" of severity danger when armed, a "sensor_triggered"
    of severity warning (monitoring) or info (disarmed) otherwise.  The
    only events that can follow it are "sms_sent" records of the alert,
    and only when armed. *)
Theorem trigger_sensor_result_by_mode (trigger : SensorTrigger) (w : World)
  (sensor : Sensor) :
  find_one (sensor_has_id (trigger_sensor_id trigger)) (sensors (db w))
  = Some sensor ->
  exists resp ev rest,
    fst (trigger_sensor E trigger w) = Return resp /\
    events (db (snd (trigger_sensor E trigger w))) = events (db w) ++ ev :: rest /\
    event_sensor_id ev = Some (trigger_sensor_id trigger) /\
    event_zone_id ev = Some (sensor_zone_id sensor) /\
    (forall e, In e rest -> event_type e = sms_sent) /\
    match current_mode w with
    | armed =>
        alert resp = true /\ severity resp = "danger" /\
        event_type ev = intrusion /\ event_severity ev = danger
    | monitoring =>
        alert resp = false /\ severity resp = "warning" /\
        event_type ev = sensor_triggered /\ event_severity ev = warning /\
        rest = []
    | disarmed =>
        alert resp = false /\ severity resp = "info" /\
        event_type ev = sensor_triggered /\ event_severity ev = info /\
        rest = []
    end.
Proof.
  intros Hs.
  destruct (trigger_sensor_prelude E trigger w sensor Hs)
    as (state & w2 & Hmode & _ & _ & Hev & _ & _ & _ & ->).
  rewrite <- Hmode. cbv zeta.
  destruct (state_mode state).
  - (* armed *)
    unfold bind. rewrite log_event_run.
    match goal with
    | |- context [send_sms_alert E ?m ?w3] =>
        destruct (send_sms_alert_footprint E m w3)
          as (b & w' & line & Hrun & _ & _ & _ & _ & _ & _ & Hevs);
        rewrite Hrun
    end.
    cbn [fst snd ret db events] in *. rewrite Hev in Hevs.
    destruct Hevs as [Hevs | (ev' & Hevs & Hty)]; rewrite Hevs.
    + eexists _, _, []. split; [reflexivity|]. split; [reflexivity|].
      cbn. repeat split; auto. intros e [].
    + eexists _, _, [ev']. split; [reflexivity|].
      split; [now rewrite <- app_assoc|].
      cbn. repeat split; auto. intros e [<- | []]. exact Hty.
  - (* disarmed *)
    unfold bind. rewrite log_event_run. cbn [fst snd ret db events].
    rewrite Hev. eexists _, _, []. split; [reflexivity|].
    split; [reflexivity|]. cbn. repeat split; auto. intros e [].
  - (* monitoring *)
    unfold bind. rewrite log_event_run. cbn [fst snd ret db events].
    rewrite Hev. eexists _, _, []. split; [reflexivity|].
    split; [reflexivity|]. cbn. repeat split; auto. intros e [].
Qed.

(** C2. Triggering an existing sensor while armed appends exactly one
    event of type "intrusion" and ends with exactly one call of
    [send_sms_alert], made on the world [w1] in which that event is
    logged: the call leaves its one logger record and reaches the
    provider at most once, exactly once unless one of its guards
    refuses.  Triggering while monitoring or disarmed appends no
    intrusion, calls the provider never and leaves no logger record,
    so [send_sms_alert] is not called. *)
Theorem trigger_sensor_dispatch (trigger : SensorTrigger) (w : World)
  (sensor : Sensor) :
  find_one (sensor_has_id (trigger_sensor_id trigger)) (sensors (db w))
  = Some sensor ->
  let w' := snd (trigger_sensor E trigger w) in
  let sms := "🚨 SECURITY ALERT: " +++ trigger_message sensor w in
  match current_mode w with
  | armed =>
      count_documents is_intrusion (events (db w'))
      = count_documents is_intrusion (events (db w)) + 1 /\
      (exists w1 b,
         count_documents is_intrusion (events (db w1))
         = count_documents is_intrusion (events (db w)) + 1 /\
         twilio_requests w1 = twilio_requests w /\
         log_records w1 = log_records w /\
         send_sms_alert E sms w1 = (Return b, w')) /\
      (exists line, log_records w' = log_records w ++ [line]) /\
      (if sms_disabled w || no_alert_phone_number w || twilio_unconfigured E
       then twilio_requests w' = twilio_requests w
       else exists to,
           twilio_requests w' =
           twilio_requests w ++ [mkSmsRequest sms (twilio_phone_number E) to])
  | monitoring | disarmed =>
      count_documents is_intrusion (events (db w'))
      = count_documents is_intrusion (events (db w)) /\
      twilio_requests w' = twilio_requests w /\
      log_records w' = log_records w
  end.
Proof.
  intros Hs.
  destruct (trigger_sensor_prelude E trigger w sensor Hs)
    as (state & w2 & Hmode & _ & _ & Hev & Hst & Htw & Hlog & ->).
  rewrite <- Hmode. cbv zeta.
  destruct (state_mode state).
  - (* armed *)
    unfold bind. rewrite log_event_run.
    match goal with
    | |- context [send_sms_alert E ?m ?w3] => set (w1 := w3)
    end.
    assert (Hg : sms_disabled w1 || no_alert_phone_number w1
                 || twilio_unconfigured E
                 = sms_disabled w || no_alert_phone_number w
                   || twilio_unconfigured E).
    { unfold sms_disabled, no_alert_phone_number, w1.
      cbn [db settings]. now rewrite Hst. }
    assert (Hc1 : count_documents is_intrusion (events (db w1))
                  = count_documents is_intrusion (events (db w)) + 1).
    { unfold w1. cbn [db events]. rewrite Hev, count_documents_snoc.
      reflexivity. }
    destruct (sms_disabled w || no_alert_phone_number w || twilio_unconfigured E)
      eqn:Hguard.
    + destruct (send_sms_alert_refused E
                  ("🚨 SECURITY ALERT: " +++ trigger_message sensor w) w1 Hg)
        as [line Hrun].
      rewrite Hrun. cbn [fst snd ret].
      split; [exact Hc1|]. split.
      { exists w1, false. repeat split; auto. }
      unfold w1. cbn [db events twilio_requests log_records].
      rewrite Htw, Hlog. split; eauto.
    + destruct (send_sms_alert_dispatched E
                  ("🚨 SECURITY ALERT: " +++ trigger_message sensor w) w1 Hg)
        as (st & to & _ & _ & Hrun).
      destruct (messages_create E _ _) eqn:Hp in Hrun;
        rewrite Hrun; cbn [fst snd ret].
      * split; [exact Hc1|]. split.
        { exists w1, false. repeat split; auto. }
        unfold w1. cbn [db events twilio_requests log_records].
        rewrite Htw, Hlog. split; eauto.
      * split.
        { cbn [db events]. rewrite count_documents_snoc. fold w1.
          rewrite Hc1. cbn. lia. }
        split.
        { exists w1, true. repeat split; auto. }
        unfold w1. cbn [db events twilio_requests log_records].
        rewrite Htw, Hlog. split; eauto.
  - (* disarmed *)
    unfold bind. rewrite log_event_run.
    cbn [fst snd ret db events twilio_requests log_records].
    rewrite Hev, count_documents_snoc. cbn. split; [lia | auto].
  - (* monitoring *)
    unfold bind. rewrite log_event_run.
    cbn [fst snd ret db events twilio_requests log_records].
    rewrite Hev, count_documents_snoc. cbn. split; [lia | auto].
Qed.

(** C3. Whatever the mode, triggering an existing sensor writes status
    "triggered" and the time read by the handler into the sensor's
    document: afterwards the sensor found under that id is the old
    document with these two keys replaced, and no other sensor
    document has changed. *)
Theorem trigger_sensor_marks_triggered (trigger : SensorTrigger) (w : World)
  (sensor : Sensor) :
  find_one (sensor_has_id (trigger_sensor_id trigger)) (sensors (db w))
  = Some sensor ->
  let now := utcnow E (clock_reads w) in
  let w' := snd (trigger_sensor E trigger w) in
  exists sensor',
    find_one (sensor_has_id (trigger_sensor_id trigger)) (sensors (db w'))
    = Some sensor' /\
    sensor_status sensor' = triggered /\
    sensor_last_triggered sensor' = Some now /\
    sensor' = mkSensor (sensor_id_ sensor) (sensor_name sensor)
                       (sensor_type sensor) (sensor_zone_id sensor)
                       triggered (sensor_battery_level sensor)
                       (Some now) (sensor_created_at sensor) /\
    exists l1 l2,
      sensors (db w) = l1 ++ sensor :: l2 /\
      sensors (db w') = l1 ++ sensor' :: l2.
Proof.
  intros Hs now w'.
  assert (Hw' : sensors (db w') =
                update_first (sensor_has_id (trigger_sensor_id trigger))
                  (set_sensor [s_status triggered; s_last_triggered now])
                  (sensors (db w))).
  { subst w'.
    destruct (trigger_sensor_prelude E trigger w sensor Hs)
      as (state & w2 & _ & Hse & _ & _ & _ & _ & _ & ->).
    cbv zeta. fold now in Hse. rewrite <- Hse.
    destruct (state_mode state); unfold bind; rewrite log_event_run;
      try reflexivity.
    match goal with
    | |- context [send_sms_alert E ?m ?w3] =>
        destruct (send_sms_alert_footprint E m w3)
          as (b & w4 & line & Hrun & _ & _ & Hsens & _);
        rewrite Hrun
    end.
    cbn [fst snd ret]. rewrite Hsens. reflexivity. }
  pose proof (find_one_split _ _ _ Hs) as (l1 & l2 & Hl & Hx & Hl1).
  exists (set_sensor [s_status triggered; s_last_triggered now] sensor).
  split.
  { rewrite Hw'. apply find_one_update_first; [exact Hs | exact Hx]. }
  repeat split.
  exists l1, l2. split; [exact Hl|].
  rewrite Hw', Hl. now apply update_first_split.
Qed.
End TriggerProperties.

Section StateProperties.
Variable E : Environ.

(** C5. [update_state] always leaves the singleton with the new mode
    and with the time the handler read, and returns it.  It appends one
    event exactly when the new mode differs from the previous one:
    "armed" with severity warning and message "System armed",
    "disarmed" with info and "System disarmed", "monitor_start" with
    info and "Monitoring mode enabled"; when the modes are equal the
    event log is unchanged. *)
Theorem update_state_effect (update : SystemStateUpdate) (w : World) :
  let old_mode := current_mode w in
  let new_mode := ssu_mode update in
  let w' := snd (update_state E update w) in
  exists st,
    fst (update_state E update w) = Return st /\
    find_one is_system_state (system_state (db w')) = Some st /\
    state_mode st = new_mode /\
    state_updated_at st =
      utcnow E (clock_reads w
                + match find_one is_system_state (system_state (db w)) with
                  | Some _ => 0
                  | None => 1
                  end) /\
    if Mode_eqb old_mode new_mode
    then events (db w') = events (db w)
    else exists ev,
        events (db w') = events (db w) ++ [ev] /\
        event_sensor_id ev = None /\ event_zone_id ev = None /\
        match new_mode with
        | armed =>
            event_type ev = ev_armed /\ event_severity ev = warning /\
            event_message ev = "System armed"
        | disarmed =>
            event_type ev = ev_disarmed /\ event_severity ev = info /\
            event_message ev = "System disarmed"
        | monitoring =>
            event_type ev = monitor_start /\ event_severity ev = info /\
            event_message ev = "Monitoring mode enabled"
        end.
Proof.
  intros old_mode new_mode w'. subst old_mode w'.
  unfold update_state, current_mode. fold new_mode.
  unfold bind. rewrite get_system_state_run.
  destruct (find_one is_system_state (system_state (db w))) as [s|] eqn:Hs.
  - pose proof (find_one_existsb _ _ _ Hs) as Hex.
    unfold datetime_now, modify, with_system_state.
    cbn [db zones sensors events system_state settings uuid_draws clock_reads
         twilio_requests log_records state_mode].
    rewrite Hex, Nat.add_0_r.
    destruct (state_mode s), new_mode; cbn [Mode_eqb negb];
      try rewrite log_event_run; cbn [ret fst snd db events system_state];
      eexists; (split; [reflexivity|]);
      (split; [apply (find_one_update_first _ (fun _ => _) _ _ Hs); reflexivity|]);
      cbn; repeat split; eauto 10.
  - pose proof (find_one_none_existsb _ _ Hs) as Hex.
    unfold datetime_now, modify, with_system_state.
    cbn [db zones sensors events system_state settings uuid_draws clock_reads
         twilio_requests log_records state_mode].
    rewrite existsb_app, Hex.
    change (existsb is_system_state [?d]) with true. cbn [orb].
    rewrite update_first_split by (exact Hex || reflexivity).
    replace (clock_reads w + 1) with (S (clock_reads w)) by lia.
    destruct new_mode; cbn [Mode_eqb negb];
      try rewrite log_event_run; cbn [ret fst snd db events system_state];
      eexists; (split; [reflexivity|]);
      (split; [rewrite find_one_app_skip by exact Hex; reflexivity|]);
      cbn; repeat split; eauto 10.
Qed.
End StateProperties.

Section CrudProperties.
Variable E : Environ.

(** C7. Deleting an existing zone removes every sensor whose zone_id
    is the zone's id (all N of them, and no other sensor), removes the
    zone document that was found, and appends exactly one event, of
    type "zone_removed" and carrying the zone id; no event is logged
    for the deleted sensors. *)
Theorem delete_zone_cascade (zone_id : string) (w : World) (zone : Zone) :
  find_one (zone_has_id zone_id) (zones (db w)) = Some zone ->
  let N := count_documents (sensor_in_zone zone_id) (sensors (db w)) in
  let w' := snd (delete_zone E zone_id w) in
  fst (delete_zone E zone_id w) = Return "Zone deleted" /\
  sensors (db w') = filter (fun s => negb (sensor_in_zone zone_id s))
                           (sensors (db w)) /\
  count_documents (sensor_in_zone zone_id) (sensors (db w')) = 0 /\
  length (sensors (db w')) + N = length (sensors (db w)) /\
  (exists l1 l2,
      zones (db w) = l1 ++ zone :: l2 /\
      existsb (zone_has_id zone_id) l1 = false /\
      zones (db w') = l1 ++ l2) /\
  exists ev,
    events (db w') = events (db w) ++ [ev] /\
    event_type ev = zone_removed /\
    event_zone_id ev = Some zone_id /\
    event_sensor_id ev = None.
Proof.
  intros Hz N w'. subst N w'.
  unfold delete_zone, bind, get_world. rewrite Hz.
  unfold modify, with_sensors, with_zones. rewrite log_event_run.
  cbn [fst snd ret db zones sensors events].
  split; [reflexivity|]. split; [reflexivity|].
  split; [apply count_documents_delete_all|].
  split; [apply length_delete_all|].
  split.
  - destruct (find_one_split _ _ _ Hz) as (l1 & l2 & Hl & Hx & Hl1).
    exists l1, l2. rewrite Hl. repeat split; auto.
    now apply delete_first_split.
  - eexists. split; [reflexivity|]. cbn. auto.
Qed.

(** C8. Whatever the event log held, after [clear_events] it holds
    exactly one event: the "system" record with message
    "Activity log cleared", appended after the collection was
    emptied. *)
Theorem clear_events_leaves_one (w : World) :
  let w' := snd (clear_events E w) in
  fst (clear_events E w) = Return "Events cleared" /\
  events (db w') =
    [mkEvent (uuid4 E (uuid_draws w)) system "Activity log cleared" info
             None None (utcnow E (clock_reads w))] /\
  length (events (db w')) = 1.
Proof.
  unfold clear_events, bind, modify, with_events, delete_all.
  rewrite log_event_run.
  cbn [fst snd ret db events uuid_draws clock_reads].
  assert (Hnil : filter (fun _ : Event => negb true) (events (db w)) = []).
  { induction (events (db w)); [reflexivity | assumption]. }
  rewrite Hnil. repeat split.
Qed.

(** C9. Resetting a sensor that exists and is already "active" changes
    nothing: the handler answers "Sensor reset", the sensor is still
    "active", no event is appended, and the whole world is as
    before. *)
Theorem reset_sensor_idempotent (sensor_id : string) (w : World)
  (sensor : Sensor) :
  find_one (sensor_has_id sensor_id) (sensors (db w)) = Some sensor ->
  sensor_status sensor = active ->
  let w' := snd (reset_sensor sensor_id w) in
  fst (reset_sensor sensor_id w) = Return "Sensor reset" /\
  find_one (sensor_has_id sensor_id) (sensors (db w')) = Some sensor /\
  events (db w') = events (db w) /\
  w' = w.
Proof.
  intros Hs Hact w'. subst w'.
  assert (Hrun : reset_sensor sensor_id w = (Return "Sensor reset", w)).
  { unfold reset_sensor, bind, get_world, modify, with_sensors, matched_count.
    rewrite (find_one_existsb _ _ _ Hs). cbn [Nat.eqb ret].
    rewrite (update_first_fixed _ _ _ sensor Hs).
    - destruct w as [[? ? ? ? ?] ? ? ? ?]. reflexivity.
    - destruct sensor. cbn in Hact. subst. reflexivity. }
  rewrite Hrun. cbn [fst snd]. auto.
Qed.
End CrudProperties.

Section GatewayProperties.
Variable E : Environ.

(** C6. [send_sms_alert] never raises.  If SMS is disabled in the
    stored settings, or no alert phone number is set, or the Twilio
    client or sender number is not configured, it returns false with
    the store, the identifier and clock counters and the list of
    provider calls untouched; all it leaves is one record in the
    process log.  Otherwise it calls the provider once, for the stored
    number; if the provider accepts, it appends exactly one "sms_sent"
    event and returns true; if the provider raises, the error is
    caught, no event is appended and the result is false. *)
Theorem send_sms_alert_contract (msg : string) (w : World) :
  let r := send_sms_alert E msg w in
  let w' := snd r in
  (exists b, fst r = Return b) /\
  if sms_disabled w || no_alert_phone_number w || twilio_unconfigured E
  then
    fst r = Return false /\
    db w' = db w /\
    twilio_requests w' = twilio_requests w /\
    uuid_draws w' = uuid_draws w /\ clock_reads w' = clock_reads w /\
    (exists line, log_records w' = log_records w ++ [line])
  else
    exists st to,
      find_one is_settings (settings (db w)) = Some st /\
      sd_alert_phone_number st = Some to /\
      let req := mkSmsRequest msg (twilio_phone_number E) to in
      twilio_requests w' = twilio_requests w ++ [req] /\
      match messages_create E (length (twilio_requests w)) req with
      | None =>
          fst r = Return true /\
          (exists ev,
              events (db w') = events (db w) ++ [ev] /\
              event_type ev = sms_sent /\
              event_message ev = "SMS alert sent: " +++ msg /\
              event_severity ev = info) /\
          zones (db w') = zones (db w) /\
          sensors (db w') = sensors (db w) /\
          system_state (db w') = system_state (db w) /\
          settings (db w') = settings (db w)
      | Some _ =>
          fst r = Return false /\ db w' = db w
      end.
Proof.
  intros r w'. subst r w'.
  destruct (sms_disabled w || no_alert_phone_number w || twilio_unconfigured E)
    eqn:Hg.
  - destruct (send_sms_alert_refused E msg w Hg) as [line ->].
    cbn. eauto 10.
  - destruct (send_sms_alert_dispatched E msg w Hg) as (st & to & Hst & Hto & ->).
    destruct (messages_create E (length (twilio_requests w))
                (mkSmsRequest msg (twilio_phone_number E) to)) eqn:Hp.
    + split; [cbn; eauto|]. exists st, to. cbv zeta. rewrite Hp. cbn. auto.
    + split; [cbn; eauto|]. exists st, to. cbv zeta. rewrite Hp. cbn.
      repeat split; auto. eexists. repeat split.
Qed.
End GatewayProperties.

Section UpdateProperties.

Lemma set_zone_update_data (u : ZoneUpdate) (z : Zone) :
  set_zone (zone_update_data u) z =
  mkZone (zone_id_ z) (patched (zu_name u) (zone_name z))
         (patched_opt (zu_description u) (zone_description z))
         (patched_opt (zu_image_url u) (zone_image_url z))
         (zone_created_at z).
Proof. destruct u as [[n|] [d|] [i|]], z; reflexivity. Qed.

Lemma set_sensor_update_data (u : SensorUpdate) (s : Sensor) :
  set_sensor (sensor_update_data u) s =
  mkSensor (sensor_id_ s) (patched (su_name u) (sensor_name s))
           (sensor_type s) (patched (su_zone_id u) (sensor_zone_id s))
           (patched (su_status u) (sensor_status s))
           (patched (su_battery_level u) (sensor_battery_level s))
           (sensor_last_triggered s) (sensor_created_at s).
Proof. destruct u as [[n|] [z|] [st|] [b|]], s; reflexivity. Qed.

Lemma set_settings_update_data (u : SettingsUpdate) (now : datetime)
  (d : SettingsDoc) :
  set_settings (settings_update_data u ++ [st_updated_at now]) d =
  mkSettingsDoc (sd_id d)
                (patched_opt (stu_sms_enabled u) (sd_sms_enabled d))
                (patched_opt (stu_alert_phone_number u) (sd_alert_phone_number d))
                (Some now).
Proof. destruct u as [[e|] [ph|]], d; reflexivity. Qed.

Lemma encodable_sensor_update_data (u : SensorUpdate) :
  encodable (sensor_update_data u)
  = match su_battery_level u with Some b => int64 b | None => true end.
Proof.
  destruct u as [[n|] [z|] [st|] [b|]]; cbn; rewrite ?andb_true_r; reflexivity.
Qed.

(** C4, as the code has it.  [update_zone] and [update_sensor] answer a
    payload whose fields are all null with 400 "No update data
    provided" and leave the world as it was; on an existing document a
    payload with some non-null field replaces exactly the supplied
    keys of that document; for a sensor this is so when the supplied
    battery level, if any, fits the eight bytes of a stored integer,
    and otherwise the update ends in the driver's [OverflowError] with
    nothing applied.  [update_settings] has no such check: for
    every payload, the all-null one included, it returns the stored
    settings, in which the supplied keys are replaced, [updated_at] is
    the time read, and the document is created when it was absent. *)
Theorem update_endpoints_partial :
  (forall zone_id w,
      update_zone zone_id (mkZoneUpdate None None None) w
      = (Raise (HTTPException 400 "No update data provided"), w)) /\
  (forall sensor_id w,
      update_sensor sensor_id (mkSensorUpdate None None None None) w
      = (Raise (HTTPException 400 "No update data provided"), w)) /\
  (forall zone_id u w z,
      is_empty (zone_update_data u) = false ->
      find_one (zone_has_id zone_id) (zones (db w)) = Some z ->
      let z' := mkZone (zone_id_ z) (patched (zu_name u) (zone_name z))
                       (patched_opt (zu_description u) (zone_description z))
                       (patched_opt (zu_image_url u) (zone_image_url z))
                       (zone_created_at z) in
      let w' := snd (update_zone zone_id u w) in
      fst (update_zone zone_id u w) = Return z' /\
      (exists l1 l2, zones (db w) = l1 ++ z :: l2 /\
                     zones (db w') = l1 ++ z' :: l2) /\
      w' = with_zones (fun _ => zones (db w')) w) /\
  (forall sensor_id u w s,
      is_empty (sensor_update_data u) = false ->
      encodable (sensor_update_data u) = true ->
      find_one (sensor_has_id sensor_id) (sensors (db w)) = Some s ->
      let s' := mkSensor (sensor_id_ s) (patched (su_name u) (sensor_name s))
                         (sensor_type s)
                         (patched (su_zone_id u) (sensor_zone_id s))
                         (patched (su_status u) (sensor_status s))
                         (patched (su_battery_level u) (sensor_battery_level s))
                         (sensor_last_triggered s) (sensor_created_at s) in
      let w' := snd (update_sensor sensor_id u w) in
      fst (update_sensor sensor_id u w) = Return s' /\
      (exists l1 l2, sensors (db w) = l1 ++ s :: l2 /\
                     sensors (db w') = l1 ++ s' :: l2) /\
      w' = with_sensors (fun _ => sensors (db w')) w) /\
  (forall sensor_id u w,
      is_empty (sensor_update_data u) = false ->
      encodable (sensor_update_data u) = false ->
      update_sensor sensor_id u w = (Raise bson_overflow, w)) /\
  (forall E u w,
      let now := utcnow E (clock_reads w) in
      let old := match find_one is_settings (settings (db w)) with
                 | Some st => st
                 | None => mkSettingsDoc "settings" None None None
                 end in
      let doc := mkSettingsDoc
                   (sd_id old)
                   (patched_opt (stu_sms_enabled u) (sd_sms_enabled old))
                   (patched_opt (stu_alert_phone_number u)
                                (sd_alert_phone_number old))
                   (Some now) in
      let w' := snd (update_settings E u w) in
      fst (update_settings E u w) = Return (Settings_of_doc doc now) /\
      find_one is_settings (settings (db w')) = Some doc /\
      length (settings (db w')) =
        match find_one is_settings (settings (db w)) with
        | Some _ => length (settings (db w))
        | None => S (length (settings (db w)))
        end).
Proof.
  split; [reflexivity|]. split; [reflexivity|]. split; [|split; [|split]].
  - intros zone_id u w z Hne Hz z' w'. subst w'.
    destruct (find_one_split _ _ _ Hz) as (l1 & l2 & Hl & Hx & Hl1).
    assert (Hx' : zone_has_id zone_id z' = true) by exact Hx.
    unfold update_zone. rewrite Hne.
    unfold bind, get_world, modify, with_zones, matched_count.
    rewrite (find_one_existsb _ _ _ Hz).
    cbn [Nat.eqb fst snd db zones].
    rewrite (find_one_update_first _ _ _ _ Hz)
      by (rewrite set_zone_update_data; exact Hx').
    rewrite set_zone_update_data. fold z'.
    cbn [deref ret fst snd db zones].
    split; [reflexivity|]. split; [|reflexivity].
    exists l1, l2. split; [exact Hl|].
    rewrite Hl, update_first_split, set_zone_update_data by assumption.
    reflexivity.
  - intros sensor_id u w s Hne Henc Hs s' w'. subst w'.
    destruct (find_one_split _ _ _ Hs) as (l1 & l2 & Hl & Hx & Hl1).
    assert (Hx' : sensor_has_id sensor_id s' = true) by exact Hx.
    unfold update_sensor. rewrite Hne, Henc.
    unfold bind, ret, get_world, modify, with_sensors, matched_count.
    rewrite (find_one_existsb _ _ _ Hs).
    cbn [Nat.eqb fst snd db sensors].
    rewrite (find_one_update_first _ _ _ _ Hs)
      by (rewrite set_sensor_update_data; exact Hx').
    rewrite set_sensor_update_data. fold s'.
    cbn [deref ret fst snd db sensors].
    split; [reflexivity|]. split; [|reflexivity].
    exists l1, l2. split; [exact Hl|].
    rewrite Hl, update_first_split, set_sensor_update_data by assumption.
    reflexivity.
  - intros sensor_id u w Hne Henc.
    unfold update_sensor. rewrite Hne, Henc. reflexivity.
  - intros E u w now old doc w'. subst w'.
    unfold update_settings, bind, datetime_now, modify, with_settings, get_world.
    cbn [fst snd db settings clock_reads]. fold now.
    destruct (find_one is_settings (settings (db w))) as [st|] eqn:Hst.
    + rewrite (find_one_existsb _ _ _ Hst).
      destruct (find_one_split _ _ _ Hst) as (l1 & l2 & Hl & Hx & Hl1).
      rewrite (find_one_update_first _ _ _ _ Hst)
        by (rewrite set_settings_update_data; exact Hx).
      rewrite set_settings_update_data. fold old doc.
      cbn [getitem deref ret bind fst snd sd_updated_at doc]. unfold ret.
      cbn [fst snd db settings].
      rewrite (find_one_update_first _ _ _ _ Hst)
        by (rewrite set_settings_update_data; exact Hx).
      rewrite set_settings_update_data. fold old doc.
      repeat split.
      rewrite Hl, update_first_split by assumption.
      rewrite !length_app. reflexivity.
    + rewrite (find_one_none_existsb _ _ Hst).
      rewrite find_one_app_skip by now apply find_one_none_existsb.
      rewrite set_settings_update_data. fold old doc.
      change (find_one is_settings [doc]) with (Some doc).
      cbn [getitem deref ret bind fst snd sd_updated_at doc]. unfold ret.
      cbn [fst snd db settings].
      rewrite find_one_app_skip by now apply find_one_none_existsb.
      repeat split. rewrite length_app. cbn. lia.
Qed.
End UpdateProperties.

Section FreshSystem.
Variable E : Environ.

Lemma never_updated_refuses (w : World) :
  never_updated w ->
  sms_disabled w || no_alert_phone_number w || twilio_unconfigured E = true.
Proof.
  unfold never_updated, sms_disabled.
  intros [H | [t H]]; rewrite H; reflexivity.
Qed.

Lemma never_updated_settings (w w' : World) :
  settings (db w') = settings (db w) -> never_updated w -> never_updated w'.
Proof. unfold never_updated. intros ->. auto. Qed.

(** The footprint of each handler on the settings collection and on
    the list of provider calls. *)
Ltac split_handler :=
  repeat
  (cbn [fst snd db zones sensors events system_state settings
        twilio_requests negb Nat.eqb];
   match goal with
  | |- context [find_one ?p ?l] => destruct (find_one p l)
  | |- context [existsb ?p ?l] => destruct (existsb p l)
  | |- context [is_empty ?l] => destruct (is_empty l)
  | |- context [encodable ?l] => destruct (encodable l)
  | |- context [int64 ?x] => destruct (int64 x)
  | |- context [Mode_eqb ?a ?b] => destruct (Mode_eqb a b)
  | |- context [ssu_mode ?u] => destruct (ssu_mode u)
  | |- context [sc_battery_level ?x] => destruct (sc_battery_level x)
  | |- context [Z.ltb ?a ?b] => destruct (Z.ltb a b)
  end);
  cbn [fst snd db settings twilio_requests negb Nat.eqb]; auto.

Lemma trigger_sensor_fresh (trigger : SensorTrigger) (w : World) :
  never_updated w ->
  settings (db (snd (trigger_sensor E trigger w))) = settings (db w) /\
  twilio_requests (snd (trigger_sensor E trigger w)) = twilio_requests w.
Proof.
  intros Hinv.
  destruct (find_one (sensor_has_id (trigger_sensor_id trigger))
              (sensors (db w))) as [sensor|] eqn:Hs.
  - destruct (trigger_sensor_prelude E trigger w sensor Hs)
      as (state & w2 & _ & _ & _ & _ & Hst & Htw & _ & ->).
    cbv zeta.
    destruct (state_mode state); unfold bind; rewrite log_event_run;
      cbn [fst snd ret db settings twilio_requests]; auto.
    match goal with
    | |- context [send_sms_alert E ?m ?w3] =>
        destruct (send_sms_alert_refused E m w3) as [line ->]
    end.
    + apply never_updated_refuses.
      apply (never_updated_settings w); [exact Hst | exact Hinv].
    + cbn [fst snd ret db settings twilio_requests]. auto.
  - unfold trigger_sensor, bind, get_world. rewrite Hs. auto.
Qed.

Lemma handle_fresh (r : Request) (w : World) :
  is_PUT_settings r = false ->
  never_updated w ->
  never_updated (snd (handle E r w)) /\
  twilio_requests (snd (handle E r w)) = twilio_requests w.
Proof.
  intros Hr Hinv.
  destruct r; try discriminate Hr; cbn [handle]; unfold respond;
    lazymatch goal with
    | |- context [get_settings] => idtac
    | |- _ => split; [apply (never_updated_settings w); [|exact Hinv] |]
    end.
  all: try match goal with
       | |- context [trigger_sensor] =>
           unfold bind;
           pose proof (trigger_sensor_fresh trigger w Hinv) as [Hst Htw];
           destruct (trigger_sensor E trigger w) as [[resp|e] w'];
           cbn [fst snd ret] in *; assumption
       end.
  all: try (unfold root, get_state, update_state, get_system_state, get_zones,
            create_zone, update_zone, delete_zone, get_sensors,
            get_sensors_by_zone, create_sensor, update_sensor, delete_sensor,
            reset_sensor, get_events, clear_events, get_dashboard_stats,
            to_list, get_system_state, log_event, matched_count,
            with_zones, with_sensors, with_events, with_system_state;
            run_monad; split_handler; fail).
  (* GET /api/settings *)
  unfold get_settings, never_updated. run_monad. unfold with_settings.
  destruct Hinv as [H | [t H]]; rewrite H;
    cbn [find_one find is_settings sd_id default_settings_doc String.eqb
         Ascii.eqb Bool.eqb fst snd db settings twilio_requests sd_updated_at
         app]; rewrite ?H; split; auto.
  - right. eexists. reflexivity.
  - right. exists t. reflexivity.
Qed.

Lemma serve_fresh (rs : list Request) (w : World) :
  forallb (fun r => negb (is_PUT_settings r)) rs = true ->
  never_updated w ->
  never_updated (serve E rs w) /\
  twilio_requests (serve E rs w) = twilio_requests w.
Proof.
  revert w. induction rs as [|r rs IH]; intros w Hrs Hinv; cbn [serve fold_left].
  - auto.
  - cbn [forallb] in Hrs. apply andb_true_iff in Hrs as [Hr Hrs].
    apply negb_true_iff in Hr.
    destruct (handle_fresh r w Hr Hinv) as [Hinv' Htw].
    destruct (IH _ Hrs Hinv') as [Hinv'' Htw'].
    split; [exact Hinv''|]. unfold serve in Htw'. now rewrite Htw'.
Qed.

(** C10. Start from the empty store and serve any requests, none of
    them a PUT of the settings.  Then the settings read back are the
    defaults, SMS disabled and no alert phone number (created on that
    read if the collection is still empty); [send_sms_alert] returns
    false, leaves the store as it is and calls no provider; and no
    provider call has been made by any of the requests served. *)
Theorem fresh_system_sends_no_sms (rs : list Request) (msg : string) :
  forallb (fun r => negb (is_PUT_settings r)) rs = true ->
  let w := serve E rs initial_world in
  (exists st,
      fst (get_settings E w) = Return st /\
      sms_enabled st = false /\ alert_phone_number st = None) /\
  fst (send_sms_alert E msg w) = Return false /\
  db (snd (send_sms_alert E msg w)) = db w /\
  twilio_requests (snd (send_sms_alert E msg w)) = [] /\
  twilio_requests w = [].
Proof.
  intros Hrs w.
  assert (H0 : never_updated initial_world) by (left; reflexivity).
  destruct (serve_fresh rs initial_world Hrs H0) as [Hinv Htw].
  fold w in Hinv, Htw. cbn in Htw.
  destruct (send_sms_alert_refused E msg w (never_updated_refuses w Hinv))
    as [line ->].
  cbn [fst snd db twilio_requests].
  split; [|auto].
  unfold get_settings. run_monad.
  destruct Hinv as [H | [t H]]; rewrite H; cbn; eauto.
Qed.
End FreshSystem.

(* ================================================================== *)
(** ** The theorems at concrete inputs *)

Lemma trigger_sensor_result_by_mode_witness :
  find_one (sensor_has_id "s2") (sensors (db (Demo.store armed true)))
  = Some Demo.front /\
  exists resp ev,
    fst (trigger_sensor (Demo.env true) (mkSensorTrigger "s2")
                        (Demo.store armed true)) = Return resp /\
    alert resp = true /\ severity resp = "danger" /\
    event_type ev = intrusion /\ event_severity ev = danger.
Proof.
  split; [reflexivity|].
  destruct (trigger_sensor_result_by_mode (Demo.env true)
              (mkSensorTrigger "s2") (Demo.store armed true) Demo.front
              eq_refl)
    as (resp & ev & rest & Hr & _ & _ & _ & _ & Ha & Hsev & Hty & Hes).
  exists resp, ev. auto.
Defined.

Lemma trigger_sensor_dispatch_witness :
  find_one (sensor_has_id "s2") (sensors (db (Demo.store armed true)))
  = Some Demo.front /\
  count_documents is_intrusion
    (events (db (snd (trigger_sensor (Demo.env true) (mkSensorTrigger "s2")
                                     (Demo.store armed true)))))
  = count_documents is_intrusion (events (db (Demo.store armed true))) + 1 /\
  exists line,
    log_records (snd (trigger_sensor (Demo.env true) (mkSensorTrigger "s2")
                                     (Demo.store armed true)))
    = log_records (Demo.store armed true) ++ [line].
Proof.
  split; [reflexivity|].
  pose proof (trigger_sensor_dispatch (Demo.env true) (mkSensorTrigger "s2")
                (Demo.store armed true) Demo.front eq_refl) as H.
  cbv zeta in H.
  change (current_mode (Demo.store armed true)) with armed in H.
  cbv iota in H.
  destruct H as (Hc & _ & Hl & _).
  split; [exact Hc | exact Hl].
Defined.

Lemma trigger_sensor_marks_triggered_witness :
  find_one (sensor_has_id "s2") (sensors (db (Demo.store disarmed false)))
  = Some Demo.front /\
  exists sensor',
    find_one (sensor_has_id "s2")
             (sensors (db (snd (trigger_sensor (Demo.env true)
                                               (mkSensorTrigger "s2")
                                               (Demo.store disarmed false)))))
    = Some sensor' /\
    sensor_status sensor' = triggered /\
    sensor_last_triggered sensor' = Some 1007%Z.
Proof.
  split; [reflexivity|].
  destruct (trigger_sensor_marks_triggered (Demo.env true)
              (mkSensorTrigger "s2") (Demo.store disarmed false) Demo.front
              eq_refl)
    as (sensor' & Hf & Hst & Hlt & _).
  exists sensor'. auto.
Defined.

Lemma delete_zone_cascade_witness :
  find_one (zone_has_id "z1") (zones (db (Demo.store armed true)))
  = Some Demo.hall /\
  sensors (db (snd (delete_zone (Demo.env true) "z1" (Demo.store armed true))))
  = [Demo.shed] /\
  zones (db (snd (delete_zone (Demo.env true) "z1" (Demo.store armed true))))
  = [].
Proof.
  split; [reflexivity|].
  pose proof (delete_zone_cascade (Demo.env true) "z1" (Demo.store armed true)
                Demo.hall eq_refl) as (_ & Hs & _ & _ & _ & _).
  split; [exact Hs | reflexivity].
Defined.

Lemma reset_sensor_idempotent_witness :
  find_one (sensor_has_id "s2") (sensors (db (Demo.store armed true)))
  = Some Demo.front /\
  sensor_status Demo.front = active /\
  snd (reset_sensor "s2" (Demo.store armed true)) = Demo.store armed true.
Proof.
  split; [reflexivity|]. split; [reflexivity|].
  exact (proj2 (proj2 (proj2 (reset_sensor_idempotent "s2"
                                (Demo.store armed true) Demo.front
                                eq_refl eq_refl)))).
Defined.

Lemma fresh_system_sends_no_sms_witness :
  forallb (fun r => negb (is_PUT_settings r)) Demo.session = true /\
  fst (send_sms_alert (Demo.env true) "test"
                      (serve (Demo.env true) Demo.session initial_world))
  = Return false /\
  twilio_requests (serve (Demo.env true) Demo.session initial_world) = [].
Proof.
  split; [reflexivity|].
  pose proof (fresh_system_sends_no_sms (Demo.env true) Demo.session "test"
                eq_refl) as (_ & Hf & _ & _ & Htw).
  split; [exact Hf | exact Htw].
Defined.

Lemma update_endpoints_partial_witness :
  is_empty (sensor_update_data (mkSensorUpdate None None (Some offline) (Some 55%Z)))
  = false /\
  encodable (sensor_update_data (mkSensorUpdate None None (Some offline) (Some 55%Z)))
  = true /\
  find_one (sensor_has_id "s1") (sensors (db (Demo.store armed true)))
  = Some Demo.pir /\
  fst (update_sensor "s1" (mkSensorUpdate None None (Some offline) (Some 55%Z))
                     (Demo.store armed true))
  = Return (mkSensor "s1" "PIR" motion "z1" offline 55%Z None 2%Z).
Proof.
  split; [reflexivity|]. split; [reflexivity|]. split; [reflexivity|].
  destruct update_endpoints_partial as (_ & _ & _ & Hsensor & _).
  exact (proj1 (Hsensor "s1" (mkSensorUpdate None None (Some offline) (Some 55%Z))
                        (Demo.store armed true) Demo.pir
                        eq_refl eq_refl eq_refl)).
Defined.

(** The settings update does not reject the payload whose fields are
    all null: on the empty store it answers with the settings it has
    just created, and the collection is no longer empty. *)
Lemma update_settings_accepts_all_null :
  let r := update_settings (Demo.env true) (mkSettingsUpdate None None)
                           initial_world in
  fst r = Return (mkSettings "settings" false None 1000%Z) /\
  fst r <> Raise (HTTPException 400 "No update data provided") /\
  settings (db initial_world) = [] /\
  settings (db (snd r)) = [mkSettingsDoc "settings" None None (Some 1000%Z)].
Proof.
  cbv zeta. repeat split. discriminate.
Qed.

(** On a store that has a settings document the all-null payload is
    accepted as well, and the stored [updated_at] moves. *)
Example update_settings_all_null_touches :
  let r := update_settings (Demo.env true) (mkSettingsUpdate None None)
                           (Demo.store armed true) in
  fst r = Return (mkSettings "settings" true (Some "+15551111") 1007%Z) /\
  settings (db (Demo.store armed true))
  = [mkSettingsDoc "settings" (Some true) (Some "+15551111") (Some 6%Z)] /\
  settings (db (snd r))
  = [mkSettingsDoc "settings" (Some true) (Some "+15551111") (Some 1007%Z)].
Proof. repeat split. Qed.

Example trigger_door_armed :
  fst (trigger_sensor (Demo.env true) (mkSensorTrigger "s2")
                      (Demo.store armed true))
  = Return (mkTriggerResponse true "INTRUSION: Door opened - Front in Hall"
                              "danger").
Proof. reflexivity. Qed.

Example trigger_orphan_sensor_monitoring :
  fst (trigger_sensor (Demo.env true) (mkSensorTrigger "s3")
                      (Demo.store monitoring true))
  = Return (mkTriggerResponse false
              "Movement logged: Window opened - Shed in Unknown Zone"
              "warning").
Proof. reflexivity. Qed.

Example trigger_unknown_sensor :
  trigger_sensor (Demo.env true) (mkSensorTrigger "nope") (Demo.store armed true)
  = (Raise (HTTPException 404 "Sensor not found"), Demo.store armed true).
Proof. reflexivity. Qed.

Example send_sms_alert_provider_down :
  let r := send_sms_alert (Demo.env false) "alert" (Demo.store armed true) in
  fst r = Return false /\
  events (db (snd r)) = [] /\
  twilio_requests (snd r)
  = [mkSmsRequest "alert" (Some "+15550000") "+15551111"] /\
  log_records (snd r) = [(ERROR, "Failed to send SMS: provider down")].
Proof. repeat split. Qed.

Example send_sms_alert_no_credentials :
  send_sms_alert Demo.env_no_twilio "alert" (Demo.store armed true)
  = (Return false,
     mkWorld (db (Demo.store armed true)) 7 7 []
             [(ERROR, "Twilio not configured")]).
Proof. reflexivity. Qed.

Example session_events :
  map (fun e => EventType_str (event_type e))
      (events (db (serve (Demo.env true) Demo.session initial_world)))
  = ["zone_added"; "sensor_added"; "armed"; "intrusion"].
Proof. reflexivity. Qed.


Example update_state_arms_fresh_system :
  let r := update_state (Demo.env true) (mkSystemStateUpdate armed) initial_world in
  fst r = Return (mkSystemState "system_state" armed 1001%Z) /\
  system_state (db (snd r)) = [mkSystemState "system_state" armed 1001%Z] /\
  events (db (snd r))
  = [mkEvent "id-0" ev_armed "System armed" warning None None 1002%Z].
Proof. repeat split. Qed.

Example update_state_same_mode_is_silent :
  events (db (snd (update_state (Demo.env true) (mkSystemStateUpdate armed)
                                (Demo.store armed true)))) = [].
Proof. reflexivity. Qed.

Example clear_events_after_session :
  events (db (snd (clear_events (Demo.env true)
                     (serve (Demo.env true) Demo.session initial_world))))
  = [mkEvent "id-6" system "Activity log cleared" info None None 1010%Z].
Proof. reflexivity. Qed.


(* ================================================================== *)
(** ** Further properties of the handlers *)

Section MoreCollectionFacts.
Context {A : Type}.
Variable p : A -> bool.

Lemma update_first_unmatched (f : A -> A) (l : list A) :
  existsb p l = false -> update_first p f l = l.
Proof.
  induction l as [|a l IH]; cbn; intros H; [reflexivity|].
  apply orb_false_iff in H as [Ha H]. rewrite Ha. f_equal. auto.
Qed.

Lemma delete_all_unmatched (l : list A) :
  count_documents p l = 0 -> delete_all p l = l.
Proof.
  unfold count_documents, delete_all.
  induction l as [|a l IH]; cbn; [reflexivity|].
  destruct (p a); cbn; [discriminate|]. intros H. f_equal. auto.
Qed.

Lemma world_eta (w : World) :
  mkWorld (mkDb (zones (db w)) (sensors (db w)) (events (db w))
                (system_state (db w)) (settings (db w)))
          (uuid_draws w) (clock_reads w) (twilio_requests w) (log_records w)
  = w.
Proof. destruct w as [[? ? ? ? ?] ? ? ? ?]. reflexivity. Qed.
End MoreCollectionFacts.

Section NotFound.
Variable E : Environ.

(** X1. Every "not found" answer leaves the world exactly as it was:
    the handlers that look the document up first ([delete_zone],
    [delete_sensor], [trigger_sensor], and [create_sensor] for its zone)
    and those that try the update first ([update_zone] and
    [update_sensor] with a non-empty payload, [reset_sensor]).  For
    [update_sensor] the answer is the 404 when the payload can be
    encoded; a battery level beyond eight bytes is refused by the driver
    before the lookup, and that too leaves the world as it was. *)
Theorem not_found_leaves_world (w : World) :
  (forall zone_id,
      find_one (zone_has_id zone_id) (zones (db w)) = None ->
      delete_zone E zone_id w = (Raise (HTTPException 404 "Zone not found"), w) /\
      (forall u, is_empty (zone_update_data u) = false ->
                 update_zone zone_id u w
                 = (Raise (HTTPException 404 "Zone not found"), w)) /\
      (forall sensor_data, sc_zone_id sensor_data = zone_id ->
                 create_sensor E sensor_data w
                 = (Raise (HTTPException 404 "Zone not found"), w))) /\
  (forall sensor_id,
      find_one (sensor_has_id sensor_id) (sensors (db w)) = None ->
      delete_sensor E sensor_id w
      = (Raise (HTTPException 404 "Sensor not found"), w) /\
      trigger_sensor E (mkSensorTrigger sensor_id) w
      = (Raise (HTTPException 404 "Sensor not found"), w) /\
      reset_sensor sensor_id w
      = (Raise (HTTPException 404 "Sensor not found"), w) /\
      (forall u, is_empty (sensor_update_data u) = false ->
                 update_sensor sensor_id u w
                 = (Raise (if encodable (sensor_update_data u)
                           then HTTPException 404 "Sensor not found"
                           else bson_overflow), w))).
Proof.
  split.
  - intros zone_id Hz. pose proof (find_one_none_existsb _ _ Hz) as Hex.
    split; [|split].
    + unfold delete_zone, bind, get_world. now rewrite Hz.
    + intros u Hu. unfold update_zone. rewrite Hu.
      unfold bind, get_world, modify, with_zones, matched_count.
      rewrite Hex, update_first_unmatched by exact Hex.
      cbn. now rewrite world_eta.
    + intros sd <-. unfold create_sensor, bind, get_world. now rewrite Hz.
  - intros sensor_id Hs. pose proof (find_one_none_existsb _ _ Hs) as Hex.
    split; [|split; [|split]].
    + unfold delete_sensor, bind, get_world. now rewrite Hs.
    + unfold trigger_sensor, bind, get_world. cbn [trigger_sensor_id].
      now rewrite Hs.
    + unfold reset_sensor, bind, get_world, modify, with_sensors, matched_count.
      rewrite Hex, update_first_unmatched by exact Hex.
      cbn. now rewrite world_eta.
    + intros u Hu. unfold update_sensor. rewrite Hu.
      destruct (encodable (sensor_update_data u)); [|reflexivity].
      unfold bind, ret, get_world, modify, with_sensors, matched_count.
      rewrite Hex, update_first_unmatched by exact Hex.
      cbn. now rewrite world_eta.
Qed.
End NotFound.

Section CreateDelete.
Variable E : Environ.

(** X2. [create_zone] stores the payload under the identifier it draws:
    when no stored zone has that identifier, a lookup by it afterwards
    finds the zone that was returned, whose fields are those of the
    payload; the handler also appends one "zone_added" event that
    carries the identifier, and leaves the sensors alone. *)
Theorem create_zone_then_find (zone_data : ZoneCreate) (w : World) :
  let i := uuid4 E (uuid_draws w) in
  find_one (zone_has_id i) (zones (db w)) = None ->
  let zone := mkZone i (zc_name zone_data) (zc_description zone_data)
                     (zc_image_url zone_data) (utcnow E (clock_reads w)) in
  let w' := snd (create_zone E zone_data w) in
  fst (create_zone E zone_data w) = Return zone /\
  find_one (zone_has_id i) (zones (db w')) = Some zone /\
  zones (db w') = zones (db w) ++ [zone] /\
  sensors (db w') = sensors (db w) /\
  exists ev,
    events (db w') = events (db w) ++ [ev] /\
    event_type ev = zone_added /\ event_zone_id ev = Some i /\
    event_sensor_id ev = None /\
    event_message ev = "Zone '" +++ zc_name zone_data +++ "' added".
Proof.
  intros i Hfresh zone w'. subst w'.
  unfold create_zone, bind, uuid4_str, datetime_now, modify, with_zones.
  rewrite log_event_run. cbn [fst snd ret db zones sensors events uuid_draws
                              clock_reads zone_name zone_id_].
  fold i. fold zone.
  split; [reflexivity|]. split.
  - rewrite find_one_app_skip by now apply find_one_none_existsb.
    unfold find_one, zone_has_id. cbn. now rewrite String.eqb_refl.
  - repeat split. eexists. repeat split.
Qed.

(** X3. [create_sensor] for an existing zone and a given battery level
    that fits the eight bytes of a stored integer
    returns a sensor that is "inactive", never triggered, in that zone,
    and stores it last; one "sensor_added" event carries both the sensor
    and the zone identifier; when no stored sensor has the identifier
    drawn, a lookup by it finds the new sensor. *)
Theorem create_sensor_then_find (sensor_data : SensorCreate) (w : World)
  (zone : Zone) (battery : Z) :
  find_one (zone_has_id (sc_zone_id sensor_data)) (zones (db w)) = Some zone ->
  sc_battery_level sensor_data = Some battery ->
  int64 battery = true ->
  let i := uuid4 E (uuid_draws w) in
  find_one (sensor_has_id i) (sensors (db w)) = None ->
  let sensor := mkSensor i (sc_name sensor_data) (sc_type sensor_data)
                         (sc_zone_id sensor_data) inactive battery None
                         (utcnow E (clock_reads w)) in
  let w' := snd (create_sensor E sensor_data w) in
  fst (create_sensor E sensor_data w) = Return sensor /\
  find_one (sensor_has_id i) (sensors (db w')) = Some sensor /\
  sensors (db w') = sensors (db w) ++ [sensor] /\
  zones (db w') = zones (db w) /\
  exists ev,
    events (db w') = events (db w) ++ [ev] /\
    event_type ev = sensor_added /\
    event_sensor_id ev = Some i /\
    event_zone_id ev = Some (sc_zone_id sensor_data).
Proof.
  intros Hz Hb H64 i Hfresh sensor w'. subst w'.
  unfold create_sensor, bind, get_world. rewrite Hz.
  unfold uuid4_str, datetime_now. rewrite Hb, H64.
  unfold ret, modify, with_sensors. rewrite log_event_run.
  cbn [fst snd ret db zones sensors events uuid_draws clock_reads
       sensor_name sensor_id_ sensor_type sensor_zone_id].
  fold i. fold sensor.
  split; [reflexivity|]. split.
  - rewrite find_one_app_skip by now apply find_one_none_existsb.
    unfold find_one, sensor_has_id. cbn. now rewrite String.eqb_refl.
  - repeat split. eexists. repeat split.
Qed.

(** X4. A [SensorCreate] whose battery_level is null passes the request
    model but not the [Sensor] model: for an existing zone,
    [create_sensor] then ends in a validation error, and nothing is
    stored or logged. *)
Theorem create_sensor_null_battery (sensor_data : SensorCreate) (w : World)
  (zone : Zone) :
  find_one (zone_has_id (sc_zone_id sensor_data)) (zones (db w)) = Some zone ->
  sc_battery_level sensor_data = None ->
  fst (create_sensor E sensor_data w) = Raise (ValidationError "battery_level") /\
  db (snd (create_sensor E sensor_data w)) = db w /\
  twilio_requests (snd (create_sensor E sensor_data w)) = twilio_requests w.
Proof.
  intros Hz Hb.
  unfold create_sensor, bind, get_world. rewrite Hz.
  unfold uuid4_str, datetime_now. rewrite Hb. cbn. auto.
Qed.

(** X5. Creating a zone and deleting it again restores the zones and
    the sensors, provided the identifier drawn was not in use by a zone
    and no sensor referred to it; the log keeps the trace, a
    "zone_added" followed by a "zone_removed". *)
Theorem create_then_delete_zone (zone_data : ZoneCreate) (w : World) :
  let i := uuid4 E (uuid_draws w) in
  find_one (zone_has_id i) (zones (db w)) = None ->
  count_documents (sensor_in_zone i) (sensors (db w)) = 0 ->
  let w1 := snd (create_zone E zone_data w) in
  let w2 := snd (delete_zone E i w1) in
  fst (delete_zone E i w1) = Return "Zone deleted" /\
  zones (db w2) = zones (db w) /\
  sensors (db w2) = sensors (db w) /\
  map event_type (events (db w2))
  = map event_type (events (db w)) ++ [zone_added; zone_removed].
Proof.
  intros i Hfresh Hnone w1 w2. subst w2 w1.
  pose proof (find_one_none_existsb _ _ Hfresh) as Hex.
  unfold create_zone, bind, uuid4_str, datetime_now, modify, with_zones.
  rewrite log_event_run.
  cbn [fst snd ret db zones sensors events uuid_draws clock_reads
       zone_name zone_id_].
  fold i.
  unfold delete_zone, bind, get_world.
  cbn [fst snd db zones sensors events].
  rewrite find_one_app_skip by exact Hex.
  assert (Hfind : forall n d u t,
             find_one (zone_has_id i) [mkZone i n d u t]
             = Some (mkZone i n d u t)).
  { intros n d u t. unfold find_one, zone_has_id. cbn.
    now rewrite String.eqb_refl. }
  rewrite Hfind.
  unfold modify, with_sensors, with_zones. rewrite log_event_run.
  cbn [fst snd ret db zones sensors events].
  rewrite delete_first_split by (exact Hex || (cbn; apply String.eqb_refl)).
  rewrite app_nil_r, delete_all_unmatched by exact Hnone.
  repeat split. rewrite !map_app. cbn. now rewrite <- app_assoc.
Qed.

(** X6. [delete_sensor] on a sensor that is found removes that document
    and no other, keeps the zones, and appends one "sensor_removed"
    event carrying the sensor identifier and the zone identifier the
    sensor had. *)
Theorem delete_sensor_effect (sensor_id : string) (w : World) (sensor : Sensor) :
  find_one (sensor_has_id sensor_id) (sensors (db w)) = Some sensor ->
  let w' := snd (delete_sensor E sensor_id w) in
  fst (delete_sensor E sensor_id w) = Return "Sensor deleted" /\
  (exists l1 l2,
      sensors (db w) = l1 ++ sensor :: l2 /\
      existsb (sensor_has_id sensor_id) l1 = false /\
      sensors (db w') = l1 ++ l2) /\
  zones (db w') = zones (db w) /\
  exists ev,
    events (db w') = events (db w) ++ [ev] /\
    event_type ev = sensor_removed /\
    event_sensor_id ev = Some sensor_id /\
    event_zone_id ev = Some (sensor_zone_id sensor) /\
    event_message ev = "Sensor '" +++ sensor_name sensor +++ "' removed".
Proof.
  intros Hs w'. subst w'.
  unfold delete_sensor, bind, get_world. rewrite Hs.
  unfold modify, with_sensors. rewrite log_event_run.
  cbn [fst snd ret db zones sensors events].
  split; [reflexivity|]. split.
  - destruct (find_one_split _ _ _ Hs) as (l1 & l2 & Hl & Hx & Hl1).
    exists l1, l2. rewrite Hl. repeat split; auto.
    now apply delete_first_split.
  - split; [reflexivity|]. eexists. repeat split.
Qed.
End CreateDelete.

Section Singletons.
Variable E : Environ.

Lemma update_state_stored (update : SystemStateUpdate) (w : World) :
  exists st w',
    update_state E update w = (Return st, w') /\
    find_one is_system_state (system_state (db w')) = Some st /\
    state_mode st = ssu_mode update /\
    twilio_requests w' = twilio_requests w.
Proof.
  unfold update_state. unfold bind. rewrite get_system_state_run.
  destruct (find_one is_system_state (system_state (db w))) as [s|] eqn:Hs.
  - pose proof (find_one_existsb _ _ _ Hs) as Hex.
    unfold datetime_now, modify, with_system_state.
    cbn [db zones sensors events system_state settings uuid_draws clock_reads
         twilio_requests log_records state_mode].
    rewrite Hex.
    destruct (state_mode s), (ssu_mode update); cbn [Mode_eqb negb];
      try rewrite log_event_run; cbn [ret fst snd db events system_state];
      eexists _, _; (split; [reflexivity|]);
      cbn [db system_state twilio_requests];
      (split; [apply (find_one_update_first _ (fun _ => _) _ _ Hs); reflexivity|]);
      split; reflexivity.
  - pose proof (find_one_none_existsb _ _ Hs) as Hex.
    unfold datetime_now, modify, with_system_state.
    cbn [db zones sensors events system_state settings uuid_draws clock_reads
         twilio_requests log_records state_mode].
    rewrite existsb_app, Hex.
    change (existsb is_system_state [?d]) with true. cbn [orb].
    rewrite update_first_split by (exact Hex || reflexivity).
    destruct (ssu_mode update); cbn [Mode_eqb negb];
      try rewrite log_event_run; cbn [ret fst snd db events system_state];
      eexists _, _; (split; [reflexivity|]);
      cbn [db system_state twilio_requests];
      (split; [rewrite find_one_app_skip by exact Hex; reflexivity|]);
      split; reflexivity.
Qed.

Lemma update_state_same_mode (update : SystemStateUpdate) (w : World)
  (s : SystemState) :
  find_one is_system_state (system_state (db w)) = Some s ->
  state_mode s = ssu_mode update ->
  events (db (snd (update_state E update w))) = events (db w) /\
  log_records (snd (update_state E update w)) = log_records w.
Proof.
  intros Hs Hm.
  unfold update_state. unfold bind. rewrite get_system_state_run, Hs.
  unfold datetime_now, modify, with_system_state. rewrite Hm.
  destruct (ssu_mode update); cbn; auto.
Qed.

(** X7. [get_system_state] creates the singleton at most once: on a
    store without it, it inserts and returns a "disarmed" state stamped
    with the time read; on a store that has it, it returns the stored
    one and changes nothing.  In both cases a second call returns the
    same state and leaves the world as the first call left it. *)
Theorem get_system_state_lazy_once (w : World) :
  exists s w1,
    get_system_state E w = (Return s, w1) /\
    get_system_state E w1 = (Return s, w1) /\
    match find_one is_system_state (system_state (db w)) with
    | None =>
        s = mkSystemState "system_state" disarmed (utcnow E (clock_reads w)) /\
        system_state (db w1) = system_state (db w) ++ [s] /\
        events (db w1) = events (db w)
    | Some s0 => s = s0 /\ w1 = w
    end.
Proof.
  rewrite get_system_state_run.
  destruct (find_one is_system_state (system_state (db w))) as [s0|] eqn:Hs.
  - exists s0, w. split; [reflexivity|]. split; [|auto].
    now rewrite get_system_state_run, Hs.
  - eexists _, _. split; [reflexivity|]. split; [|repeat split].
    rewrite get_system_state_run. cbn [db system_state].
    rewrite find_one_app_skip by now apply find_one_none_existsb.
    reflexivity.
Qed.

(** X8. What [update_state] returns is what the store then holds:
    [get_system_state] right after it returns the same state, with the
    requested mode, and changes nothing; and sending the same update
    again appends no further event. *)
Theorem update_state_then_get (update : SystemStateUpdate) (w : World) :
  exists st w1,
    update_state E update w = (Return st, w1) /\
    state_mode st = ssu_mode update /\
    get_system_state E w1 = (Return st, w1) /\
    current_mode w1 = ssu_mode update /\
    events (db (snd (update_state E update w1))) = events (db w1) /\
    current_mode (snd (update_state E update w1)) = ssu_mode update.
Proof.
  destruct (update_state_stored update w) as (st & w1 & Hrun & Hf & Hm & _).
  exists st, w1. split; [exact Hrun|]. split; [exact Hm|].
  split; [now rewrite get_system_state_run, Hf|].
  split; [unfold current_mode; now rewrite Hf|].
  split; [exact (proj1 (update_state_same_mode update w1 st Hf Hm))|].
  destruct (update_state_stored update w1) as (st2 & w2 & Hrun2 & Hf2 & Hm2 & _).
  rewrite Hrun2. cbn [snd]. unfold current_mode. now rewrite Hf2.
Qed.

Lemma update_settings_stored (update : SettingsUpdate) (w : World) :
  let now := utcnow E (clock_reads w) in
  let old := match find_one is_settings (settings (db w)) with
             | Some st => st
             | None => mkSettingsDoc "settings" None None None
             end in
  let doc := mkSettingsDoc
               (sd_id old)
               (patched_opt (stu_sms_enabled update) (sd_sms_enabled old))
               (patched_opt (stu_alert_phone_number update)
                            (sd_alert_phone_number old))
               (Some now) in
  exists w',
    update_settings E update w = (Return (Settings_of_doc doc now), w') /\
    find_one is_settings (settings (db w')) = Some doc /\
    twilio_requests w' = twilio_requests w /\
    events (db w') = events (db w).
Proof.
  intros now old doc.
  unfold update_settings, bind, datetime_now, modify, with_settings, get_world.
  cbn [fst snd db settings clock_reads]. fold now.
  destruct (find_one is_settings (settings (db w))) as [st|] eqn:Hst.
  - rewrite (find_one_existsb _ _ _ Hst).
    destruct (find_one_split _ _ _ Hst) as (l1 & l2 & Hl & Hx & Hl1).
    rewrite (find_one_update_first _ _ _ _ Hst)
      by (rewrite set_settings_update_data; exact Hx).
    rewrite set_settings_update_data. fold old doc.
    cbn [getitem deref ret bind fst snd sd_updated_at doc]. unfold ret.
    eexists. split; [reflexivity|]. cbn [db settings events twilio_requests].
    rewrite (find_one_update_first _ _ _ _ Hst)
      by (rewrite set_settings_update_data; exact Hx).
    rewrite set_settings_update_data. fold old doc. auto.
  - rewrite (find_one_none_existsb _ _ Hst).
    rewrite find_one_app_skip by now apply find_one_none_existsb.
    rewrite set_settings_update_data. fold old doc.
    change (find_one is_settings [doc]) with (Some doc).
    cbn [getitem deref ret bind fst snd sd_updated_at doc]. unfold ret.
    eexists. split; [reflexivity|]. cbn [db settings events twilio_requests].
    rewrite find_one_app_skip by now apply find_one_none_existsb.
    auto.
Qed.

(** X9. What [update_settings] returns is what [get_settings] then
    reads: the same settings, with the world unchanged by the read.  In
    them a supplied [sms_enabled] or [alert_phone_number] replaces the
    stored value, a null one keeps it (the model's default when nothing
    was stored), and [updated_at] is the time of the update. *)
Theorem update_settings_then_get (update : SettingsUpdate) (w : World) :
  let old := match find_one is_settings (settings (db w)) with
             | Some d => d
             | None => mkSettingsDoc "settings" None None None
             end in
  exists st w1,
    update_settings E update w = (Return st, w1) /\
    get_settings E w1 = (Return st, w1) /\
    settings_updated_at st = utcnow E (clock_reads w) /\
    sms_enabled st
    = patched (stu_sms_enabled update) (truthy_bool (sd_sms_enabled old)) /\
    alert_phone_number st
    = patched_opt (stu_alert_phone_number update) (sd_alert_phone_number old).
Proof.
  intros old.
  destruct (update_settings_stored update w) as (w1 & Hrun & Hf & _).
  eexists _, w1. split; [exact Hrun|]. split.
  - unfold get_settings, bind, get_world. rewrite Hf. reflexivity.
  - fold old. cbn. split; [reflexivity|].
    destruct (stu_sms_enabled update), (sd_sms_enabled old); auto.
Qed.

(** X10. Settings take effect at once.  After an update that enables
    SMS and sets a non-empty alert number, and with the Twilio client
    and sender configured, [send_sms_alert] calls the provider exactly
    once, with the message, the configured sender and that number, and
    answers true exactly when the provider accepts. *)
Theorem enabled_settings_dispatch (update : SettingsUpdate) (phone msg : string)
  (w : World) :
  stu_sms_enabled update = Some true ->
  stu_alert_phone_number update = Some phone ->
  phone <> "" ->
  twilio_unconfigured E = false ->
  let w1 := snd (update_settings E update w) in
  let req := mkSmsRequest msg (twilio_phone_number E) phone in
  twilio_requests (snd (send_sms_alert E msg w1)) = twilio_requests w ++ [req] /\
  fst (send_sms_alert E msg w1)
  = Return (match messages_create E (length (twilio_requests w)) req with
            | None => true
            | Some _ => false
            end).
Proof.
  intros Hen Hph Hne Htw w1 req. subst w1.
  destruct (update_settings_stored update w) as (w1 & Hrun & Hf & Hreq & _).
  rewrite Hrun. cbn [snd]. rewrite Hen, Hph in Hf. cbn [patched_opt] in Hf.
  assert (Hg : sms_disabled w1 || no_alert_phone_number w1
               || twilio_unconfigured E = false).
  { unfold sms_disabled, no_alert_phone_number. rewrite Hf, Htw. cbn.
    destruct (String.eqb_spec phone ""); [contradiction | reflexivity]. }
  destruct (send_sms_alert_dispatched E msg w1 Hg) as (st & to & Hst & Hto & ->).
  rewrite Hf in Hst. injection Hst as <-. cbn in Hto. injection Hto as <-.
  rewrite Hreq. fold req.
  destruct (messages_create E (length (twilio_requests w)) req); cbn; auto.
Qed.

(** X11. After an update that sets [sms_enabled] to false,
    [send_sms_alert] answers false and calls no provider, whatever
    number is stored and however Twilio is configured. *)
Theorem disabled_settings_refuse (update : SettingsUpdate) (msg : string)
  (w : World) :
  stu_sms_enabled update = Some false ->
  let w1 := snd (update_settings E update w) in
  fst (send_sms_alert E msg w1) = Return false /\
  twilio_requests (snd (send_sms_alert E msg w1)) = twilio_requests w /\
  events (db (snd (send_sms_alert E msg w1))) = events (db w).
Proof.
  intros Hen w1. subst w1.
  destruct (update_settings_stored update w) as (w1 & Hrun & Hf & Hreq & Hev).
  rewrite Hrun. cbn [snd]. rewrite Hen in Hf. cbn [patched_opt] in Hf.
  assert (Hg : sms_disabled w1 || no_alert_phone_number w1
               || twilio_unconfigured E = true).
  { unfold sms_disabled. rewrite Hf. reflexivity. }
  destruct (send_sms_alert_refused E msg w1 Hg) as [line ->].
  cbn [fst snd db twilio_requests]. auto.
Qed.
End Singletons.

Section SensorLifecycle.
Variable E : Environ.

Lemma trigger_message_label (sensor : Sensor) (w : World) :
  trigger_message sensor w =
  sensor_label (sensor_type sensor) +++ " - " +++ sensor_name sensor +++ " in "
  +++ match find_one (zone_has_id (sensor_zone_id sensor)) (zones (db w)) with
      | Some z => zone_name z
      | None => "Unknown Zone"
      end.
Proof. unfold trigger_message. destruct (sensor_type sensor); reflexivity. Qed.

(** The world and the answer of [trigger_sensor] on a sensor that is
    found. *)
Lemma trigger_sensor_world (trigger : SensorTrigger) (w : World)
  (sensor : Sensor) :
  find_one (sensor_has_id (trigger_sensor_id trigger)) (sensors (db w))
  = Some sensor ->
  exists resp w',
    trigger_sensor E trigger w = (Return resp, w') /\
    sensors (db w') =
      update_first (sensor_has_id (trigger_sensor_id trigger))
        (set_sensor [s_status triggered;
                     s_last_triggered (utcnow E (clock_reads w))])
        (sensors (db w)) /\
    zones (db w') = zones (db w) /\
    settings (db w') = settings (db w) /\
    current_mode w' = current_mode w /\
    message resp =
      match current_mode w with
      | armed => "INTRUSION: "
      | monitoring => "Movement logged: "
      | disarmed => "Logged: "
      end +++ trigger_message sensor w /\
    exists ev rest,
      events (db w') = events (db w) ++ ev :: rest /\
      length rest <= 1 /\
      event_message ev =
        match current_mode w with
        | armed => "🚨 INTRUSION DETECTED: "
        | monitoring => "Movement detected: "
        | disarmed => "Sensor triggered (system disarmed): "
        end +++ trigger_message sensor w.
Proof.
  intros Hs.
  set (w1 := mkWorld
               (mkDb (zones (db w))
                  (update_first (sensor_has_id (trigger_sensor_id trigger))
                     (set_sensor [s_status triggered;
                                  s_last_triggered (utcnow E (clock_reads w))])
                     (sensors (db w)))
                  (events (db w)) (system_state (db w)) (settings (db w)))
               (uuid_draws w) (S (clock_reads w)) (twilio_requests w)
               (log_records w)).
  destruct (get_system_state_mode E w1)
    as (state & w2 & Hrun & Hmode & Hz & Hse & Hev & Hst & _ & _ & _ & Hfind).
  change (current_mode w1) with (current_mode w) in Hmode.
  assert (Hcm : forall w3, system_state (db w3) = system_state (db w2) ->
                           current_mode w3 = current_mode w).
  { intros w3 H3. unfold current_mode at 1. now rewrite H3, Hfind. }
  unfold trigger_sensor.
  unfold bind at 1. unfold get_world at 1. rewrite Hs.
  unfold bind at 1. unfold datetime_now at 1.
  unfold bind at 1. unfold modify at 1, with_sensors at 1.
  cbn [db zones sensors events system_state settings uuid_draws clock_reads
       twilio_requests log_records].
  fold w1. unfold bind at 1. rewrite Hrun.
  fold (trigger_message sensor w). rewrite <- Hmode.
  cbn [db zones sensors] in *.
  destruct (state_mode state); unfold bind; rewrite log_event_run.
  - match goal with
    | |- context [send_sms_alert E ?m ?w3] =>
        destruct (send_sms_alert_footprint E m w3)
          as (b & w4 & line & Hsms & _ & Hz4 & Hs4 & Hss4 & Hst4 & _ & Hev4);
        rewrite Hsms
    end.
    cbn [db zones sensors events system_state settings] in *.
    eexists _, w4. split; [reflexivity|].
    rewrite Hs4, Hz4, Hst4, Hse, Hz, Hst.
    do 3 (split; [auto|]).
    split; [rewrite Hcm by (assumption || reflexivity); congruence|].
    split; [reflexivity|].
    rewrite Hev in Hev4.
    destruct Hev4 as [Hev4 | (ev' & Hev4 & _)]; rewrite Hev4.
    + eexists _, []. repeat split. cbn. lia.
    + eexists _, [ev']. rewrite <- app_assoc. repeat split. cbn. lia.
  - eexists _, _. split; [reflexivity|].
    cbn [db zones sensors events system_state settings message].
    rewrite Hse, Hz, Hst, Hev. do 3 (split; [auto|]).
    split; [rewrite Hcm by (assumption || reflexivity); congruence|].
    split; [reflexivity|].
    eexists _, []. repeat split. cbn. lia.
  - eexists _, _. split; [reflexivity|].
    cbn [db zones sensors events system_state settings message].
    rewrite Hse, Hz, Hst, Hev. do 3 (split; [auto|]).
    split; [rewrite Hcm by (assumption || reflexivity); congruence|].
    split; [reflexivity|].
    eexists _, []. repeat split. cbn. lia.
Qed.

Lemma reset_sensor_run (sensor_id : string) (w : World) (sensor : Sensor) :
  find_one (sensor_has_id sensor_id) (sensors (db w)) = Some sensor ->
  reset_sensor sensor_id w =
  (Return "Sensor reset",
   with_sensors (update_first (sensor_has_id sensor_id)
                              (set_sensor [s_status active])) w).
Proof.
  intros Hs.
  unfold reset_sensor, bind, get_world, modify, matched_count.
  now rewrite (find_one_existsb _ _ _ Hs).
Qed.
End SensorLifecycle.

Section SensorProperties.
Variable E : Environ.

Lemma update_sensor_run (sensor_id : string) (update : SensorUpdate) (w : World)
  (sensor : Sensor) :
  is_empty (sensor_update_data update) = false ->
  encodable (sensor_update_data update) = true ->
  find_one (sensor_has_id sensor_id) (sensors (db w)) = Some sensor ->
  let sensor' := set_sensor (sensor_update_data update) sensor in
  let w' := with_sensors (update_first (sensor_has_id sensor_id)
                            (set_sensor (sensor_update_data update))) w in
  update_sensor sensor_id update w = (Return sensor', w') /\
  find_one (sensor_has_id sensor_id) (sensors (db w')) = Some sensor'.
Proof.
  intros Hne Henc Hs sensor' w'.
  destruct (find_one_split _ _ _ Hs) as (l1 & l2 & Hl & Hx & Hl1).
  assert (Hx' : sensor_has_id sensor_id sensor' = true).
  { unfold sensor'. rewrite set_sensor_update_data. exact Hx. }
  assert (Hf : find_one (sensor_has_id sensor_id) (sensors (db w')) = Some sensor').
  { unfold w', with_sensors. cbn [db sensors].
    apply (find_one_update_first _ (set_sensor (sensor_update_data update))
             _ _ Hs).
    exact Hx'. }
  split; [|exact Hf].
  unfold update_sensor. rewrite Hne, Henc.
  unfold bind, ret, get_world, modify, matched_count.
  rewrite (find_one_existsb _ _ _ Hs). cbn [Nat.eqb]. fold w'.
  rewrite Hf. reflexivity.
Qed.

(** X12. A trigger followed by a reset brings the sensor back to
    "active" but keeps the time of the trigger in [last_triggered]; the
    reset logs nothing, and no sensor document is added or lost on the
    way. *)
Theorem trigger_then_reset (sensor_id : string) (w : World) (sensor : Sensor) :
  find_one (sensor_has_id sensor_id) (sensors (db w)) = Some sensor ->
  let w1 := snd (trigger_sensor E (mkSensorTrigger sensor_id) w) in
  let w2 := snd (reset_sensor sensor_id w1) in
  fst (reset_sensor sensor_id w1) = Return "Sensor reset" /\
  find_one (sensor_has_id sensor_id) (sensors (db w2))
  = Some (mkSensor (sensor_id_ sensor) (sensor_name sensor) (sensor_type sensor)
                   (sensor_zone_id sensor) active (sensor_battery_level sensor)
                   (Some (utcnow E (clock_reads w))) (sensor_created_at sensor)) /\
  events (db w2) = events (db w1) /\
  length (sensors (db w2)) = length (sensors (db w)).
Proof.
  intros Hs w1 w2. subst w2 w1.
  destruct (trigger_sensor_world E (mkSensorTrigger sensor_id) w sensor Hs)
    as (resp & w1 & Hrun & Hse & _).
  cbn [trigger_sensor_id] in Hse. rewrite Hrun. cbn [snd].
  destruct (find_one_split _ _ _ Hs) as (l1 & l2 & Hl & Hx & Hl1).
  set (s1 := set_sensor [s_status triggered;
                         s_last_triggered (utcnow E (clock_reads w))] sensor).
  assert (Hx1 : sensor_has_id sensor_id s1 = true) by exact Hx.
  assert (Hs1 : find_one (sensor_has_id sensor_id) (sensors (db w1)) = Some s1).
  { rewrite Hse. now apply find_one_update_first. }
  rewrite (reset_sensor_run sensor_id w1 s1 Hs1).
  unfold with_sensors. cbn [fst snd db sensors events].
  split; [reflexivity|]. split; [|split; [reflexivity|]].
  - rewrite (find_one_update_first _ (set_sensor [s_status active]) _ _ Hs1)
      by exact Hx.
    reflexivity.
  - rewrite Hse, Hl.
    rewrite (update_first_split _ _ l1 l2 sensor Hl1 Hx).
    rewrite (update_first_split _ _ l1 l2 _ Hl1 Hx1).
    rewrite !length_app. reflexivity.
Qed.

(** X13. The text of a trigger.  For a sensor that is found, the answer
    and the logged event name the kind of sensor ("Motion detected",
    "Door opened", "Window opened"), the sensor, and the zone whose
    identifier the sensor holds, or "Unknown Zone" when no such zone is
    stored; the prefix depends on the mode only. *)
Theorem trigger_sensor_messages (trigger : SensorTrigger) (w : World)
  (sensor : Sensor) :
  find_one (sensor_has_id (trigger_sensor_id trigger)) (sensors (db w))
  = Some sensor ->
  let text :=
    sensor_label (sensor_type sensor) +++ " - " +++ sensor_name sensor +++ " in "
    +++ match find_one (zone_has_id (sensor_zone_id sensor)) (zones (db w)) with
        | Some z => zone_name z
        | None => "Unknown Zone"
        end in
  exists resp ev rest,
    fst (trigger_sensor E trigger w) = Return resp /\
    events (db (snd (trigger_sensor E trigger w))) = events (db w) ++ ev :: rest /\
    match current_mode w with
    | armed =>
        message resp = "INTRUSION: " +++ text /\
        event_message ev = "🚨 INTRUSION DETECTED: " +++ text
    | monitoring =>
        message resp = "Movement logged: " +++ text /\
        event_message ev = "Movement detected: " +++ text
    | disarmed =>
        message resp = "Logged: " +++ text /\
        event_message ev = "Sensor triggered (system disarmed): " +++ text
    end.
Proof.
  intros Hs text.
  destruct (trigger_sensor_world E trigger w sensor Hs)
    as (resp & w' & Hrun & _ & _ & _ & _ & Hmsg & ev & rest & Hev & _ & Hem).
  rewrite trigger_message_label in Hmsg, Hem. fold text in Hmsg, Hem.
  exists resp, ev, rest. rewrite Hrun. cbn [fst snd].
  split; [reflexivity|]. split; [exact Hev|].
  destruct (current_mode w); auto.
Qed.

(** X14. [update_sensor] does not check the zone it is given: a sensor
    can be moved to an identifier under which no zone is stored.  The
    sensor still triggers afterwards, and the answer places it in
    "Unknown Zone". *)
Theorem moved_sensor_triggers_in_unknown_zone (sensor_id z : string)
  (w : World) (sensor : Sensor) :
  find_one (sensor_has_id sensor_id) (sensors (db w)) = Some sensor ->
  find_one (zone_has_id z) (zones (db w)) = None ->
  let update := mkSensorUpdate None (Some z) None None in
  let w1 := snd (update_sensor sensor_id update w) in
  (exists sensor',
      fst (update_sensor sensor_id update w) = Return sensor' /\
      sensor_zone_id sensor' = z /\
      find_one (sensor_has_id sensor_id) (sensors (db w1)) = Some sensor') /\
  exists resp,
    fst (trigger_sensor E (mkSensorTrigger sensor_id) w1) = Return resp /\
    message resp =
      match current_mode w with
      | armed => "INTRUSION: "
      | monitoring => "Movement logged: "
      | disarmed => "Logged: "
      end +++ sensor_label (sensor_type sensor) +++ " - "
      +++ sensor_name sensor +++ " in Unknown Zone".
Proof.
  intros Hs Hz update w1. subst w1.
  destruct (update_sensor_run sensor_id update w sensor eq_refl eq_refl Hs)
    as [Hrun Hf].
  rewrite Hrun. cbn [fst snd]. rewrite set_sensor_update_data in *.
  cbn [update su_name su_zone_id su_status su_battery_level patched] in *.
  split.
  - eexists. split; [reflexivity|]. split; [reflexivity|]. exact Hf.
  - destruct (trigger_sensor_world E (mkSensorTrigger sensor_id) _ _ Hf)
      as (resp & w' & Hrun' & _ & _ & _ & _ & Hmsg & _).
    exists resp. rewrite Hrun'. split; [reflexivity|].
    rewrite Hmsg, trigger_message_label.
    cbn [sensor_type sensor_name sensor_zone_id with_sensors db zones].
    rewrite Hz. reflexivity.
Qed.

(** X15. The listings are read-only and capped at one hundred: each
    returns the first documents of its collection in stored order, one
    hundred at most; the listing by zone returns only sensors of that
    zone, the first hundred of them. *)
Theorem listings_capped (zone_id : string) (w : World) :
  (exists l rest,
      get_zones w = (Return l, w) /\
      zones (db w) = l ++ rest /\
      length l = Nat.min 100 (length (zones (db w)))) /\
  (exists l rest,
      get_sensors w = (Return l, w) /\
      sensors (db w) = l ++ rest /\
      length l = Nat.min 100 (length (sensors (db w)))) /\
  (exists l rest,
      get_sensors_by_zone zone_id w = (Return l, w) /\
      filter (sensor_in_zone zone_id) (sensors (db w)) = l ++ rest /\
      length l
      = Nat.min 100 (count_documents (sensor_in_zone zone_id) (sensors (db w))) /\
      Forall (fun s => sensor_zone_id s = zone_id /\ In s (sensors (db w))) l).
Proof.
  split; [|split].
  - exists (firstn 100 (zones (db w))), (skipn 100 (zones (db w))).
    split; [reflexivity|]. split; [now rewrite firstn_skipn|].
    apply length_firstn.
  - exists (firstn 100 (sensors (db w))), (skipn 100 (sensors (db w))).
    split; [reflexivity|]. split; [now rewrite firstn_skipn|].
    apply length_firstn.
  - set (m := filter (sensor_in_zone zone_id) (sensors (db w))).
    exists (firstn 100 m), (skipn 100 m).
    split; [reflexivity|]. split; [now rewrite firstn_skipn|].
    split; [apply length_firstn|].
    apply Forall_forall. intros s Hin.
    assert (Hm : In s m).
    { rewrite <- (firstn_skipn 100 m). apply in_or_app. now left. }
    apply filter_In in Hm as [Hin' Hp].
    split; [now apply String.eqb_eq in Hp | exact Hin'].
Qed.
End SensorProperties.

Section Dashboard.
Variable E : Environ.

Lemma count_documents_mid {A} (q : A -> bool) (l1 l2 : list A) (x : A) :
  count_documents q (l1 ++ x :: l2)
  = count_documents q l1 + (if q x then 1 else 0) + count_documents q l2.
Proof.
  unfold count_documents. rewrite filter_app, length_app. cbn.
  destruct (q x); cbn; lia.
Qed.

Lemma count_documents_le {A} (q : A -> bool) (l : list A) :
  count_documents q l <= length l.
Proof. unfold count_documents. apply filter_length_le. Qed.

Lemma get_dashboard_stats_run (w : World) :
  exists w',
    get_dashboard_stats E w =
    (Return (mkDashboardStats
               (current_mode w) (length (zones (db w)))
               (length (sensors (db w)))
               (count_documents is_triggered (sensors (db w)))
               (firstn 5 (sort_timestamp_desc E (events (db w))))),
     w') /\
    zones (db w') = zones (db w) /\
    sensors (db w') = sensors (db w) /\
    events (db w') = events (db w) /\
    settings (db w') = settings (db w) /\
    twilio_requests w' = twilio_requests w.
Proof.
  destruct (get_system_state_mode E w)
    as (s & w' & Hrun & Hm & Hz & Hse & Hev & Hst & _ & Htw & _ & _).
  exists w'. unfold get_dashboard_stats, bind. rewrite Hrun.
  unfold get_world, to_list. cbn [Z.ltb Z.compare ret Z.to_nat Pos.to_nat
                                  Pos.iter_op Nat.add].
  rewrite Hm, Hz, Hse, Hev. repeat split; auto.
Qed.

(** X16. The dashboard follows a trigger: after triggering a sensor
    that is found, the count of triggered sensors is one higher if that
    sensor was not already "triggered" and the same otherwise, while the
    counts of zones and of sensors and the reported mode stay as they
    were; the triggered count never exceeds the sensor count, and at
    most five recent events are listed. *)
Theorem dashboard_after_trigger (trigger : SensorTrigger) (w : World)
  (sensor : Sensor) :
  find_one (sensor_has_id (trigger_sensor_id trigger)) (sensors (db w))
  = Some sensor ->
  let w' := snd (trigger_sensor E trigger w) in
  exists d d',
    fst (get_dashboard_stats E w) = Return d /\
    fst (get_dashboard_stats E w') = Return d' /\
    triggered_count d'
    = triggered_count d + (if is_triggered sensor then 0 else 1) /\
    sensors_count d' = sensors_count d /\
    zones_count d' = zones_count d /\
    system_mode d' = system_mode d /\
    system_mode d = current_mode w /\
    triggered_count d' <= sensors_count d' /\
    length (recent_events d') <= 5.
Proof.
  intros Hs w'. subst w'.
  destruct (trigger_sensor_world E trigger w sensor Hs)
    as (resp & w' & Hrun & Hse & Hz & _ & Hcm & _).
  rewrite Hrun. cbn [snd].
  destruct (get_dashboard_stats_run w) as (u & -> & _).
  destruct (get_dashboard_stats_run w') as (u' & -> & _).
  eexists _, _. split; [reflexivity|]. split; [reflexivity|].
  cbn [fst triggered_count sensors_count zones_count system_mode recent_events].
  destruct (find_one_split _ _ _ Hs) as (l1 & l2 & Hl & Hx & Hl1).
  rewrite Hse, Hz, Hcm, Hl.
  rewrite (update_first_split _ _ l1 l2 sensor Hl1 Hx).
  rewrite !count_documents_mid, !length_app. cbn [length].
  split.
  { change (is_triggered (set_sensor _ sensor)) with true.
    destruct (is_triggered sensor); lia. }
  do 4 (split; [reflexivity|]).
  split.
  - pose proof (count_documents_le is_triggered l1).
    pose proof (count_documents_le is_triggered l2).
    destruct (is_triggered _); lia.
  - rewrite length_firstn. lia.
Qed.

(** X17. The dashboard follows a reset: after resetting a sensor that
    is found, the count of triggered sensors is one lower if the sensor
    was "triggered" and the same otherwise; the sensor count does not
    change. *)
Theorem dashboard_after_reset (sensor_id : string) (w : World)
  (sensor : Sensor) :
  find_one (sensor_has_id sensor_id) (sensors (db w)) = Some sensor ->
  let w' := snd (reset_sensor sensor_id w) in
  exists d d',
    fst (get_dashboard_stats E w) = Return d /\
    fst (get_dashboard_stats E w') = Return d' /\
    triggered_count d' + (if is_triggered sensor then 1 else 0)
    = triggered_count d /\
    sensors_count d' = sensors_count d /\
    system_mode d' = system_mode d.
Proof.
  intros Hs w'. subst w'.
  rewrite (reset_sensor_run sensor_id w sensor Hs). cbn [snd].
  destruct (get_dashboard_stats_run w) as (u & -> & _).
  destruct (get_dashboard_stats_run
              (with_sensors (update_first (sensor_has_id sensor_id)
                               (set_sensor [s_status active])) w))
    as (u' & -> & _).
  eexists _, _. split; [reflexivity|]. split; [reflexivity|].
  cbn [fst triggered_count sensors_count system_mode with_sensors db sensors].
  destruct (find_one_split _ _ _ Hs) as (l1 & l2 & Hl & Hx & Hl1).
  rewrite Hl, (update_first_split _ _ l1 l2 sensor Hl1 Hx).
  rewrite !count_documents_mid, !length_app. cbn [length].
  change (is_triggered (set_sensor _ sensor)) with false.
  repeat split. destruct (is_triggered sensor); lia.
Qed.
End Dashboard.

(** Case analysis of a handler that has been unfolded: one step takes
    the next test of the handler, or replaces a call of
    [send_sms_alert] by its footprint. *)
Ltac handler_step E :=
  cbn [fst snd db zones sensors events system_state settings uuid_draws
       clock_reads twilio_requests log_records negb Nat.eqb ret];
  match goal with
  | |- context [send_sms_alert E ?m ?w] =>
      let b := fresh "b" in
      let w' := fresh "w" in
      let line := fresh "line" in
      let Hsms := fresh "Hsms" in
      let Hlog := fresh "Hlog" in
      let Hz := fresh "Hz" in
      let Hse := fresh "Hse" in
      let Hss := fresh "Hss" in
      let Hst := fresh "Hst" in
      let Htw := fresh "Htw" in
      let Hev := fresh "Hev" in
      destruct (send_sms_alert_footprint E m w)
        as (b & w' & line & Hsms & Hlog & Hz & Hse & Hss & Hst & Htw & Hev);
      rewrite Hsms;
      cbn [fst snd db zones sensors events system_state settings uuid_draws
           clock_reads twilio_requests log_records] in *
  | |- context [find_one ?p ?l] => destruct (find_one p l) eqn:?
  | |- context [existsb ?p ?l] => destruct (existsb p l) eqn:?
  | |- context [is_empty ?l] => destruct (is_empty l) eqn:?
  | |- context [encodable ?l] => destruct (encodable l) eqn:?
  | |- context [int64 ?x] => destruct (int64 x) eqn:?
  | |- context [Mode_eqb ?a ?b] => destruct (Mode_eqb a b)
  | |- context [match state_mode ?s with _ => _ end] => destruct (state_mode s)
  | |- context [match ssu_mode ?u with _ => _ end] => destruct (ssu_mode u)
  | |- context [sc_battery_level ?x] => destruct (sc_battery_level x)
  | |- context [sd_updated_at ?x] => destruct (sd_updated_at x) eqn:?
  | |- context [Z.ltb ?a ?b] => destruct (Z.ltb a b)
  end.

Ltac handler_cases E :=
  repeat handler_step E;
  cbn [fst snd db zones sensors events system_state settings uuid_draws
       clock_reads twilio_requests log_records negb Nat.eqb ret].

Ltac unfold_handlers :=
  unfold root, get_state, update_state, get_zones, create_zone, update_zone,
    delete_zone, get_sensors, get_sensors_by_zone, create_sensor,
    update_sensor, delete_sensor, trigger_sensor, reset_sensor, get_events,
    clear_events, get_settings, update_settings, get_dashboard_stats,
    to_list, get_system_state, log_event, matched_count,
    with_zones, with_sensors, with_events, with_system_state, with_settings;
  run_monad.

Section Invariants.
Variable E : Environ.

(** X18. The event log is append-only: every request except the bulk
    clear leaves the events already logged in place and in order, and
    adds at most two (a trigger while armed can add an "intrusion" and
    an "sms_sent"). *)
Theorem event_log_append_only (r : Request) (w : World) :
  is_DELETE_events r = false ->
  exists new,
    events (db (snd (handle E r w))) = events (db w) ++ new /\
    length new <= 2.
Proof.
  intros Hr.
  destruct r; try discriminate Hr; cbn [handle]; unfold_handlers;
    handler_cases E;
    repeat match goal with
    | H : events (db _) = _ |- _ => rewrite H; clear H
    | H : events (db _) = _ \/ _ |- _ =>
        destruct H as [H | (? & H & _)]; rewrite H; clear H
    end;
    rewrite <- ?app_assoc;
    first [ exists []; split; [symmetry; apply app_nil_r | cbn; lia]
          | eexists; split; [reflexivity | cbn; lia] ].
Qed.

(** How each request can change the two singleton collections. *)
Lemma handle_settings_frame (r : Request) (w : World) :
  match r with
  | GET_settings | PUT_settings _ => True
  | _ => settings (db (snd (handle E r w))) = settings (db w)
  end.
Proof.
  destruct r; try exact I; cbn [handle]; unfold_handlers;
    handler_cases E; congruence.
Qed.

Lemma handle_system_state_frame (r : Request) (w : World) :
  match r with
  | PUT_system_state _ => True
  | _ =>
      system_state (db (snd (handle E r w))) = system_state (db w) \/
      (find_one is_system_state (system_state (db w)) = None /\
       exists t,
         system_state (db (snd (handle E r w)))
         = system_state (db w) ++ [mkSystemState "system_state" disarmed t])
  end.
Proof.
  destruct r; try exact I; cbn [handle]; unfold_handlers;
    handler_cases E;
    first [ left; congruence
          | right; split; [reflexivity|]; eexists;
            repeat match goal with
            | H : system_state (db _) = _ |- _ => rewrite H; clear H
            end; reflexivity ].
Qed.

Lemma update_state_collection (update : SystemStateUpdate) (w : World) :
  exists t,
    system_state (db (snd (update_state E update w)))
    = match find_one is_system_state (system_state (db w)) with
      | Some _ =>
          update_first is_system_state
            (fun _ => mkSystemState "system_state" (ssu_mode update) t)
            (system_state (db w))
      | None =>
          system_state (db w)
          ++ [mkSystemState "system_state" (ssu_mode update) t]
      end /\
    settings (db (snd (update_state E update w))) = settings (db w).
Proof.
  unfold update_state. unfold bind. rewrite get_system_state_run.
  destruct (find_one is_system_state (system_state (db w))) as [s|] eqn:Hs.
  - pose proof (find_one_existsb _ _ _ Hs) as Hex.
    unfold datetime_now, modify, with_system_state.
    cbn [db zones sensors events system_state settings uuid_draws clock_reads
         twilio_requests log_records state_mode].
    rewrite Hex.
    destruct (state_mode s), (ssu_mode update); cbn [Mode_eqb negb];
      try rewrite log_event_run; cbn [ret fst snd db system_state settings];
      eexists; split; reflexivity.
  - pose proof (find_one_none_existsb _ _ Hs) as Hex.
    unfold datetime_now, modify, with_system_state.
    cbn [db zones sensors events system_state settings uuid_draws clock_reads
         twilio_requests log_records state_mode].
    rewrite existsb_app, Hex.
    change (existsb is_system_state [?d]) with true. cbn [orb].
    rewrite update_first_split by (exact Hex || reflexivity).
    destruct (ssu_mode update); cbn [Mode_eqb negb];
      try rewrite log_event_run; cbn [ret fst snd db system_state settings];
      eexists; split; reflexivity.
Qed.

Lemma get_settings_collection (w : World) :
  system_state (db (snd (get_settings E w))) = system_state (db w) /\
  settings (db (snd (get_settings E w)))
  = match find_one is_settings (settings (db w)) with
    | Some _ => settings (db w)
    | None => settings (db w) ++ [default_settings_doc (utcnow E (clock_reads w))]
    end.
Proof.
  unfold get_settings, bind, get_world.
  destruct (find_one is_settings (settings (db w))) as [d|].
  - unfold getitem. destruct (sd_updated_at d); cbn; auto.
  - cbn. auto.
Qed.

Lemma update_settings_collection (update : SettingsUpdate) (w : World) :
  let data := settings_update_data update
              ++ [st_updated_at (utcnow E (clock_reads w))] in
  system_state (db (snd (update_settings E update w))) = system_state (db w) /\
  settings (db (snd (update_settings E update w)))
  = match find_one is_settings (settings (db w)) with
    | Some _ => update_first is_settings (set_settings data) (settings (db w))
    | None =>
        settings (db w)
        ++ [set_settings data (mkSettingsDoc "settings" None None None)]
    end.
Proof.
  intros data.
  unfold update_settings, bind, datetime_now, modify, with_settings, get_world.
  cbn [fst snd db settings system_state clock_reads]. fold data.
  destruct (find_one is_settings (settings (db w))) as [d|] eqn:Hd.
  - rewrite (find_one_existsb _ _ _ Hd).
    match goal with
    | |- context [deref ?e ?v ?w0] => destruct (deref e v w0) as [[x|x] w1] eqn:Hq
    end; unfold deref in Hq;
      match type of Hq with
      | context [find_one ?p ?l] => destruct (find_one p l)
      end; cbn in Hq; inversion Hq; subst; cbn.
    + unfold getitem. destruct (sd_updated_at x); cbn; auto.
    + auto.
  - rewrite (find_one_none_existsb _ _ Hd).
    match goal with
    | |- context [deref ?e ?v ?w0] => destruct (deref e v w0) as [[x|x] w1] eqn:Hq
    end; unfold deref in Hq;
      match type of Hq with
      | context [find_one ?p ?l] => destruct (find_one p l)
      end; cbn in Hq; inversion Hq; subst; cbn.
    + unfold getitem. destruct (sd_updated_at x); cbn; auto.
    + auto.
Qed.

Lemma handle_singletons (r : Request) (w : World) :
  singletons w -> singletons (snd (handle E r w)).
Proof.
  intros [Hs Ht]. split.
  - assert (Hone : forall s, state_id s = "system_state" ->
                             find_one is_system_state [s] = Some s).
    { intros s Hid. unfold find_one, is_system_state. cbn. now rewrite Hid. }
    pose proof (handle_system_state_frame r w) as Hf.
    destruct r;
      try (destruct Hf as [-> | (Hnone & t & ->)];
           [ exact Hs
           | destruct Hs as [-> | (s & Hl & Hid)];
             [ right; eexists; split; reflexivity
             | rewrite Hl, (Hone s Hid) in Hnone; discriminate ] ]).
    cbn [handle]. unfold respond, bind.
    destruct (update_state_collection update w) as (t & Hc & _).
    destruct (update_state E update w) as [[st|e] w']; cbn [snd ret] in *;
      rewrite Hc;
      (destruct Hs as [-> | (s & -> & Hid)];
       [ right; eexists; split; reflexivity
       | rewrite (Hone s Hid); unfold is_system_state; cbn; rewrite Hid; cbn;
         right; eexists; split; reflexivity ]).
  - assert (Hone : forall d, sd_id d = "settings" ->
                             find_one is_settings [d] = Some d).
    { intros d Hid. unfold find_one, is_settings. cbn. now rewrite Hid. }
    pose proof (handle_settings_frame r w) as Hf.
    destruct r; try (rewrite Hf; exact Ht); cbn [handle]; unfold respond, bind.
    + destruct (get_settings_collection w) as [_ Hc].
      destruct (get_settings E w) as [[st|e] w']; cbn [snd ret] in *; rewrite Hc;
        (destruct Ht as [-> | (d & t & -> & Hid & Hup)];
         [ right; eexists _, _; repeat split
         | rewrite (Hone d Hid); right; eauto ]).
    + destruct (update_settings_collection update w) as [_ Hc].
      destruct (update_settings E update w) as [[st|e] w']; cbn [snd ret] in *;
        rewrite Hc;
        (destruct Ht as [-> | (d & t & -> & Hid & Hup)];
         [ right; rewrite set_settings_update_data; eexists _, _; repeat split
         | rewrite (Hone d Hid); unfold is_settings; cbn; rewrite Hid; cbn;
           right; rewrite set_settings_update_data;
           eexists _, _; repeat split; exact Hid ]).
Qed.

Lemma serve_singletons (rs : list Request) (w : World) :
  singletons w -> singletons (serve E rs w).
Proof.
  revert w. induction rs as [|r rs IH]; intros w H; [exact H|].
  apply IH. now apply handle_singletons.
Qed.

(** X19. The singletons stay single.  After any sequence of requests
    on the empty store, the system-state collection and the settings
    collection each hold at most one document, stored under the
    well-known identifier, and the settings document has its
    [updated_at]. *)
Theorem singletons_kept (rs : list Request) :
  singletons (serve E rs initial_world).
Proof.
  apply serve_singletons. split; left; reflexivity.
Qed.

Lemma internal_error_respond {A} (wrap : A -> Response) (c : M A) (w : World) :
  internal_error (fst (respond wrap c w)) = internal_error (fst (c w)).
Proof.
  unfold respond, bind. destruct (c w) as [[a|e] w']; reflexivity.
Qed.

Lemma update_zone_outcome (zone_id : string) (update : ZoneUpdate) (w : World) :
  internal_error (fst (update_zone zone_id update w)) = false.
Proof.
  unfold update_zone. destruct (is_empty (zone_update_data update)); [reflexivity|].
  unfold bind, get_world, modify, with_zones, matched_count.
  destruct (find_one (zone_has_id zone_id) (zones (db w))) as [z|] eqn:Hz.
  - rewrite (find_one_existsb _ _ _ Hz). cbn [Nat.eqb fst snd db zones].
    destruct (find_one_split _ _ _ Hz) as (l1 & l2 & Hl & Hx & Hl1).
    rewrite (find_one_update_first _ (set_zone (zone_update_data update)) _ _ Hz)
      by (rewrite set_zone_update_data; exact Hx).
    reflexivity.
  - rewrite (find_one_none_existsb _ _ Hz). reflexivity.
Qed.

Lemma update_sensor_outcome (sensor_id : string) (update : SensorUpdate)
  (w : World) :
  internal_error (fst (update_sensor sensor_id update w)) = false.
Proof.
  unfold update_sensor.
  destruct (is_empty (sensor_update_data update)); [reflexivity|].
  destruct (encodable (sensor_update_data update)); [|reflexivity].
  unfold bind, ret, get_world, modify, with_sensors, matched_count.
  destruct (find_one (sensor_has_id sensor_id) (sensors (db w))) as [x|] eqn:Hs.
  - rewrite (find_one_existsb _ _ _ Hs). cbn [Nat.eqb fst snd db sensors].
    destruct (find_one_split _ _ _ Hs) as (l1 & l2 & Hl & Hx & Hl1).
    rewrite (find_one_update_first _ (set_sensor (sensor_update_data update))
               _ _ Hs)
      by (rewrite set_sensor_update_data; exact Hx).
    reflexivity.
  - rewrite (find_one_none_existsb _ _ Hs). reflexivity.
Qed.

Lemma handle_no_internal_error (r : Request) (w : World) :
  singletons w -> internal_error (fst (handle E r w)) = false.
Proof.
  intros [_ Ht].
  destruct r; cbn [handle]; rewrite internal_error_respond;
    lazymatch goal with
    | |- context [update_zone] => apply update_zone_outcome
    | |- context [update_sensor] => apply update_sensor_outcome
    | |- context [update_settings E ?u ?w] =>
        destruct (update_settings_stored E u w) as (w' & -> & _); reflexivity
    | |- context [trigger_sensor] =>
        destruct (find_one (sensor_has_id (trigger_sensor_id trigger))
                    (sensors (db w))) as [sensor|] eqn:Hs;
        [ destruct (trigger_sensor_world E trigger w sensor Hs)
            as (resp & w' & -> & _); reflexivity
        | unfold trigger_sensor, bind, get_world; now rewrite Hs ]
    | |- context [get_settings] =>
        unfold get_settings, bind, get_world;
        destruct Ht as [-> | (d & t & -> & Hid & Hup)];
        [ reflexivity
        | unfold find_one, is_settings; cbn [find]; rewrite Hid; cbn;
          rewrite Hup; reflexivity ]
    | |- _ => unfold_handlers; handler_cases E; reflexivity
    end.
Qed.

(** X20. After any sequence of requests on a system that started
    empty, the next request never ends in a [KeyError], an
    [AttributeError], a [TypeError] or an exception of the SMS provider:
    the documents and keys the handlers count on are there, and provider
    errors are caught.  (Other errors remain possible: the 400 and 404
    answers, the validation error of a null battery level, and the
    driver's refusals.) *)
Theorem no_internal_errors (rs : list Request) (r : Request) :
  internal_error (fst (handle E r (serve E rs initial_world))) = false.
Proof.
  apply handle_no_internal_error, serve_singletons.
  split; left; reflexivity.
Qed.
End Invariants.

Section Identifiers.
Variable E : Environ.
Hypothesis uuid4_injective : forall j k, uuid4 E j = uuid4 E k -> j = k.

Lemma drawn_mono (n m : nat) (ids : list string) :
  n <= m -> drawn E n ids -> drawn E m ids.
Proof.
  intros Hle [Hnd Hall]. split; [exact Hnd|].
  eapply Forall_impl; [|exact Hall].
  intros i (k & Hk & ->). exists k. split; [lia | reflexivity].
Qed.

Lemma drawn_snoc (k m : nat) (ids : list string) :
  drawn E k ids -> k < m -> drawn E m (ids ++ [uuid4 E k]).
Proof using uuid4_injective.
  intros [Hnd Hall] Hlt. split.
  - apply NoDup_app; [exact Hnd | repeat constructor; intros [] |].
    intros a Ha [<- | []].
    rewrite Forall_forall in Hall. destruct (Hall _ Ha) as (j & Hj & Heq).
    apply uuid4_injective in Heq. lia.
  - apply Forall_app. split.
    + eapply Forall_impl; [|exact Hall].
      intros i (j & Hj & ->). exists j. split; [lia | reflexivity].
    + repeat constructor. exists k. auto.
Qed.

Section Sub.
Context {A : Type}.
Variable g : A -> string.
Variable p : A -> bool.

Lemma in_map_delete_first (l : list A) (y : string) :
  In y (map g (delete_first p l)) -> In y (map g l).
Proof.
  induction l as [|a l IH]; cbn; [auto|].
  destruct (p a); cbn; intuition.
Qed.

Lemma in_map_filter (l : list A) (y : string) :
  In y (map g (filter p l)) -> In y (map g l).
Proof.
  induction l as [|a l IH]; cbn; [auto|].
  destruct (p a); cbn; intuition.
Qed.

Lemma drawn_delete_first (n : nat) (l : list A) :
  drawn E n (map g l) -> drawn E n (map g (delete_first p l)).
Proof.
  intros [Hnd Hall]. split.
  - induction l as [|a l IH]; cbn in *; [constructor|].
    inversion Hnd as [|? ? Hnotin Hnd']; subst.
    inversion Hall; subst.
    destruct (p a); [exact Hnd'|].
    cbn. constructor; [|now apply IH].
    intros Hin. apply Hnotin. now apply in_map_delete_first in Hin.
  - rewrite Forall_forall in *. intros y Hy.
    apply Hall. now apply in_map_delete_first in Hy.
Qed.

Lemma drawn_filter (n : nat) (l : list A) :
  drawn E n (map g l) -> drawn E n (map g (filter p l)).
Proof.
  intros [Hnd Hall]. split.
  - induction l as [|a l IH]; cbn in *; [constructor|].
    inversion Hnd as [|? ? Hnotin Hnd']; subst.
    inversion Hall; subst.
    destruct (p a); [|now apply IH].
    cbn. constructor; [|now apply IH].
    intros Hin. apply Hnotin. now apply in_map_filter in Hin.
  - rewrite Forall_forall in *. intros y Hy.
    apply Hall. now apply in_map_filter in Hy.
Qed.

Lemma map_update_first (f : A -> A) (l : list A) :
  (forall x, g (f x) = g x) ->
  map g (update_first p f l) = map g l.
Proof.
  intros Hf. induction l as [|a l IH]; cbn; [reflexivity|].
  destruct (p a); cbn; [now rewrite Hf | now rewrite IH].
Qed.
End Sub.

Lemma set_zone_id (data : list ZoneField) (z : Zone) :
  zone_id_ (set_zone data z) = zone_id_ z.
Proof.
  unfold set_zone. revert z.
  induction data as [|f data IH]; intros z; cbn; [reflexivity|].
  rewrite IH. destruct f; reflexivity.
Qed.

Lemma set_sensor_id (data : list SensorField) (s : Sensor) :
  sensor_id_ (set_sensor data s) = sensor_id_ s.
Proof.
  unfold set_sensor. revert s.
  induction data as [|f data IH]; intros s; cbn; [reflexivity|].
  rewrite IH. destruct f; reflexivity.
Qed.

(** Closes a goal [drawn n ids] for the identifiers of a collection
    after a handler, from the same fact before it. *)
Ltac solve_drawn :=
  unfold delete_all;
  rewrite ?map_app; cbn [map zone_id_ sensor_id_ event_id];
  repeat first
    [ apply drawn_snoc; [| lia]
    | apply drawn_delete_first
    | apply drawn_filter
    | rewrite (map_update_first zone_id_) by (intros; apply set_zone_id)
    | rewrite (map_update_first sensor_id_) by (intros; apply set_sensor_id) ];
  (eapply drawn_mono; [| eassumption]; lia).

Lemma send_sms_alert_ids_unique (msg : string) (w : World) :
  ids_unique E w -> ids_unique E (snd (send_sms_alert E msg w)).
Proof using uuid4_injective.
  intros (Hz & Hs & He).
  destruct (sms_disabled w || no_alert_phone_number w || twilio_unconfigured E)
    eqn:Hg.
  - destruct (send_sms_alert_refused E msg w Hg) as [line ->].
    unfold ids_unique. cbn [snd db zones sensors events uuid_draws]. auto.
  - destruct (send_sms_alert_dispatched E msg w Hg) as (st & to & _ & _ & ->).
    destruct (messages_create E _ _); unfold ids_unique;
      cbn [snd db zones sensors events uuid_draws];
      (split; [|split]); solve_drawn.
Qed.

Lemma handle_ids_unique (r : Request) (w : World) :
  ids_unique E w -> ids_unique E (snd (handle E r w)).
Proof using uuid4_injective.
  intros Hw. pose proof Hw as (Hz & Hs & He).
  destruct r; cbn [handle]; unfold_handlers;
    repeat
      (cbn [fst snd db zones sensors events system_state settings uuid_draws
            clock_reads twilio_requests log_records negb Nat.eqb ret];
       match goal with
       | |- context [send_sms_alert E ?m ?w3] =>
           let H3 := fresh "H3" in
           assert (H3 : ids_unique E w3)
             by (unfold ids_unique;
                 cbn [db zones sensors events uuid_draws];
                 (split; [|split]); solve_drawn);
           apply (send_sms_alert_ids_unique m) in H3;
           destruct (send_sms_alert E m w3) as [[? | ?] ?];
           cbn [snd] in H3
       | |- context [find_one ?p ?l] => destruct (find_one p l) eqn:?
       | |- context [existsb ?p ?l] => destruct (existsb p l) eqn:?
       | |- context [is_empty ?l] => destruct (is_empty l) eqn:?
       | |- context [encodable ?l] => destruct (encodable l) eqn:?
       | |- context [int64 ?x] => destruct (int64 x) eqn:?
       | |- context [Mode_eqb ?a ?b] => destruct (Mode_eqb a b)
       | |- context [match state_mode ?s with _ => _ end] =>
           destruct (state_mode s)
       | |- context [match ssu_mode ?u with _ => _ end] => destruct (ssu_mode u)
       | |- context [sc_battery_level ?x] => destruct (sc_battery_level x)
       | |- context [sd_updated_at ?x] => destruct (sd_updated_at x) eqn:?
       | |- context [Z.ltb ?a ?b] => destruct (Z.ltb a b)
       end);
    cbn [fst snd db zones sensors events system_state settings uuid_draws
         clock_reads twilio_requests log_records negb Nat.eqb ret];
    try assumption;
    unfold ids_unique; cbn [db zones sensors events uuid_draws];
    (split; [|split]); solve_drawn.
Qed.

Lemma serve_ids_unique (rs : list Request) (w : World) :
  ids_unique E w -> ids_unique E (serve E rs w).
Proof using uuid4_injective.
  revert w. induction rs as [|r rs IH]; intros w H; [exact H|].
  apply IH. now apply handle_ids_unique.
Qed.
End Identifiers.

Section IdentifierProperties.
Variable E : Environ.

Lemma drawn_fresh (n : nat) (ids : list string) :
  (forall j k, uuid4 E j = uuid4 E k -> j = k) ->
  drawn E n ids -> ~ In (uuid4 E n) ids.
Proof.
  intros Hinj [_ Hall] Hin. rewrite Forall_forall in Hall.
  destruct (Hall _ Hin) as (k & Hk & Heq). apply Hinj in Heq. lia.
Qed.

Lemma find_one_absent {A} (g : A -> string) (i : string) (l : list A) :
  ~ In i (map g l) -> find_one (fun x => String.eqb (g x) i) l = None.
Proof.
  unfold find_one. induction l as [|a l IH]; cbn; intros Hn; [reflexivity|].
  destruct (String.eqb_spec (g a) i) as [Heq | _]; [tauto|].
  apply IH. tauto.
Qed.

Lemma find_one_delete_all {A} (p : A -> bool) (l : list A) :
  find_one p (delete_all p l) = None.
Proof.
  unfold find_one, delete_all. induction l as [|a l IH]; cbn; [reflexivity|].
  destruct (p a) eqn:Ha; cbn; [exact IH|]. now rewrite Ha.
Qed.

Lemma initial_ids_unique : ids_unique E initial_world.
Proof. repeat split; constructor. Qed.

(** X21. Identifiers are never reused.  If the identifier source never
    repeats itself, then after any sequence of requests on the empty
    store no two zones share an identifier, no two sensors do, and no
    two events do; updates keep identifiers, deletions free none for
    reuse. *)
Theorem identifiers_never_reused (rs : list Request) :
  (forall j k, uuid4 E j = uuid4 E k -> j = k) ->
  let w := serve E rs initial_world in
  NoDup (map zone_id_ (zones (db w))) /\
  NoDup (map sensor_id_ (sensors (db w))) /\
  NoDup (map event_id (events (db w))).
Proof.
  intros Hinj w.
  destruct (serve_ids_unique E Hinj rs initial_world initial_ids_unique)
    as ((Hz & _) & (Hs & _) & (He & _)).
  auto.
Qed.

(** X22. With such an identifier source, what is deleted is gone: in a
    world reached from the empty store, after [delete_zone] on a zone
    that is found no zone is found under that identifier and no sensor
    refers to it, and after [delete_sensor] on a sensor that is found no
    sensor is found under that identifier. *)
Theorem deleted_is_gone (rs : list Request) :
  (forall j k, uuid4 E j = uuid4 E k -> j = k) ->
  let w := serve E rs initial_world in
  (forall zone_id zone,
      find_one (zone_has_id zone_id) (zones (db w)) = Some zone ->
      let w' := snd (delete_zone E zone_id w) in
      find_one (zone_has_id zone_id) (zones (db w')) = None /\
      find_one (sensor_in_zone zone_id) (sensors (db w')) = None) /\
  (forall sensor_id sensor,
      find_one (sensor_has_id sensor_id) (sensors (db w)) = Some sensor ->
      let w' := snd (delete_sensor E sensor_id w) in
      find_one (sensor_has_id sensor_id) (sensors (db w')) = None).
Proof.
  intros Hinj w.
  destruct (serve_ids_unique E Hinj rs initial_world initial_ids_unique)
    as ((Hz & _) & (Hs & _) & _).
  fold w in Hz, Hs. split.
  - intros zone_id zone Hf w'. subst w'.
    unfold delete_zone, bind, get_world. rewrite Hf.
    unfold modify, with_sensors, with_zones. rewrite log_event_run.
    cbn [fst snd ret db zones sensors events].
    destruct (find_one_split _ _ _ Hf) as (l1 & l2 & Hl & Hx & Hl1).
    rewrite Hl in *. rewrite delete_first_split by assumption.
    split.
    + apply (find_one_absent zone_id_). rewrite map_app in *. cbn in Hz.
      apply NoDup_remove_2 in Hz. apply String.eqb_eq in Hx.
      now rewrite <- Hx.
    + apply find_one_delete_all.
  - intros sensor_id sensor Hf w'. subst w'.
    unfold delete_sensor, bind, get_world. rewrite Hf.
    unfold modify, with_sensors. rewrite log_event_run.
    cbn [fst snd ret db zones sensors events].
    destruct (find_one_split _ _ _ Hf) as (l1 & l2 & Hl & Hx & Hl1).
    rewrite Hl in *. rewrite delete_first_split by assumption.
    apply (find_one_absent sensor_id_). rewrite map_app in *. cbn in Hs.
    apply NoDup_remove_2 in Hs. apply String.eqb_eq in Hx.
    now rewrite <- Hx.
Qed.

(** X23. With such an identifier source, what is created can be found:
    in a world reached from the empty store, the identifier drawn by
    [create_zone] is in use by no zone, so a lookup by the identifier of
    the returned zone finds that zone; and likewise for [create_sensor]
    when it succeeds. *)
Theorem created_is_found (rs : list Request) :
  (forall j k, uuid4 E j = uuid4 E k -> j = k) ->
  let w := serve E rs initial_world in
  (forall zone_data,
      exists zone,
        fst (create_zone E zone_data w) = Return zone /\
        find_one (zone_has_id (zone_id_ zone)) (zones (db w)) = None /\
        find_one (zone_has_id (zone_id_ zone))
                 (zones (db (snd (create_zone E zone_data w)))) = Some zone) /\
  (forall sensor_data sensor,
      fst (create_sensor E sensor_data w) = Return sensor ->
      find_one (sensor_has_id (sensor_id_ sensor)) (sensors (db w)) = None /\
      find_one (sensor_has_id (sensor_id_ sensor))
               (sensors (db (snd (create_sensor E sensor_data w))))
      = Some sensor).
Proof.
  intros Hinj w.
  destruct (serve_ids_unique E Hinj rs initial_world initial_ids_unique)
    as (Hz & Hs & _).
  fold w in Hz, Hs.
  assert (Hfz : find_one (zone_has_id (uuid4 E (uuid_draws w))) (zones (db w))
                = None).
  { apply (find_one_absent zone_id_). now apply drawn_fresh. }
  assert (Hfs : find_one (sensor_has_id (uuid4 E (uuid_draws w)))
                         (sensors (db w)) = None).
  { apply (find_one_absent sensor_id_). now apply drawn_fresh. }
  split.
  - intros zone_data.
    unfold create_zone, bind, uuid4_str, datetime_now, modify, with_zones.
    rewrite log_event_run.
    cbn [fst snd ret db zones uuid_draws clock_reads zone_name zone_id_].
    eexists. split; [reflexivity|]. cbn [zone_id_]. split; [exact Hfz|].
    rewrite find_one_app_skip by now apply find_one_none_existsb.
    unfold find_one, zone_has_id. cbn. now rewrite String.eqb_refl.
  - intros sensor_data sensor.
    unfold create_sensor, bind, get_world.
    destruct (find_one (zone_has_id (sc_zone_id sensor_data)) (zones (db w)));
      [|discriminate].
    unfold uuid4_str, datetime_now.
    destruct (sc_battery_level sensor_data) as [battery|]; [|discriminate].
    destruct (int64 battery); [|discriminate].
    unfold ret, modify, with_sensors. rewrite log_event_run.
    cbn [fst snd ret db sensors uuid_draws clock_reads sensor_name sensor_id_
         sensor_type sensor_zone_id].
    intros Hret. injection Hret as <-. cbn [sensor_id_]. split; [exact Hfs|].
    rewrite find_one_app_skip by now apply find_one_none_existsb.
    unfold find_one, sensor_has_id. cbn. now rewrite String.eqb_refl.
Qed.
End IdentifierProperties.

Section Dispatch.
Variable E : Environ.

(** X24. Only a trigger on an armed system can reach the SMS provider:
    every other request leaves the list of provider calls as it was,
    and no request makes more than one call. *)
Theorem only_armed_triggers_send (r : Request) (w : World) :
  exists new,
    twilio_requests (snd (handle E r w)) = twilio_requests w ++ new /\
    length new <= 1 /\
    (may_send r w = false -> new = []).
Proof.
  assert (Hnone : forall w', twilio_requests w' = twilio_requests w ->
            exists new, twilio_requests w' = twilio_requests w ++ new /\
                        length new <= 1 /\ (may_send r w = false -> new = [])).
  { intros w' ->. exists []. rewrite app_nil_r. cbn. auto. }
  destruct r; cbn [handle];
    lazymatch goal with
    | |- context [trigger_sensor] => idtac
    | |- _ =>
        apply Hnone; unfold_handlers; handler_cases E; congruence
    end.
  unfold respond, bind.
  destruct (find_one (sensor_has_id (trigger_sensor_id trigger))
              (sensors (db w))) as [sensor|] eqn:Hs.
  - destruct (trigger_sensor_prelude E trigger w sensor Hs)
      as (state & w2 & Hmode & _ & _ & _ & _ & Htw & _ & ->).
    cbv zeta. unfold may_send. rewrite <- Hmode.
    destruct (state_mode state); unfold bind; rewrite log_event_run.
    + match goal with
      | |- context [send_sms_alert E ?m ?w3] =>
          destruct (send_sms_alert_footprint E m w3)
            as (b & w4 & line & Hsms & _ & _ & _ & _ & _ & Htw4 & _);
          rewrite Hsms
      end.
      cbn [fst snd ret twilio_requests] in *. rewrite Htw in Htw4.
      destruct Htw4 as [-> | (req & ->)].
      * exists []. rewrite app_nil_r. cbn. auto.
      * exists [req]. cbn. repeat split; auto. discriminate.
    + cbn [fst snd ret twilio_requests]. rewrite Htw.
      exists []. rewrite app_nil_r. cbn. auto.
    + cbn [fst snd ret twilio_requests]. rewrite Htw.
      exists []. rewrite app_nil_r. cbn. auto.
  - unfold trigger_sensor, bind, get_world. rewrite Hs.
    cbn. exists []. rewrite app_nil_r. cbn. auto.
Qed.
End Dispatch.

Section Audit.
Variable E : Environ.

Lemma delete_all_true {A} (l : list A) : delete_all (fun _ => true) l = [].
Proof. unfold delete_all. induction l; [reflexivity | assumption]. Qed.

(** Closes a goal that bounds the "sms_sent" events of a world after a
    handler by its provider calls, from the bound before it. *)
Ltac solve_audit :=
  cbn [db events twilio_requests];
  rewrite ?delete_all_true, ?count_documents_snoc, ?length_app;
  cbn [is_sms_sent event_type EventType_eqb EventType_str String.eqb Ascii.eqb
       Bool.eqb count_documents filter length app];
  lia.

Lemma send_sms_alert_audit (msg : string) (w : World) :
  count_documents is_sms_sent (events (db w)) <= length (twilio_requests w) ->
  count_documents is_sms_sent (events (db (snd (send_sms_alert E msg w))))
  <= length (twilio_requests (snd (send_sms_alert E msg w))).
Proof.
  intros H.
  destruct (sms_disabled w || no_alert_phone_number w || twilio_unconfigured E)
    eqn:Hg.
  - destruct (send_sms_alert_refused E msg w Hg) as [line ->]. exact H.
  - destruct (send_sms_alert_dispatched E msg w Hg) as (st & to & _ & _ & ->).
    destruct (messages_create E _ _); cbn [snd]; solve_audit.
Qed.

Lemma handle_audit (r : Request) (w : World) :
  count_documents is_sms_sent (events (db w)) <= length (twilio_requests w) ->
  count_documents is_sms_sent (events (db (snd (handle E r w))))
  <= length (twilio_requests (snd (handle E r w))).
Proof.
  intros Hw.
  destruct r; cbn [handle]; unfold_handlers;
    repeat
      (cbn [fst snd db zones sensors events system_state settings uuid_draws
            clock_reads twilio_requests log_records negb Nat.eqb ret];
       match goal with
       | |- context [send_sms_alert E ?m ?w3] =>
           let H3 := fresh "H3" in
           assert (H3 : count_documents is_sms_sent (events (db w3))
                        <= length (twilio_requests w3)) by solve_audit;
           apply (send_sms_alert_audit m) in H3;
           destruct (send_sms_alert E m w3) as [[? | ?] ?];
           cbn [snd] in H3
       | |- context [find_one ?p ?l] => destruct (find_one p l) eqn:?
       | |- context [existsb ?p ?l] => destruct (existsb p l) eqn:?
       | |- context [is_empty ?l] => destruct (is_empty l) eqn:?
       | |- context [encodable ?l] => destruct (encodable l) eqn:?
       | |- context [int64 ?x] => destruct (int64 x) eqn:?
       | |- context [Mode_eqb ?a ?b] => destruct (Mode_eqb a b)
       | |- context [match state_mode ?s with _ => _ end] =>
           destruct (state_mode s)
       | |- context [match ssu_mode ?u with _ => _ end] => destruct (ssu_mode u)
       | |- context [sc_battery_level ?x] => destruct (sc_battery_level x)
       | |- context [sd_updated_at ?x] => destruct (sd_updated_at x) eqn:?
       | |- context [Z.ltb ?a ?b] => destruct (Z.ltb a b)
       end);
    cbn [fst snd db zones sensors events system_state settings uuid_draws
         clock_reads twilio_requests log_records negb Nat.eqb ret];
    first [assumption | solve_audit].
Qed.

(** X25. The log never claims an SMS that was not handed to the
    provider: after any sequence of requests on the empty store, the
    "sms_sent" events in the log are no more than the calls made to the
    provider. *)
Theorem sms_sent_events_are_backed (rs : list Request) :
  let w := serve E rs initial_world in
  count_documents is_sms_sent (events (db w)) <= length (twilio_requests w).
Proof.
  cbv zeta.
  assert (H : forall w,
             count_documents is_sms_sent (events (db w))
             <= length (twilio_requests w) ->
             count_documents is_sms_sent (events (db (serve E rs w)))
             <= length (twilio_requests (serve E rs w))).
  { induction rs as [|r rs IH]; intros w Hw; [exact Hw|].
    apply IH. now apply handle_audit. }
  apply H. cbn. lia.
Qed.
End Audit.

Section References.
Variable E : Environ.

Local Abbreviation refs zs ss :=
  (Forall (fun s => existsb (zone_has_id (sensor_zone_id s)) zs = true) ss).

Lemma existsb_zone_update (i : string) (p : Zone -> bool)
  (data : list ZoneField) (zs : list Zone) :
  existsb (zone_has_id i) (update_first p (set_zone data) zs)
  = existsb (zone_has_id i) zs.
Proof.
  induction zs as [|a zs IH]; cbn; [reflexivity|].
  destruct (p a); cbn; [|now rewrite IH].
  unfold zone_has_id at 1 3. now rewrite set_zone_id.
Qed.

Lemma existsb_zone_delete (i z : string) (zs : list Zone) :
  i <> z ->
  existsb (zone_has_id i) (delete_first (zone_has_id z) zs)
  = existsb (zone_has_id i) zs.
Proof.
  intros Hne. induction zs as [|a zs IH]; cbn; [reflexivity|].
  destruct (zone_has_id z a) eqn:Ha; cbn; [|now rewrite IH].
  unfold zone_has_id in *. apply String.eqb_eq in Ha.
  destruct (String.eqb_spec (zone_id_ a) i); [congruence | reflexivity].
Qed.

Lemma refs_sensors_update (zs : list Zone) (ss : list Sensor)
  (p : Sensor -> bool) (f : Sensor -> Sensor) :
  (forall s, sensor_zone_id (f s) = sensor_zone_id s) ->
  refs zs ss -> refs zs (update_first p f ss).
Proof.
  intros Hf H. induction H as [|a ss Ha H IH]; cbn; [constructor|].
  destruct (p a); constructor; auto. now rewrite Hf.
Qed.

Lemma refs_sensors_delete_first (zs : list Zone) (ss : list Sensor)
  (p : Sensor -> bool) :
  refs zs ss -> refs zs (delete_first p ss).
Proof.
  intros H. induction H as [|a ss Ha H IH]; cbn; [constructor|].
  destruct (p a); [assumption | constructor; auto].
Qed.

Lemma refs_sensors_snoc (zs : list Zone) (ss : list Sensor) (s : Sensor) :
  existsb (zone_has_id (sensor_zone_id s)) zs = true ->
  refs zs ss -> refs zs (ss ++ [s]).
Proof.
  intros Hs H. apply Forall_app. split; [exact H|]. repeat constructor. exact Hs.
Qed.

Lemma refs_zones_snoc (zs : list Zone) (ss : list Sensor) (z : Zone) :
  refs zs ss -> refs (zs ++ [z]) ss.
Proof.
  intros H. eapply Forall_impl; [|exact H].
  intros s Hs. cbn beta in *. rewrite existsb_app, Hs. reflexivity.
Qed.

Lemma refs_zones_update (zs : list Zone) (ss : list Sensor)
  (p : Zone -> bool) (data : list ZoneField) :
  refs zs ss -> refs (update_first p (set_zone data) zs) ss.
Proof.
  intros H. eapply Forall_impl; [|exact H].
  intros s Hs. cbn beta in *. now rewrite existsb_zone_update.
Qed.

Lemma refs_delete_zone (zs : list Zone) (ss : list Sensor) (z : string) :
  refs zs ss ->
  refs (delete_first (zone_has_id z) zs) (delete_all (sensor_in_zone z) ss).
Proof.
  intros H. unfold delete_all.
  induction H as [|a ss Ha H IH]; cbn; [constructor|].
  destruct (sensor_in_zone z a) eqn:Hz; cbn; [exact IH|].
  constructor; [|exact IH].
  rewrite existsb_zone_delete; [exact Ha|].
  unfold sensor_in_zone in Hz. now apply String.eqb_neq in Hz.
Qed.

Lemma set_sensor_keeps_zone (update : SensorUpdate) (s : Sensor) :
  su_zone_id update = None ->
  sensor_zone_id (set_sensor (sensor_update_data update) s) = sensor_zone_id s.
Proof.
  intros H. rewrite set_sensor_update_data. cbn. now rewrite H.
Qed.

Ltac solve_refs :=
  unfold refs_ok in *; cbn [db zones sensors] in *;
  repeat match goal with
  | H : zones (db _) = _ |- _ => rewrite H; clear H
  | H : sensors (db _) = _ |- _ => rewrite H; clear H
  end;
  repeat first
    [ assumption
    | apply refs_delete_zone
    | apply refs_sensors_update;
        [ intros; first [ reflexivity
                        | apply set_sensor_keeps_zone; assumption ] | ]
    | apply refs_sensors_delete_first
    | apply refs_sensors_snoc;
        [ cbn [sensor_zone_id]; eapply find_one_existsb; eassumption | ]
    | apply refs_zones_snoc
    | apply refs_zones_update ].

Lemma handle_refs (r : Request) (w : World) :
  keeps_zone r = true -> refs_ok w -> refs_ok (snd (handle E r w)).
Proof.
  intros Hr Hw.
  destruct r; cbn [handle]; unfold_handlers; handler_cases E;
    cbn [keeps_zone] in Hr;
    try match type of Hr with
        | context [su_zone_id ?u] =>
            destruct (su_zone_id u) eqn:?; [discriminate|]
        end;
    solve_refs.
Qed.

(** X26. The stored sensors keep referring to stored zones as long as no
    sensor update moves a sensor: after any sequence of requests on the
    empty store in which no PUT of a sensor carries a zone_id, every
    sensor's zone_id is the identifier of a stored zone.  Creation checks
    the zone, and deleting a zone takes its sensors with it. *)
Theorem sensors_refer_to_zones (rs : list Request) :
  forallb keeps_zone rs = true ->
  let w := serve E rs initial_world in
  Forall (fun s => exists z,
              find_one (zone_has_id (sensor_zone_id s)) (zones (db w)) = Some z)
         (sensors (db w)).
Proof.
  intros Hrs w.
  assert (H : forall w0, refs_ok w0 -> refs_ok (serve E rs w0)).
  { induction rs as [|r rs IH]; intros w0 Hw0; [exact Hw0|].
    cbn [forallb] in Hrs. apply andb_true_iff in Hrs as [Hr Hrs].
    apply (IH Hrs). now apply handle_refs. }
  assert (Hw : refs_ok w) by (apply H; constructor).
  unfold refs_ok in Hw. eapply Forall_impl; [|exact Hw].
  intros s Hs. cbn beta in Hs.
  destruct (find_one (zone_has_id (sensor_zone_id s)) (zones (db w))) as [z|] eqn:Hf.
  - now exists z.
  - apply find_one_none_existsb in Hf. congruence.
Qed.
End References.

Section Encoding.
Variable E : Environ.

(** X27. A battery level that does not fit eight bytes is refused by the
    driver before anything reaches the store.  [create_sensor] for an
    existing zone then ends in an [OverflowError] with nothing stored
    and nothing logged, and [update_sensor] ends in the same error with
    the world unchanged, whether or not the sensor exists. *)
Theorem out_of_range_battery_is_refused (battery : Z) (w : World) :
  int64 battery = false ->
  (forall sensor_data zone,
      find_one (zone_has_id (sc_zone_id sensor_data)) (zones (db w)) = Some zone ->
      sc_battery_level sensor_data = Some battery ->
      fst (create_sensor E sensor_data w) = Raise bson_overflow /\
      db (snd (create_sensor E sensor_data w)) = db w /\
      twilio_requests (snd (create_sensor E sensor_data w)) = twilio_requests w) /\
  (forall sensor_id update,
      su_battery_level update = Some battery ->
      update_sensor sensor_id update w = (Raise bson_overflow, w)).
Proof.
  intros H64. split.
  - intros sensor_data zone Hz Hb.
    unfold create_sensor, bind, get_world. rewrite Hz.
    unfold uuid4_str, datetime_now. rewrite Hb, H64. cbn. auto.
  - intros sensor_id update Hb.
    assert (Hne : is_empty (sensor_update_data update) = false).
    { destruct update as [[n|] [z|] [st|] [b|]]; try reflexivity;
        discriminate Hb. }
    assert (Henc : encodable (sensor_update_data update) = false).
    { rewrite encodable_sensor_update_data, Hb. exact H64. }
    unfold update_sensor. rewrite Hne, Henc. reflexivity.
Qed.
End Encoding.

(* ================================================================== *)
(** ** The further properties at concrete inputs *)

Lemma run_of_a_injective (j k : nat) :
  Fixture.run_of_a j = Fixture.run_of_a k -> j = k.
Proof.
  revert k. induction j as [|j IH]; destruct k as [|k]; cbn; intros H;
    try discriminate; [reflexivity|].
  injection H as H. f_equal. now apply IH.
Qed.

Lemma not_found_leaves_world_witness :
  find_one (zone_has_id "nope") (zones (db (Demo.store armed true))) = None /\
  delete_zone (Demo.env true) "nope" (Demo.store armed true)
  = (Raise (HTTPException 404 "Zone not found"), Demo.store armed true).
Proof.
  split; [reflexivity|].
  exact (proj1 (proj1 (not_found_leaves_world (Demo.env true)
                         (Demo.store armed true)) "nope" eq_refl)).
Defined.

Lemma create_zone_then_find_witness :
  find_one (zone_has_id "id-7") (zones (db (Demo.store armed true))) = None /\
  find_one (zone_has_id "id-7")
    (zones (db (snd (create_zone (Demo.env true)
                       (mkZoneCreate "Loft" None None) (Demo.store armed true)))))
  = Some (mkZone "id-7" "Loft" None None 1007%Z).
Proof.
  split; [reflexivity|].
  exact (proj1 (proj2 (create_zone_then_find (Demo.env true)
                         (mkZoneCreate "Loft" None None) (Demo.store armed true)
                         eq_refl))).
Defined.

Lemma create_sensor_then_find_witness :
  find_one (zone_has_id "z1") (zones (db (Demo.store armed true)))
  = Some Demo.hall /\
  find_one (sensor_has_id "id-7") (sensors (db (Demo.store armed true))) = None /\
  int64 50 = true /\
  fst (create_sensor (Demo.env true) (mkSensorCreate "Back" door "z1" (Some 50%Z))
                     (Demo.store armed true))
  = Return (mkSensor "id-7" "Back" door "z1" inactive 50%Z None 1007%Z).
Proof.
  split; [reflexivity|]. split; [reflexivity|]. split; [reflexivity|].
  exact (proj1 (create_sensor_then_find (Demo.env true)
                  (mkSensorCreate "Back" door "z1" (Some 50%Z))
                  (Demo.store armed true) Demo.hall 50%Z
                  eq_refl eq_refl eq_refl eq_refl)).
Defined.

Lemma create_sensor_null_battery_witness :
  find_one (zone_has_id "z1") (zones (db (Demo.store armed true)))
  = Some Demo.hall /\
  db (snd (create_sensor (Demo.env true) (mkSensorCreate "Back" door "z1" None)
                         (Demo.store armed true)))
  = db (Demo.store armed true).
Proof.
  split; [reflexivity|].
  exact (proj1 (proj2 (create_sensor_null_battery (Demo.env true)
                         (mkSensorCreate "Back" door "z1" None)
                         (Demo.store armed true) Demo.hall eq_refl eq_refl))).
Defined.

Lemma create_then_delete_zone_witness :
  find_one (zone_has_id "id-7") (zones (db (Demo.store armed true))) = None /\
  count_documents (sensor_in_zone "id-7") (sensors (db (Demo.store armed true)))
  = 0 /\
  zones (db (snd (delete_zone (Demo.env true) "id-7"
                    (snd (create_zone (Demo.env true)
                            (mkZoneCreate "Loft" None None)
                            (Demo.store armed true))))))
  = zones (db (Demo.store armed true)).
Proof.
  split; [reflexivity|]. split; [reflexivity|].
  exact (proj1 (proj2 (create_then_delete_zone (Demo.env true)
                         (mkZoneCreate "Loft" None None) (Demo.store armed true)
                         eq_refl eq_refl))).
Defined.

Lemma delete_sensor_effect_witness :
  find_one (sensor_has_id "s2") (sensors (db (Demo.store armed true)))
  = Some Demo.front /\
  fst (delete_sensor (Demo.env true) "s2" (Demo.store armed true))
  = Return "Sensor deleted".
Proof.
  split; [reflexivity|].
  exact (proj1 (delete_sensor_effect (Demo.env true) "s2"
                  (Demo.store armed true) Demo.front eq_refl)).
Defined.

Lemma enabled_settings_dispatch_witness :
  twilio_unconfigured (Demo.env true) = false /\
  twilio_requests
    (snd (send_sms_alert (Demo.env true) "alert"
            (snd (update_settings (Demo.env true)
                    (mkSettingsUpdate (Some true) (Some "+1999"))
                    initial_world))))
  = [mkSmsRequest "alert" (Some "+15550000") "+1999"].
Proof.
  split; [reflexivity|].
  assert (Hne : "+1999" <> "") by discriminate.
  exact (proj1 (enabled_settings_dispatch (Demo.env true)
                  (mkSettingsUpdate (Some true) (Some "+1999")) "+1999" "alert"
                  initial_world eq_refl eq_refl Hne eq_refl)).
Defined.

Lemma disabled_settings_refuse_witness :
  stu_sms_enabled (mkSettingsUpdate (Some false) None) = Some false /\
  fst (send_sms_alert (Demo.env true) "alert"
         (snd (update_settings (Demo.env true) (mkSettingsUpdate (Some false) None)
                               (Demo.store armed true))))
  = Return false.
Proof.
  split; [reflexivity|].
  exact (proj1 (disabled_settings_refuse (Demo.env true)
                  (mkSettingsUpdate (Some false) None) "alert"
                  (Demo.store armed true) eq_refl)).
Defined.

Lemma trigger_then_reset_witness :
  find_one (sensor_has_id "s1") (sensors (db (Demo.store armed true)))
  = Some Demo.pir /\
  find_one (sensor_has_id "s1")
    (sensors (db (snd (reset_sensor "s1"
                         (snd (trigger_sensor (Demo.env true)
                                 (mkSensorTrigger "s1")
                                 (Demo.store armed true)))))))
  = Some (mkSensor "s1" "PIR" motion "z1" active 100%Z (Some 1007%Z) 2%Z).
Proof.
  split; [reflexivity|].
  exact (proj1 (proj2 (trigger_then_reset (Demo.env true) "s1"
                         (Demo.store armed true) Demo.pir eq_refl))).
Defined.

Lemma trigger_sensor_messages_witness :
  find_one (sensor_has_id "s3") (sensors (db (Demo.store monitoring true)))
  = Some Demo.shed /\
  exists resp,
    fst (trigger_sensor (Demo.env true) (mkSensorTrigger "s3")
                        (Demo.store monitoring true)) = Return resp /\
    message resp = "Movement logged: Window opened - Shed in Unknown Zone".
Proof.
  split; [reflexivity|].
  destruct (trigger_sensor_messages (Demo.env true) (mkSensorTrigger "s3")
              (Demo.store monitoring true) Demo.shed eq_refl)
    as (resp & ev & rest & Hr & _ & Hm).
  exists resp. split; [exact Hr | exact (proj1 Hm)].
Defined.

Lemma moved_sensor_triggers_in_unknown_zone_witness :
  find_one (sensor_has_id "s1") (sensors (db (Demo.store disarmed true)))
  = Some Demo.pir /\
  find_one (zone_has_id "zz") (zones (db (Demo.store disarmed true))) = None /\
  exists resp,
    fst (trigger_sensor (Demo.env true) (mkSensorTrigger "s1")
           (snd (update_sensor "s1" (mkSensorUpdate None (Some "zz") None None)
                               (Demo.store disarmed true)))) = Return resp /\
    message resp = "Logged: Motion detected - PIR in Unknown Zone".
Proof.
  split; [reflexivity|]. split; [reflexivity|].
  exact (proj2 (moved_sensor_triggers_in_unknown_zone (Demo.env true) "s1" "zz"
                  (Demo.store disarmed true) Demo.pir eq_refl eq_refl)).
Defined.

Lemma dashboard_after_trigger_witness :
  find_one (sensor_has_id "s1") (sensors (db (Demo.store armed true)))
  = Some Demo.pir /\
  exists d d',
    fst (get_dashboard_stats (Demo.env true) (Demo.store armed true)) = Return d /\
    fst (get_dashboard_stats (Demo.env true)
           (snd (trigger_sensor (Demo.env true) (mkSensorTrigger "s1")
                                (Demo.store armed true)))) = Return d' /\
    triggered_count d' = triggered_count d + 1.
Proof.
  split; [reflexivity|].
  destruct (dashboard_after_trigger (Demo.env true) (mkSensorTrigger "s1")
              (Demo.store armed true) Demo.pir eq_refl)
    as (d & d' & H1 & H2 & H3 & _).
  exists d, d'. auto.
Defined.

Lemma dashboard_after_reset_witness :
  find_one (sensor_has_id "s3") (sensors (db (Demo.store armed true)))
  = Some Demo.shed /\
  exists d d',
    fst (get_dashboard_stats (Demo.env true) (Demo.store armed true)) = Return d /\
    fst (get_dashboard_stats (Demo.env true)
           (snd (reset_sensor "s3" (Demo.store armed true)))) = Return d' /\
    triggered_count d' + 1 = triggered_count d.
Proof.
  split; [reflexivity|].
  destruct (dashboard_after_reset (Demo.env true) "s3" (Demo.store armed true)
              Demo.shed eq_refl)
    as (d & d' & H1 & H2 & H3 & _).
  exists d, d'. auto.
Defined.

Lemma event_log_append_only_witness :
  is_DELETE_events (POST_sensors_trigger (mkSensorTrigger "s2")) = false /\
  exists new,
    events (db (snd (handle (Demo.env true)
                       (POST_sensors_trigger (mkSensorTrigger "s2"))
                       (Demo.store armed true))))
    = events (db (Demo.store armed true)) ++ new /\
    length new <= 2.
Proof.
  split; [reflexivity|].
  exact (event_log_append_only (Demo.env true)
           (POST_sensors_trigger (mkSensorTrigger "s2")) (Demo.store armed true)
           eq_refl).
Defined.

Lemma identifiers_never_reused_witness :
  (forall j k, uuid4 Fixture.env j = uuid4 Fixture.env k -> j = k) /\
  NoDup (map event_id
           (events (db (serve Fixture.env Fixture.session initial_world)))).
Proof.
  split; [exact run_of_a_injective|].
  exact (proj2 (proj2 (identifiers_never_reused Fixture.env Fixture.session
                         run_of_a_injective))).
Defined.

Lemma deleted_is_gone_witness :
  (forall j k, uuid4 Fixture.env j = uuid4 Fixture.env k -> j = k) /\
  find_one (zone_has_id "")
    (zones (db (serve Fixture.env Fixture.session initial_world)))
  = Some (mkZone "" "Hall" (Some "") (Some "") 0%Z) /\
  find_one (zone_has_id "")
    (zones (db (snd (delete_zone Fixture.env ""
                       (serve Fixture.env Fixture.session initial_world)))))
  = None.
Proof.
  split; [exact run_of_a_injective|]. split; [reflexivity|].
  exact (proj1 (proj1 (deleted_is_gone Fixture.env Fixture.session
                         run_of_a_injective)
                      "" (mkZone "" "Hall" (Some "") (Some "") 0%Z) eq_refl)).
Defined.

Lemma created_is_found_witness :
  (forall j k, uuid4 Fixture.env j = uuid4 Fixture.env k -> j = k) /\
  exists zone,
    fst (create_zone Fixture.env (mkZoneCreate "Shed" None None)
                     (serve Fixture.env Fixture.session initial_world))
    = Return zone /\
    find_one (zone_has_id (zone_id_ zone))
      (zones (db (snd (create_zone Fixture.env (mkZoneCreate "Shed" None None)
                         (serve Fixture.env Fixture.session initial_world)))))
    = Some zone.
Proof.
  split; [exact run_of_a_injective|].
  destruct (proj1 (created_is_found Fixture.env Fixture.session
                     run_of_a_injective) (mkZoneCreate "Shed" None None))
    as (zone & Hr & _ & Hf).
  exists zone. auto.
Defined.

Lemma only_armed_triggers_send_witness :
  may_send (DELETE_zones "z1") (Demo.store armed true) = false /\
  twilio_requests (snd (handle (Demo.env true) (DELETE_zones "z1")
                               (Demo.store armed true)))
  = twilio_requests (Demo.store armed true).
Proof.
  split; [reflexivity|].
  destruct (only_armed_triggers_send (Demo.env true) (DELETE_zones "z1")
              (Demo.store armed true)) as (new & H1 & _ & H3).
  rewrite (H3 eq_refl), app_nil_r in H1. exact H1.
Defined.

Lemma sensors_refer_to_zones_witness :
  forallb keeps_zone Demo.session = true /\
  Forall (fun s => exists z,
              find_one (zone_has_id (sensor_zone_id s))
                (zones (db (serve (Demo.env true) Demo.session initial_world)))
              = Some z)
         (sensors (db (serve (Demo.env true) Demo.session initial_world))).
Proof.
  split; [reflexivity|].
  exact (sensors_refer_to_zones (Demo.env true) Demo.session eq_refl).
Defined.

(** Outside the worlds the handlers can reach, [get_settings] can fail:
    on a settings document without [updated_at] it ends in a
    [KeyError]. *)
Example get_settings_needs_updated_at :
  fst (get_settings (Demo.env true)
         (mkWorld (mkDb [] [] [] [] [mkSettingsDoc "settings" None None None])
                  0 0 [] []))
  = Raise (KeyError "updated_at").
Proof. reflexivity. Qed.


Lemma out_of_range_battery_is_refused_witness :
  int64 9223372036854775808 = false /\
  find_one (zone_has_id "z1") (zones (db (Demo.store armed true)))
  = Some Demo.hall /\
  fst (create_sensor (Demo.env true)
         (mkSensorCreate "Back" door "z1" (Some 9223372036854775808%Z))
         (Demo.store armed true))
  = Raise bson_overflow /\
  update_sensor "s1" (mkSensorUpdate None None None (Some 9223372036854775808%Z))
                (Demo.store armed true)
  = (Raise bson_overflow, Demo.store armed true).
Proof.
  split; [reflexivity|]. split; [reflexivity|].
  pose proof (out_of_range_battery_is_refused (Demo.env true)
                9223372036854775808%Z (Demo.store armed true) eq_refl)
    as [Hc Hu].
  split.
  - exact (proj1 (Hc (mkSensorCreate "Back" door "z1"
                        (Some 9223372036854775808%Z))
                     Demo.hall eq_refl eq_refl)).
  - exact (Hu "s1" (mkSensorUpdate None None None (Some 9223372036854775808%Z))
              eq_refl).
Defined.

(** The largest and the smallest battery level the store takes. *)
Example int64_bounds :
  int64 9223372036854775807 = true /\ int64 (-9223372036854775808) = true /\
  int64 9223372036854775808 = false /\ int64 (-9223372036854775809) = false.
Proof. repeat split. Qed.
